(** * covidcast: the table, its freshness timestamps and the ingest driver

    A shallow embedding of [src/acquisition/covidcast/database.py].  Every
    method of [Database] is one SQL statement sent through a cursor; the
    statement is embedded as the list program it denotes over the rows of
    table [covidcast].  [UNIX_TIMESTAMP(NOW())] is the argument [now] of the
    operations that use it, [rand()] is a stream of draws, and the storage
    engine's conversion of an integer column to a day number is the
    variable [to_days] of the sections that use [DATEDIFF]. *)

From Stdlib Require Import ZArith Ascii String List Bool Lia QArith.
From Stdlib Require Import Permutation Sorted.
Import ListNotations.

Local Open Scope string_scope.
Local Open Scope Z_scope.
Local Open Scope list_scope.

(** ** The table *)

(** One row of [covidcast].  The column order is the one of the [VALUES]
    list of [insert_or_update]: id, the six key columns with [timestamp1]
    after them, the three measured columns, [timestamp2], [direction].
    [NULL] is [None]; the DOUBLE columns are only stored and read back, and
    are carried as rationals. *)
Record row : Type := mk_row {
  id : Z;
  source : string;
  signal : string;
  time_type : string;
  geo_type : string;
  time_value : Z;
  geo_value : string;
  timestamp1 : Z;
  value : Q;
  stderr : option Q;
  sample_size : option Q;
  timestamp2 : Z;
  direction : option Z
}.

(** The table with the counter of its auto-increment column. *)
Record database : Type := mk_database {
  covidcast : list row;
  auto_increment : Z
}.

Definition key : Type := (string * string * string * string * Z * string)%type.

(** Modelled from the spec: the unique key of table [covidcast] (its
    declaration, src/ddl/covidcast.sql, is not among the sources): the six
    columns source, signal, time_type, geo_type, time_value, geo_value. *)
Definition key_of (r : row) : key :=
  (source r, signal r, time_type r, geo_type r, time_value r, geo_value r).

Definition key_eqb (k1 k2 : key) : bool :=
  let '(s1, g1, t1, y1, v1, x1) := k1 in
  let '(s2, g2, t2, y2, v2, x2) := k2 in
  (s1 =? s2)%string && (g1 =? g2)%string && (t1 =? t2)%string &&
  (y1 =? y2)%string && (v1 =? v2)%Z && (x1 =? x2)%string.

(** The unique index holds of a table when no two rows share a key. *)
Definition unique_key (t : list row) : Prop := NoDup (map key_of t).

(** The five columns that name a time series (the key without
    [time_value]). *)
Definition series : Type := (string * string * string * string * string)%type.

Definition series_of (r : row) : series :=
  (source r, signal r, time_type r, geo_type r, geo_value r).

Definition series_eqb (k1 k2 : series) : bool :=
  let '(s1, g1, t1, y1, x1) := k1 in
  let '(s2, g2, t2, y2, x2) := k2 in
  (s1 =? s2)%string && (g1 =? g2)%string && (t1 =? t2)%string &&
  (y1 =? y2)%string && (x1 =? x2)%string.

(** ** Statements that write *)

(** The error a plain [INSERT] raises on a key that is present. *)
Inductive sql_error : Type :=
| ER_DUP_ENTRY (k : key).

Definition has_key (k : key) (t : list row) : bool :=
  existsb (fun r => key_eqb (key_of r) k) t.

(** [INSERT INTO covidcast VALUES (0, ...)]: id 0 asks for the next
    auto-increment value; a key already present is refused. *)
Definition insert_values (r : row) (db : database) : sql_error + database :=
  if has_key (key_of r) (covidcast db)
  then inl (ER_DUP_ENTRY (key_of r))
  else inr {| covidcast :=
                covidcast db ++
                [ {| id := auto_increment db;
                     source := source r; signal := signal r;
                     time_type := time_type r; geo_type := geo_type r;
                     time_value := time_value r; geo_value := geo_value r;
                     timestamp1 := timestamp1 r;
                     value := value r; stderr := stderr r;
                     sample_size := sample_size r;
                     timestamp2 := timestamp2 r;
                     direction := direction r |} ];
              auto_increment := auto_increment db + 1 |}.

(** [ON DUPLICATE KEY UPDATE timestamp1 = VALUES(timestamp1), value =
    VALUES(value), stderr = VALUES(stderr), sample_size =
    VALUES(sample_size)]: the row that holds the key takes these four
    columns of the refused row and keeps the others. *)
Definition duplicate_key_update (new old : row) : row :=
  {| id := id old;
     source := source old; signal := signal old;
     time_type := time_type old; geo_type := geo_type old;
     time_value := time_value old; geo_value := geo_value old;
     timestamp1 := timestamp1 new;
     value := value new; stderr := stderr new;
     sample_size := sample_size new;
     timestamp2 := timestamp2 old;
     direction := direction old |}.

Definition on_duplicate_key_update (new : row) (db : database) : database :=
  {| covidcast :=
       map (fun old => if key_eqb (key_of old) (key_of new)
                       then duplicate_key_update new old else old)
           (covidcast db);
     auto_increment := auto_increment db |}.

(** [SET timestamp2 = UNIX_TIMESTAMP(NOW()), direction = %s] on one row. *)
Definition set_direction (now : Z) (d : option Z) (r : row) : row :=
  {| id := id r;
     source := source r; signal := signal r;
     time_type := time_type r; geo_type := geo_type r;
     time_value := time_value r; geo_value := geo_value r;
     timestamp1 := timestamp1 r;
     value := value r; stderr := stderr r;
     sample_size := sample_size r;
     timestamp2 := now;
     direction := d |}.

(** [SET timestamp2 = UNIX_TIMESTAMP(NOW())] on one row. *)
Definition set_timestamp2 (now : Z) (r : row) : row :=
  {| id := id r;
     source := source r; signal := signal r;
     time_type := time_type r; geo_type := geo_type r;
     time_value := time_value r; geo_value := geo_value r;
     timestamp1 := timestamp1 r;
     value := value r; stderr := stderr r;
     sample_size := sample_size r;
     timestamp2 := now;
     direction := direction r |}.

(** ** Query primitives *)

(** [DATEDIFF(a, b)] is the difference of the day numbers of its arguments
    and [NULL] when one of them is not a date. *)
Definition datediff (to_days : Z -> option Z) (a b : Z) : option Z :=
  match to_days a, to_days b with
  | Some x, Some y => Some (x - y)
  | _, _ => None
  end.

(** [x BETWEEN lo AND hi] in a [WHERE] clause: a [NULL] operand does not
    select the row. *)
Definition between (x : option Z) (lo hi : Z) : bool :=
  match x with
  | Some v => (lo <=? v) && (v <=? hi)
  | None => false
  end.

(** [MAX] and [MIN] of a column, [NULL] on no row. *)
Definition sql_max (l : list Z) : option Z :=
  match l with
  | [] => None
  | x :: l' => Some (fold_left Z.max l' x)
  end.

Definition sql_min (l : list Z) : option Z :=
  match l with
  | [] => None
  | x :: l' => Some (fold_left Z.min l' x)
  end.

(** [a > b] in a [HAVING] clause. *)
Definition sql_gt (a b : option Z) : bool :=
  match a, b with
  | Some x, Some y => y <? x
  | _, _ => false
  end.

(** The values of a list without repetition, at their first occurrence. *)
Fixpoint distinct {K : Type} (eqb : K -> K -> bool) (l : list K) : list K :=
  match l with
  | [] => []
  | k :: l' => k :: filter (fun k' => negb (eqb k' k)) (distinct eqb l')
  end.

(** [GROUP BY]: one group per value of the grouping columns, holding the
    rows with that value. *)
Definition group_by {A K : Type} (eqb : K -> K -> bool) (f : A -> K)
    (l : list A) : list (list A) :=
  map (fun k => filter (fun x => eqb (f x) k) l) (distinct eqb (map f l)).

(** [ORDER BY] with an ascending comparison, by insertion. *)
Fixpoint insert_by {A : Type} (leb : A -> A -> bool) (x : A) (l : list A)
    : list A :=
  match l with
  | [] => [x]
  | y :: l' => if leb x y then x :: l else y :: insert_by leb x l'
  end.

Fixpoint order_by {A : Type} (leb : A -> A -> bool) (l : list A) : list A :=
  match l with
  | [] => []
  | x :: l' => insert_by leb x (order_by leb l')
  end.

(** [ORDER BY rand()]: row number [i] of the result draws [rand i], and the
    rows are sorted on their draws. *)
Definition order_by_rand {A : Type} (rand : nat -> Q) (l : list A) : list A :=
  map snd
    (order_by (fun a b => Qle_bool (fst a) (fst b))
       (combine (map rand (seq 0 (length l))) l)).

(** A group that holds a row. *)
Definition nonempty {A : Type} (l : list A) : bool :=
  match l with [] => false | _ :: _ => true end.

(** [LIMIT n]. *)
Definition sql_limit {A : Type} (n : Z) (l : list A) : list A :=
  firstn (Z.to_nat n) l.

(** ** Result rows of the two staleness queries *)

(** A row of [get_rows_with_stale_direction]: the six key columns of [c],
    [c.timestamp2], [max_timestamp1], [support]. *)
Record stale_row : Type := mk_stale_row {
  stale_key : key;
  stale_timestamp2 : Z;
  max_timestamp1 : option Z;
  support : Z
}.

(** A row of [get_keys_with_potentially_stale_direction]. *)
Record stale_series : Type := mk_stale_series {
  ss_source : string;
  ss_signal : string;
  ss_geo_type : string;
  ss_geo_value : string;
  ss_max_timestamp1 : option Z;
  ss_min_timestamp2 : option Z;
  min_day : option Z;
  max_day : option Z;
  series_length : Z
}.

(** The clauses of [get_rows_to_compute_direction]: its [WHERE], its
    [ORDER BY time_value ASC] and its select list [DATEDIFF(time_value, %s)
    AS time_offset, value]. *)
Definition where_direction_window (to_days : Z -> option Z)
    (src sig gty : string) (day : Z) (gval : string) (r : row) : bool :=
  (source r =? src)%string &&
  (signal r =? sig)%string &&
  (time_type r =? "day")%string &&
  (geo_type r =? gty)%string &&
  (geo_value r =? gval)%string &&
  between (datediff to_days (time_value r) day) (-6) 0.

Definition time_value_asc (a b : row) : bool :=
  time_value a <=? time_value b.

Definition select_time_offset (to_days : Z -> option Z) (day : Z) (r : row)
    : option Z * Q :=
  (datediff to_days (time_value r) day, value r).

(** A row of [get_daily_timeseries_for_direction_update]: [offset], [day],
    [value], [timestamp1], [timestamp2]. *)
Record timeseries_row : Type := mk_timeseries_row {
  ts_offset : option Z;
  ts_day : Z;
  ts_value : Q;
  ts_timestamp1 : Z;
  ts_timestamp2 : Z
}.

(** The clauses of [get_daily_timeseries_for_direction_update]: its [WHERE],
    in which [time_value BETWEEN %s AND %s] compares the integers of the
    column, and its select list. *)
Definition where_daily_timeseries
    (src sig gty gval : string) (lo hi : Z) (r : row) : bool :=
  (source r =? src)%string &&
  (signal r =? sig)%string &&
  (time_type r =? "day")%string &&
  (geo_type r =? gty)%string &&
  (geo_value r =? gval)%string &&
  ((lo <=? time_value r) && (time_value r <=? hi)).

Definition select_daily_timeseries (to_days : Z -> option Z) (lo : Z)
    (r : row) : timeseries_row :=
  {| ts_offset := datediff to_days (time_value r) lo;
     ts_day := time_value r;
     ts_value := value r;
     ts_timestamp1 := timestamp1 r;
     ts_timestamp2 := timestamp2 r |}.

Module Database.

(** [Database.insert_or_update]. *)
Definition insert_or_update (now : Z)
    (source signal time_type geo_type : string) (time_value : Z)
    (geo_value : string) (value : Q) (stderr sample_size : option Q)
    (db : database) : sql_error + database :=
  let new := mk_row 0 source signal time_type geo_type time_value geo_value
                    now value stderr sample_size 0 None in
  match insert_values new db with
  | inr db' => inr db'
  | inl (ER_DUP_ENTRY _) => inr (on_duplicate_key_update new db)
  end.

(** [Database.update_direction]. *)
Definition update_direction (now : Z)
    (source signal time_type geo_type : string) (time_value : Z)
    (geo_value : string) (direction : option Z) (db : database) : database :=
  {| covidcast :=
       map (fun r =>
              if key_eqb (key_of r)
                   (source, signal, time_type, geo_type, time_value, geo_value)
              then set_direction now direction r
              else r)
           (covidcast db);
     auto_increment := auto_increment db |}.

(** [Database.update_timeseries_timestamp2]. *)
Definition update_timeseries_timestamp2 (now : Z)
    (source signal time_type geo_type geo_value : string)
    (db : database) : database :=
  {| covidcast :=
       map (fun r =>
              if series_eqb (series_of r)
                   (source, signal, time_type, geo_type, geo_value)
              then set_timestamp2 now r
              else r)
           (covidcast db);
     auto_increment := auto_increment db |}.

(** [Database.count_all_rows]. *)
Definition count_all_rows (db : database) : Z :=
  Z.of_nat (length (covidcast db)).

Section Queries.

Variable to_days : Z -> option Z.

(** The [FROM ... JOIN ... USING ... WHERE] part of
    [get_rows_with_stale_direction]: the pairs [(c, d)] of rows of one
    series, [c] of time type day, [d] at most six days before [c]. *)
Definition stale_direction_join (t : list row) : list (row * row) :=
  filter
    (fun cd =>
       (time_type (fst cd) =? "day")%string &&
       between (datediff to_days (time_value (fst cd)) (time_value (snd cd)))
               0 6)
    (flat_map
       (fun c =>
          map (pair c)
              (filter (fun d => series_eqb (series_of c) (series_of d)) t))
       t).

(** The select list over one group; [c.timestamp2] is read off the first
    pair of the group. *)
Definition stale_direction_select (g : list (row * row)) : list stale_row :=
  match g with
  | [] => []
  | (c, _) :: _ =>
      [ {| stale_key := key_of c;
           stale_timestamp2 := timestamp2 c;
           max_timestamp1 := sql_max (map (fun cd => timestamp1 (snd cd)) g);
           support := Z.of_nat (length g) |} ]
  end.

(** The query down to its [HAVING] clause. *)
Definition stale_direction_having (t : list row) : list stale_row :=
  filter
    (fun s => sql_gt (max_timestamp1 s) (Some (stale_timestamp2 s)))
    (flat_map stale_direction_select
       (group_by key_eqb (fun cd => key_of (fst cd))
          (stale_direction_join t))).

(** [Database.get_rows_with_stale_direction]. *)
Definition get_rows_with_stale_direction (rand : nat -> Q) (db : database)
    : list stale_row :=
  sql_limit 10000
    (order_by_rand rand (stale_direction_having (covidcast db))).

(** [Database.get_rows_to_compute_direction]. *)
Definition get_rows_to_compute_direction
    (source signal geo_type : string) (time_value : Z) (geo_value : string)
    (db : database) : list (option Z * Q) :=
  map (select_time_offset to_days time_value)
    (order_by time_value_asc
       (filter
          (where_direction_window to_days
             source signal geo_type time_value geo_value)
          (covidcast db))).

(** [Database.get_daily_timeseries_for_direction_update]. *)
Definition get_daily_timeseries_for_direction_update
    (source signal geo_type geo_value : string) (min_day max_day : Z)
    (db : database) : list timeseries_row :=
  map (select_daily_timeseries to_days min_day)
    (order_by time_value_asc
       (filter
          (where_daily_timeseries source signal geo_type geo_value
             min_day max_day)
          (covidcast db))).

End Queries.

(** The select list of [get_keys_with_potentially_stale_direction] over one
    group. *)
Definition stale_series_select (g : list row) : list stale_series :=
  match g with
  | [] => []
  | r :: _ =>
      [ {| ss_source := source r;
           ss_signal := signal r;
           ss_geo_type := geo_type r;
           ss_geo_value := geo_value r;
           ss_max_timestamp1 := sql_max (map timestamp1 g);
           ss_min_timestamp2 := sql_min (map timestamp2 g);
           min_day := sql_min (map time_value g);
           max_day := sql_max (map time_value g);
           series_length := Z.of_nat (length g) |} ]
  end.

(** [Database.get_keys_with_potentially_stale_direction]. *)
Definition get_keys_with_potentially_stale_direction (db : database)
    : list stale_series :=
  filter
    (fun s => sql_gt (ss_max_timestamp1 s) (ss_min_timestamp2 s))
    (flat_map stale_series_select
       (group_by series_eqb series_of
          (filter (fun r => (time_type r =? "day")%string) (covidcast db)))).

End Database.

(** ** The connection and the driver *)

(** What the methods of the driver's collaborators were called with. *)
Inductive call : Type :=
| call_connect
| call_disconnect (commit : bool)
| call_insert_or_update (source signal time_type geo_type : string)
    (time_value : Z) (geo_value : string) (value : Q)
    (stderr sample_size : option Q)
| call_archive_file (path_src path_dst filename : string) (success : bool).

Inductive exn : Type :=
| StorageError (e : sql_error)
| NotConnected
| Failure (message : string).

(** The server's committed table, the view of the transaction that an open
    connection holds, the number of statements executed so far and the
    calls made so far. *)
Record world : Type := mk_world {
  committed : database;
  transaction : option database;
  executed : nat;
  journal : list call
}.

(** Computations that change the world and return or raise. *)
Definition M (A : Type) : Type := world -> (exn + A) * world.

Definition ret {A : Type} (a : A) : M A := fun w => (inr a, w).

Definition raise {A : Type} (e : exn) : M A := fun w => (inl e, w).

Definition bind {A B : Type} (m : M A) (k : A -> M B) : M B :=
  fun w =>
    match m w with
    | (inr a, w') => k a w'
    | (inl e, w') => (inl e, w')
    end.

(** [try: m] with the exception, if any, handed back as a value. *)
Definition attempt {A : Type} (m : M A) : M (exn + A) :=
  fun w => let '(r, w') := m w in (inr r, w').

Declare Scope driver_scope.
Delimit Scope driver_scope with driver.
Notation "x <- m ;; k" := (bind m (fun x => k))
  (at level 61, m at next level, right associativity) : driver_scope.
Notation "m ;; k" := (bind m (fun _ => k))
  (at level 61, right associativity) : driver_scope.

Definition record (c : call) : M unit :=
  fun w => (inr tt,
            {| committed := committed w; transaction := transaction w;
               executed := executed w; journal := journal w ++ [c] |}).

Fixpoint for_each {A : Type} (l : list A) (body : A -> M unit) : M unit :=
  match l with
  | [] => ret tt
  | x :: l' => (body x ;; for_each l' body)%driver
  end.

Module Connection.

(** [Database.connect]: a connection and a cursor on the server's data. *)
Definition connect : M unit :=
  fun w => (inr tt,
            {| committed := committed w;
               transaction := Some (committed w);
               executed := executed w;
               journal := journal w ++ [call_connect] |}).

(** [Database.disconnect]: the cursor is closed, the changes are committed
    when [commit] is true, and the connection is closed, which drops what
    was not committed.  Without a connection there is no cursor to close,
    and the call raises. *)
Definition disconnect (commit : bool) : M unit :=
  fun w =>
    match transaction w with
    | Some db =>
        (inr tt,
         {| committed := if commit then db else committed w;
            transaction := None;
            executed := executed w;
            journal := journal w ++ [call_disconnect commit] |})
    | None =>
        (inl NotConnected,
         {| committed := committed w;
            transaction := None;
            executed := executed w;
            journal := journal w ++ [call_disconnect commit] |})
    end.

Section Clock.

(** [UNIX_TIMESTAMP(NOW())] at each statement, by statement number. *)
Variable clock : nat -> Z.

(** [Database.insert_or_update] through the open connection. *)
Definition insert_or_update
    (source signal time_type geo_type : string) (time_value : Z)
    (geo_value : string) (value : Q) (stderr sample_size : option Q)
    : M unit :=
  fun w =>
    let w1 :=
      {| committed := committed w; transaction := transaction w;
         executed := executed w;
         journal := journal w ++
           [call_insert_or_update source signal time_type geo_type
              time_value geo_value value stderr sample_size] |} in
    match transaction w with
    | None => (inl NotConnected, w1)
    | Some db =>
        match Database.insert_or_update (clock (executed w))
                source signal time_type geo_type time_value geo_value
                value stderr sample_size db with
        | inr db' =>
            (inr tt,
             {| committed := committed w1; transaction := Some db';
                executed := S (executed w1); journal := journal w1 |})
        | inl e => (inl (StorageError e), w1)
        end
    end.

End Clock.

End Connection.

(** What the CSV collaborator finds in a file name, and one row of a file. *)
Definition details : Type := (string * string * string * string * Z)%type.

Record csv_row : Type := mk_csv_row {
  row_geo_value : string;
  row_value : Q;
  row_stderr : option Q;
  row_sample_size : option Q
}.

(** A path cut at its last slash into directory and file name. *)
Fixpoint split_last_slash (s : string) : option (string * string) :=
  match s with
  | EmptyString => None
  | String c s' =>
      match split_last_slash s' with
      | Some (h, t) => Some (String c h, t)
      | None => if Ascii.eqb c "/"%char then Some (EmptyString, s') else None
      end
  end.

Definition path_split (s : string) : string * string :=
  match split_last_slash s with
  | Some p => p
  | None => (EmptyString, s)
  end.

Module CsvToDatabase.

Section Driver.

Variable clock : nat -> Z.

Local Open Scope driver_scope.

(** Modelled from the spec: the archiving collaborator of
    csv_to_database.py (not among the sources), which receives source
    directory, destination directory, file name and success flag. *)
Definition archive_file (path_src path_dst filename : string)
    (success : bool) : M unit :=
  record (call_archive_file path_src path_dst filename success).

(** Modelled from the spec: the row loop of [scan_upload_archive] in
    csv_to_database.py (not among the sources): every row that the
    collaborator could interpret is upserted, a null entry marks the file
    as failed and the loop goes on; the result tells whether all rows were
    valid. *)
Fixpoint upload_rows (d : details) (rows : list (option csv_row))
    (all_rows_valid : bool) : M bool :=
  match rows with
  | [] => ret all_rows_valid
  | None :: rows' => upload_rows d rows' false
  | Some r :: rows' =>
      let '(source, signal, time_type, geo_type, time_value) := d in
      Connection.insert_or_update clock
        source signal time_type geo_type time_value
        (row_geo_value r) (row_value r) (row_stderr r) (row_sample_size r) ;;
      upload_rows d rows' all_rows_valid
  end.

(** Modelled from the spec: [scan_upload_archive] of csv_to_database.py
    (not among the sources).  [find_csv_files] and [load_csv] are the
    answers of the CSV collaborator; a file goes to
    [<data_dir>/archive/successful/<source>] when all its rows were valid,
    to [<data_dir>/archive/failed/<source>] otherwise, and to
    [<data_dir>/archive/failed/unknown] when its name was not classified. *)
Definition scan_upload_archive (data_dir : string)
    (find_csv_files : list (string * option details))
    (load_csv : string -> list (option csv_row)) : M unit :=
  for_each find_csv_files
    (fun file =>
       let '(path, classified) := file in
       let '(path_src, filename) := path_split path in
       match classified with
       | None =>
           archive_file path_src
             (data_dir ++ "/archive/failed/" ++ "unknown") filename false
       | Some d =>
           let '(source, _, _, _, _) := d in
           all_rows_valid <- upload_rows d (load_csv path) true ;;
           if all_rows_valid
           then archive_file path_src
                  (data_dir ++ "/archive/successful/" ++ source) filename true
           else archive_file path_src
                  (data_dir ++ "/archive/failed/" ++ source) filename false
       end).

(** Modelled from the spec: [main] of csv_to_database.py (not among the
    sources): connect, run the ingest step, disconnect with
    [commit = not test] after a clean run and with [commit = false] after
    an exception, which is raised again. *)
Definition main (data_dir : string) (test : bool)
    (scan_upload_archive_impl : string -> M unit) : M unit :=
  Connection.connect ;;
  r <- attempt (scan_upload_archive_impl data_dir) ;;
  match r with
  | inr _ => Connection.disconnect (negb test)
  | inl e => Connection.disconnect false ;; raise e
  end.

End Driver.

End CsvToDatabase.

(** ** The staleness condition in the words of the spec *)

Section Support.

Variable to_days : Z -> option Z.

(** [d] is in the support of [c]: it is of the series of [c] and lies at
    most six days before [c]. *)
Definition in_support (c d : row) : bool :=
  series_eqb (series_of c) (series_of d) &&
  between (datediff to_days (time_value c) (time_value d)) 0 6.

Definition support_of (t : list row) (c : row) : list row :=
  filter (in_support c) t.

(** [c] is of time type day and a row of its support was written after [c]
    was confirmed. *)
Definition stale_condition (t : list row) (c : row) : Prop :=
  time_type c = "day" /\
  exists d,
    In d t /\ series_of d = series_of c /\
    (exists k,
       datediff to_days (time_value c) (time_value d) = Some k /\
       0 <= k <= 6) /\
    timestamp2 c < timestamp1 d.

Definition is_stale (t : list row) (c : row) : bool :=
  (time_type c =? "day")%string &&
  existsb (fun d => timestamp2 c <? timestamp1 d) (support_of t c).

(** What the query is to report for a stale row [c]. *)
Definition stale_row_of (t : list row) (c : row) : stale_row :=
  {| stale_key := key_of c;
     stale_timestamp2 := timestamp2 c;
     max_timestamp1 := sql_max (map timestamp1 (support_of t c));
     support := Z.of_nat (List.length (support_of t c)) |}.

(** The pairs that the join and the [WHERE] clause keep for one [c]. *)
Definition pairs_of (t : list row) (c : row) : list (row * row) :=
  if (time_type c =? "day")%string
  then map (pair c) (support_of t c)
  else [].

End Support.

(** Row [c] appears in a result of [get_rows_with_stale_direction]. *)
Definition appears (c : row) (result : list stale_row) : Prop :=
  exists s,
    In s result /\ stale_key s = key_of c /\
    stale_timestamp2 s = timestamp2 c.

(** ** Windows by day numbers *)

Section Days.

Variable to_days : Z -> option Z.

(** Both integers are dates, and the first lies from [lo] to [hi] days
    after the second. *)
Definition days_apart (lo hi a b : Z) : Prop :=
  exists x y, to_days a = Some x /\ to_days b = Some y /\ lo <= x - y <= hi.

Definition days_apartb (lo hi a b : Z) : bool :=
  match to_days a, to_days b with
  | Some x, Some y => (lo <=? x - y) && (x - y <=? hi)
  | _, _ => false
  end.

(** The window of [c]: the rows of its series from six days before its
    day to its day. *)
Definition in_window (c d : row) : bool :=
  series_eqb (series_of c) (series_of d) &&
  days_apartb 0 6 (time_value c) (time_value d).

Definition window_of (t : list row) (c : row) : list row :=
  filter (in_window c) t.

(** [c] is a day row, and a row of its window was written after [c] was
    confirmed. *)
Definition stale_by_days (t : list row) (c : row) : Prop :=
  time_type c = "day" /\
  exists d,
    In d t /\ series_of d = series_of c /\
    days_apart 0 6 (time_value c) (time_value d) /\
    timestamp2 c < timestamp1 d.

Definition is_stale_by_days (t : list row) (c : row) : bool :=
  (time_type c =? "day")%string &&
  existsb (fun d => timestamp2 c <? timestamp1 d) (window_of t c).

(** The day rows of a series from six days before [day] to [day]. *)
Definition in_direction_window (src sig gty : string) (day : Z)
    (gval : string) (r : row) : bool :=
  (source r =? src)%string &&
  (signal r =? sig)%string &&
  (time_type r =? "day")%string &&
  (geo_type r =? gty)%string &&
  (geo_value r =? gval)%string &&
  days_apartb (-6) 0 (time_value r) day.

End Days.

(** A rational that a DOUBLE column holds as it is: an integer below 2^53
    in magnitude, scaled by a power of two of the binary64 range. *)
Definition is_double (v : Q) : Prop :=
  exists m e : Z,
    Z.abs m < 2 ^ 53 /\ -1074 <= e <= 971 /\
    (v == inject_Z m * Qpower (2 # 1) e)%Q.

(** ** Calls through a connection *)

(** The arguments of one call of [insert_or_update], the call through an
    open connection, and the table after a list of calls, the first one
    made as statement number [n]. *)
Definition observation : Type := (key * (Q * option Q * option Q))%type.

Definition upsert (clock : nat -> Z) (o : observation) : M unit :=
  let '((source, signal, time_type, geo_type, time_value, geo_value),
        (value, stderr, sample_size)) := o in
  Connection.insert_or_update clock source signal time_type geo_type
    time_value geo_value value stderr sample_size.

Definition apply_upsert (now : Z) (o : observation) (db : database)
    : database :=
  let '((source, signal, time_type, geo_type, time_value, geo_value),
        (value, stderr, sample_size)) := o in
  match Database.insert_or_update now source signal time_type geo_type
          time_value geo_value value stderr sample_size db with
  | inr db' => db'
  | inl _ => db
  end.

Fixpoint apply_upserts (clock : nat -> Z) (n : nat) (os : list observation)
    (db : database) : database :=
  match os with
  | [] => db
  | o :: os' => apply_upserts clock (S n) os' (apply_upsert (clock n) o db)
  end.

(** ** Reading the journal *)

(** The rows of a file that the collaborator could interpret, and the
    upsert that the driver makes for one of them. *)
Definition valid_rows (rows : list (option csv_row)) : list csv_row :=
  flat_map (fun r => match r with Some x => [x] | None => [] end) rows.

Definition upsert_call (d : details) (r : csv_row) : call :=
  let '(source, signal, time_type, geo_type, time_value) := d in
  call_insert_or_update source signal time_type geo_type time_value
    (row_geo_value r) (row_value r) (row_stderr r) (row_sample_size r).

(** The calls that the driver makes for one file: the upserts of its valid
    rows and its archival. *)
Definition all_valid (rows : list (option csv_row)) : bool :=
  forallb (fun r => match r with Some _ => true | None => false end) rows.

Definition file_calls (data_dir : string)
    (load_csv : string -> list (option csv_row))
    (file : string * option details) : list call :=
  let '(path, classified) := file in
  let '(path_src, filename) := path_split path in
  match classified with
  | None =>
      [ call_archive_file path_src
          (data_dir ++ "/archive/failed/" ++ "unknown") filename false ]
  | Some d =>
      let '(source, _, _, _, _) := d in
      map (upsert_call d) (valid_rows (load_csv path)) ++
      [ if all_valid (load_csv path)
        then call_archive_file path_src
               (data_dir ++ "/archive/successful/" ++ source) filename true
        else call_archive_file path_src
               (data_dir ++ "/archive/failed/" ++ source) filename false ]
  end.

Definition source_of (d : details) : string :=
  let '(source, _, _, _, _) := d in source.

(** The key that the driver upserts for a row of a file. *)
Definition upsert_key (d : details) (r : csv_row) : key :=
  let '(source, signal, time_type, geo_type, time_value) := d in
  (source, signal, time_type, geo_type, time_value, row_geo_value r).

(** The calls of one method in a journal. *)
Definition is_insert_or_update (c : call) : bool :=
  match c with
  | call_insert_or_update _ _ _ _ _ _ _ _ _ => true
  | _ => false
  end.

Definition is_archive_file (c : call) : bool :=
  match c with
  | call_archive_file _ _ _ _ => true
  | _ => false
  end.

(** ** A calendar for the examples *)

(** The day number of an integer [YYYYMMDD] that names a day of the
    calendar, counted as [TO_DAYS] counts it (1970-01-01 is day 719528);
    other integers are not dates. *)
Definition is_leap (y : Z) : bool :=
  ((y mod 4 =? 0) && negb (y mod 100 =? 0)) || (y mod 400 =? 0).

Definition days_in_month (y m : Z) : Z :=
  if m =? 2 then (if is_leap y then 29 else 28)
  else if (m =? 4) || (m =? 6) || (m =? 9) || (m =? 11) then 30
  else 31.

Definition days_from_civil (y m d : Z) : Z :=
  let y' := if m <=? 2 then y - 1 else y in
  let era := y' / 400 in
  let yoe := y' - era * 400 in
  let mp := (m + 9) mod 12 in
  let doy := (153 * mp + 2) / 5 + d - 1 in
  let doe := yoe * 365 + yoe / 4 - yoe / 100 + doy in
  era * 146097 + doe - 719468.

Definition ymd_to_days (v : Z) : option Z :=
  let y := v / 10000 in
  let m := (v / 100) mod 100 in
  let d := v mod 100 in
  if (1000 <=? y) && (y <=? 9999) && (1 <=? m) && (m <=? 12) &&
     (1 <=? d) && (d <=? days_in_month y m)
  then Some (days_from_civil y m d + 719528)
  else None.

(** ** Example data *)

(** One observation of 19 April 2020, written at 1587300000 and whose
    direction was confirmed a minute later. *)
Definition row_confirmed : row :=
  mk_row 1 "src_a" "sig_a" "day" "hrr" 20200419 "a1"
         1587300000 (3 # 2) (Some (1 # 10)) (Some (25 # 1))
         1587300060 (Some 1).

Definition db_confirmed : database :=
  {| covidcast := [row_confirmed]; auto_increment := 2 |}.

(** Two days of one series, each written and then confirmed; the second day
    was written after the first was confirmed. *)
Definition row_day1 : row :=
  mk_row 1 "src_a" "sig_a" "day" "hrr" 20200418 "a1"
         10 (3 # 2) None None 20 (Some 0).

Definition row_day2 : row :=
  mk_row 2 "src_a" "sig_a" "day" "hrr" 20200419 "a1"
         30 (5 # 2) None None 40 (Some 1).

Definition db_two_days : database :=
  {| covidcast := [row_day1; row_day2]; auto_increment := 3 |}.

(** The second day of [db_two_days] written again after it was confirmed. *)
Definition row_day2_rewritten : row :=
  mk_row 2 "src_a" "sig_a" "day" "hrr" 20200419 "a1"
         50 (7 # 2) None None 40 (Some 1).

Definition db_rewritten : database :=
  {| covidcast := [row_day1; row_day2_rewritten]; auto_increment := 3 |}.

(** A stream of draws in which all draws are equal. *)
Definition no_shuffle (i : nat) : Q := 0%Q.

(** One day of one signal for 10001 counties, numbered by five decimal
    digits, as the table holds it right after the file was ingested: no
    direction yet and [timestamp2] 0. *)
Definition digit_char (d : Z) : ascii := ascii_of_nat (Z.to_nat (48 + d)).

Definition county_code (n : nat) : string :=
  let z := Z.of_nat n in
  String (digit_char (z / 10000 mod 10))
    (String (digit_char (z / 1000 mod 10))
       (String (digit_char (z / 100 mod 10))
          (String (digit_char (z / 10 mod 10))
             (String (digit_char (z mod 10)) EmptyString)))).

Definition ingested_row (n : nat) : row :=
  mk_row (Z.of_nat n + 1) "src_a" "sig_a" "day" "county" 20200419
         (county_code n) 1587300000 (1 # 1) None None 0 None.

Definition db_ingested : database :=
  {| covidcast := map ingested_row (seq 0 (Z.to_nat 10001));
     auto_increment := 10002 |}.

(** One day of a series just ingested, alone in the table. *)
Definition row_lone : row :=
  mk_row 1 "src_a" "sig_a" "day" "hrr" 20200419 "a1"
         1587300000 (3 # 2) None None 0 None.

Definition db_lone : database :=
  {| covidcast := [row_lone]; auto_increment := 2 |}.

(** A day row whose [time_value] names no day of the calendar. *)
Definition row_no_date : row :=
  mk_row 1 "src_a" "sig_a" "day" "hrr" 20200231 "a1"
         1587300000 (3 # 2) None None 0 None.

Definition db_no_date : database :=
  {| covidcast := [row_no_date]; auto_increment := 2 |}.

(** The ingest scenario: a file of three valid rows, a file of three rows
    of which the second is invalid, and a file whose name was not
    classified. *)
Definition scenario_files : list (string * option details) :=
  [ ("path/a.csv", Some ("src_a", "sig_a", "day", "hrr", 20200419));
    ("path/b.csv", Some ("src_b", "sig_b", "week", "msa", 202016));
    ("path/c.csv", None) ].

Definition scenario_row (name : string) (v : Q) : csv_row :=
  {| row_geo_value := name; row_value := v;
     row_stderr := Some (1 # 10); row_sample_size := Some (25 # 1) |}.

Definition scenario_load_csv (path : string) : list (option csv_row) :=
  if (path =? "path/a.csv")%string
  then [ Some (scenario_row "a1" (1 # 1)); Some (scenario_row "a2" (2 # 1));
         Some (scenario_row "a3" (3 # 1)) ]
  else if (path =? "path/b.csv")%string
  then [ Some (scenario_row "b1" (4 # 1)); None;
         Some (scenario_row "b3" (6 # 1)) ]
  else [].

(** A connection just opened on an empty table. *)
Definition world_connected : world :=
  {| committed := {| covidcast := []; auto_increment := 1 |};
     transaction := Some {| covidcast := []; auto_increment := 1 |};
     executed := 0;
     journal := [] |}.

(** A server that holds one row, with no connection open. *)
Definition world_idle : world :=
  {| committed := db_confirmed;
     transaction := None;
     executed := 0;
     journal := [] |}.

(** An ingest step that upserts one row and then fails, and one that
    upserts the row and completes. *)
Definition step_failing (clock : nat -> Z) (data_dir : string) : M unit :=
  bind
    (Connection.insert_or_update clock "src_a" "sig_a" "day" "hrr" 20200420
       "a1" (7 # 2) None None)
    (fun _ => raise (Failure "testing")).

Definition step_clean (clock : nat -> Z) (data_dir : string) : M unit :=
  Connection.insert_or_update clock "src_a" "sig_a" "day" "hrr" 20200420
    "a1" (7 # 2) None None.

(** A table with a week in it only. *)
Definition row_week : row :=
  mk_row 1 "src_b" "sig_b" "week" "msa" 202016 "b1"
         1587300000 (4 # 1) None None 0 None.

Definition db_week : database :=
  {| covidcast := [row_week]; auto_increment := 2 |}.

(** * Properties *)

(** ** Equality of keys *)

Lemma key_eqb_eq (k1 k2 : key) : key_eqb k1 k2 = true <-> k1 = k2.
Proof.
  destruct k1 as [[[[[s1 g1] t1] y1] v1] x1].
  destruct k2 as [[[[[s2 g2] t2] y2] v2] x2].
  unfold key_eqb.
  rewrite !andb_true_iff, !String.eqb_eq, Z.eqb_eq.
  split.
  - intros [[[[[-> ->] ->] ->] ->] ->]. reflexivity.
  - intros H. injection H as -> -> -> -> -> ->. tauto.
Qed.

Lemma key_eqb_refl (k : key) : key_eqb k k = true.
Proof. apply key_eqb_eq. reflexivity. Qed.

Lemma key_eqb_neq (k1 k2 : key) : key_eqb k1 k2 = false <-> k1 <> k2.
Proof.
  rewrite <- key_eqb_eq. destruct (key_eqb k1 k2); split; congruence.
Qed.

Lemma series_eqb_eq (k1 k2 : series) : series_eqb k1 k2 = true <-> k1 = k2.
Proof.
  destruct k1 as [[[[s1 g1] t1] y1] x1].
  destruct k2 as [[[[s2 g2] t2] y2] x2].
  unfold series_eqb.
  rewrite !andb_true_iff, !String.eqb_eq.
  split.
  - intros [[[[-> ->] ->] ->] ->]. reflexivity.
  - intros H. injection H as -> -> -> -> ->. tauto.
Qed.

Lemma series_eqb_refl (k : series) : series_eqb k k = true.
Proof. apply series_eqb_eq. reflexivity. Qed.

Lemma series_eqb_neq (k1 k2 : series) :
  series_eqb k1 k2 = false <-> k1 <> k2.
Proof.
  rewrite <- series_eqb_eq. destruct (series_eqb k1 k2); split; congruence.
Qed.

Lemma has_key_true (k : key) (t : list row) :
  has_key k t = true <-> exists r, In r t /\ key_of r = k.
Proof.
  unfold has_key. rewrite existsb_exists.
  split; intros [r [Hin Hk]]; exists r; split; auto; now apply key_eqb_eq.
Qed.

Lemma has_key_false (k : key) (t : list row) :
  has_key k t = false <-> forall r, In r t -> key_of r <> k.
Proof.
  split.
  - intros H r Hin Hk.
    assert (has_key k t = true) by (apply has_key_true; eauto).
    congruence.
  - intros H. destruct (has_key k t) eqn:E; auto.
    apply has_key_true in E. destruct E as [r [Hin Hk]].
    exfalso. eapply H; eauto.
Qed.

(** ** Updates through the unique key *)

(** An [UPDATE ... WHERE] on a full key rewrites one position of a table
    that satisfies the unique index. *)
Lemma update_where_key (t : list row) (r : row) :
  unique_key t -> In r t ->
  exists l1 l2,
    t = l1 ++ r :: l2 /\
    (forall r', In r' (l1 ++ l2) -> key_of r' <> key_of r) /\
    forall f : row -> row,
      map (fun x => if key_eqb (key_of x) (key_of r) then f x else x) t =
      l1 ++ f r :: l2.
Proof.
  intros Hu Hin.
  destruct (in_split _ _ Hin) as [l1 [l2 ->]].
  exists l1, l2.
  unfold unique_key in Hu. rewrite map_app in Hu. simpl in Hu.
  apply NoDup_remove_2 in Hu.
  assert (Hne : forall r', In r' (l1 ++ l2) -> key_of r' <> key_of r).
  { intros r' Hr' Hk. apply Hu. rewrite <- map_app, <- Hk.
    now apply in_map. }
  split; [reflexivity | split; [exact Hne |]].
  intros f.
  assert (Hid : forall l, (forall r', In r' l -> key_of r' <> key_of r) ->
            map (fun x => if key_eqb (key_of x) (key_of r) then f x else x) l
            = l).
  { induction l as [| a l IH]; cbn [map]; intros H; [reflexivity |].
    rewrite IH by (intros; apply H; now right).
    assert (E : key_eqb (key_of a) (key_of r) = false)
      by (apply key_eqb_neq, H; now left).
    now rewrite E. }
  rewrite map_app. cbn [map]. rewrite key_eqb_refl.
  rewrite !Hid; auto.
  - intros r' Hr'. apply Hne, in_or_app. now right.
  - intros r' Hr'. apply Hne, in_or_app. now left.
Qed.

(** A plain [INSERT] of a key that is present is refused. *)
Lemma insert_values_duplicate (r r0 : row) (db : database) :
  In r0 (covidcast db) -> key_of r0 = key_of r ->
  insert_values r db = inl (ER_DUP_ENTRY (key_of r)).
Proof.
  intros Hin Hk. unfold insert_values.
  assert (E : has_key (key_of r) (covidcast db) = true)
    by (apply has_key_true; eauto).
  now rewrite E.
Qed.

(** ** [insert_or_update] *)

(** C4, as amended.  On a key that is present, [insert_or_update] raises no
    error and rewrites the one row that holds the key: [value], [stderr] and
    [sample_size] are the new ones, [timestamp1] is the current time,
    [id], [direction] and [timestamp2] are kept, and every other row and
    the order of the rows are as before.  The new [timestamp1] is above the
    old one when the current time is. *)
Theorem insert_or_update_existing_key
    (now : Z) (src sig tty gty : string) (tv : Z) (gv : string)
    (v : Q) (se ss : option Q) (db : database) (r : row) :
  unique_key (covidcast db) ->
  In r (covidcast db) ->
  key_of r = (src, sig, tty, gty, tv, gv) ->
  exists (l1 l2 : list row) (r' : row),
    covidcast db = l1 ++ r :: l2 /\
    Database.insert_or_update now src sig tty gty tv gv v se ss db =
      inr {| covidcast := l1 ++ r' :: l2;
             auto_increment := auto_increment db |} /\
    key_of r' = key_of r /\ id r' = id r /\
    value r' = v /\ stderr r' = se /\ sample_size r' = ss /\
    timestamp1 r' = now /\
    direction r' = direction r /\ timestamp2 r' = timestamp2 r /\
    (timestamp1 r < now -> timestamp1 r < timestamp1 r').
Proof.
  intros Hu Hin Hk.
  destruct (update_where_key _ _ Hu Hin) as [l1 [l2 [Hsplit [_ Hmap]]]].
  set (new := mk_row 0 src sig tty gty tv gv now v se ss 0 None).
  exists l1, l2, (duplicate_key_update new r).
  split; [exact Hsplit |].
  split.
  - unfold Database.insert_or_update. fold new.
    assert (Hnew : key_of new = key_of r) by (rewrite Hk; reflexivity).
    rewrite (insert_values_duplicate new r db Hin (eq_sym Hnew)).
    unfold on_duplicate_key_update. rewrite Hnew, Hmap. reflexivity.
  - cbn. repeat split; auto.
Qed.

Lemma insert_or_update_existing_key_witness :
  exists (l1 l2 : list row) (r' : row),
    covidcast db_confirmed = l1 ++ row_confirmed :: l2 /\
    Database.insert_or_update 1587400000 "src_a" "sig_a" "day" "hrr"
      20200419 "a1" (7 # 2) None (Some (30 # 1)) db_confirmed =
      inr {| covidcast := l1 ++ r' :: l2;
             auto_increment := auto_increment db_confirmed |} /\
    key_of r' = key_of row_confirmed /\ id r' = id row_confirmed /\
    value r' = (7 # 2) /\ stderr r' = None /\
    sample_size r' = Some (30 # 1) /\
    timestamp1 r' = 1587400000 /\
    direction r' = direction row_confirmed /\
    timestamp2 r' = timestamp2 row_confirmed /\
    (timestamp1 row_confirmed < 1587400000 ->
     timestamp1 row_confirmed < timestamp1 r').
Proof.
  apply (insert_or_update_existing_key 1587400000 "src_a" "sig_a" "day" "hrr"
           20200419 "a1" (7 # 2) None (Some (30 # 1))
           db_confirmed row_confirmed).
  - unfold unique_key. simpl. constructor; [simpl; tauto | constructor].
  - simpl. left. reflexivity.
  - reflexivity.
Defined.

(** C4, as stated, fails on a second write within the second of the first:
    [timestamp1] is written again with the same value and has not
    increased. *)
Lemma insert_or_update_same_second :
  In row_confirmed (covidcast db_confirmed) /\
  exists r',
    Database.insert_or_update 1587300000 "src_a" "sig_a" "day" "hrr"
      20200419 "a1" (7 # 2) None (Some (30 # 1)) db_confirmed =
      inr {| covidcast := [r']; auto_increment := 2 |} /\
    key_of r' = key_of row_confirmed /\
    ~ timestamp1 row_confirmed < timestamp1 r'.
Proof.
  split; [simpl; now left |].
  eexists. split; [reflexivity |]. split; [reflexivity |].
  simpl. lia.
Qed.


(** ** [update_timeseries_timestamp2] and [update_direction] *)

(** C3.  [update_timeseries_timestamp2] goes through the table row by row:
    a row of the named series comes out with [timestamp2] the current time
    and its other columns as they were, whatever its timestamps were
    before, and a row of another series comes out as it was.  So every row
    of the series has [timestamp2 = now] afterwards. *)
Theorem update_timeseries_timestamp2_series
    (now : Z) (src sig tty gty gv : string) (db : database) :
  Forall2
    (fun r r' =>
       (series_of r = (src, sig, tty, gty, gv) ->
        r' = mk_row (id r) (source r) (signal r) (time_type r) (geo_type r)
               (time_value r) (geo_value r) (timestamp1 r) (value r)
               (stderr r) (sample_size r) now (direction r)) /\
       (series_of r <> (src, sig, tty, gty, gv) -> r' = r))
    (covidcast db)
    (covidcast
       (Database.update_timeseries_timestamp2 now src sig tty gty gv db)) /\
  (forall r',
     In r' (covidcast
              (Database.update_timeseries_timestamp2 now src sig tty gty gv
                 db)) ->
     series_of r' = (src, sig, tty, gty, gv) -> timestamp2 r' = now) /\
  auto_increment
    (Database.update_timeseries_timestamp2 now src sig tty gty gv db) =
  auto_increment db.
Proof.
  unfold Database.update_timeseries_timestamp2. cbn [covidcast auto_increment].
  split; [| split; [| reflexivity]].
  - induction (covidcast db) as [| a l IH]; cbn [map]; constructor; auto.
    destruct (series_eqb (series_of a) (src, sig, tty, gty, gv)) eqn:E.
    + apply series_eqb_eq in E. split; [reflexivity | congruence].
    + apply series_eqb_neq in E. split; [congruence | reflexivity].
  - intros r' Hin Hs. apply in_map_iff in Hin. destruct Hin as [r [Hr _]].
    destruct (series_eqb (series_of r) (src, sig, tty, gty, gv)) eqn:E;
      subst r'; [reflexivity |].
    apply series_eqb_neq in E. contradiction.
Qed.

(** Both days of the example series were confirmed already; the update
    confirms them again. *)
Example update_timeseries_timestamp2_two_days :
  covidcast
    (Database.update_timeseries_timestamp2 100 "src_a" "sig_a" "day" "hrr"
       "a1" db_two_days) =
  [ mk_row 1 "src_a" "sig_a" "day" "hrr" 20200418 "a1"
      10 (3 # 2) None None 100 (Some 0);
    mk_row 2 "src_a" "sig_a" "day" "hrr" 20200419 "a1"
      30 (5 # 2) None None 100 (Some 1) ].
Proof. reflexivity. Qed.

(** C5.  In a table that satisfies the unique index, [update_direction] on
    the key of a row rewrites that one row: [direction] is the given one,
    [timestamp2] the current time, its other columns are as they were, and
    the rows before and after it, none of which has the key, are
    untouched. *)
Theorem update_direction_single_row
    (now : Z) (src sig tty gty : string) (tv : Z) (gv : string)
    (d : option Z) (db : database) (r : row) :
  unique_key (covidcast db) ->
  In r (covidcast db) ->
  key_of r = (src, sig, tty, gty, tv, gv) ->
  exists l1 l2 : list row,
    covidcast db = l1 ++ r :: l2 /\
    (forall r0, In r0 (l1 ++ l2) -> key_of r0 <> key_of r) /\
    Database.update_direction now src sig tty gty tv gv d db =
      {| covidcast :=
           l1 ++
           mk_row (id r) (source r) (signal r) (time_type r) (geo_type r)
             (time_value r) (geo_value r) (timestamp1 r) (value r)
             (stderr r) (sample_size r) now d :: l2;
         auto_increment := auto_increment db |}.
Proof.
  intros Hu Hin Hk.
  destruct (update_where_key _ _ Hu Hin) as [l1 [l2 [Hsplit [Hne Hmap]]]].
  exists l1, l2. split; [exact Hsplit | split; [exact Hne |]].
  unfold Database.update_direction. rewrite <- Hk, Hmap. reflexivity.
Qed.

Lemma update_direction_single_row_witness :
  exists l1 l2 : list row,
    covidcast db_confirmed = l1 ++ row_confirmed :: l2 /\
    (forall r0, In r0 (l1 ++ l2) -> key_of r0 <> key_of row_confirmed) /\
    Database.update_direction 1587400000 "src_a" "sig_a" "day" "hrr"
      20200419 "a1" (Some (-1)) db_confirmed =
      {| covidcast :=
           l1 ++
           mk_row 1 "src_a" "sig_a" "day" "hrr" 20200419 "a1" 1587300000
             (3 # 2) (Some (1 # 10)) (Some (25 # 1)) 1587400000
             (Some (-1)) :: l2;
         auto_increment := 2 |}.
Proof.
  apply (update_direction_single_row 1587400000 "src_a" "sig_a" "day" "hrr"
           20200419 "a1" (Some (-1)) db_confirmed row_confirmed).
  - unfold unique_key. simpl. constructor; [simpl; tauto | constructor].
  - simpl. left. reflexivity.
  - reflexivity.
Defined.

(** A key that no row holds leaves the table as it is. *)
Lemma update_direction_absent_key
    (now : Z) (src sig tty gty : string) (tv : Z) (gv : string)
    (d : option Z) (db : database) :
  (forall r, In r (covidcast db) -> key_of r <> (src, sig, tty, gty, tv, gv)) ->
  Database.update_direction now src sig tty gty tv gv d db = db.
Proof.
  intros H. unfold Database.update_direction. destruct db as [t n].
  cbn [covidcast auto_increment] in *. f_equal.
  induction t as [| a t IH]; cbn [map]; [reflexivity |].
  rewrite IH by (intros; apply H; now right).
  assert (E : key_eqb (key_of a) (src, sig, tty, gty, tv, gv) = false)
    by (apply key_eqb_neq, H; now left).
  now rewrite E.
Qed.

(** ** Query primitives: ordering *)

Section OrderBy.

Context {A : Type}.
Variable leb : A -> A -> bool.

Lemma insert_by_perm (x : A) (l : list A) :
  Permutation (insert_by leb x l) (x :: l).
Proof.
  induction l as [| y l IH]; cbn [insert_by]; [reflexivity |].
  destruct (leb x y); [reflexivity |].
  rewrite IH. apply perm_swap.
Qed.

Lemma order_by_perm (l : list A) : Permutation (order_by leb l) l.
Proof.
  induction l as [| x l IH]; cbn [order_by]; [reflexivity |].
  rewrite insert_by_perm. now constructor.
Qed.

Lemma order_by_In (l : list A) (x : A) : In x (order_by leb l) <-> In x l.
Proof.
  split; apply Permutation_in;
    [apply order_by_perm | symmetry; apply order_by_perm].
Qed.

Lemma order_by_length (l : list A) :
  List.length (order_by leb l) = List.length l.
Proof. apply Permutation_length, order_by_perm. Qed.

Hypothesis leb_total : forall a b, leb a b = true \/ leb b a = true.
Hypothesis leb_trans :
  forall a b c, leb a b = true -> leb b c = true -> leb a c = true.

Lemma insert_by_sorted (x : A) (l : list A) :
  StronglySorted (fun a b => leb a b = true) l ->
  StronglySorted (fun a b => leb a b = true) (insert_by leb x l).
Proof.
  induction 1 as [| y l Hs IH Hy]; cbn [insert_by].
  - constructor; constructor.
  - destruct (leb x y) eqn:E.
    + constructor; [now constructor |].
      constructor; [exact E |].
      eapply Forall_impl; [| exact Hy].
      intros a Ha. eapply leb_trans; eauto.
    + constructor; [exact IH |].
      assert (Hyx : leb y x = true)
        by (destruct (leb_total x y); congruence).
      apply Forall_forall. intros a Ha.
      apply (Permutation_in _ (insert_by_perm x l)) in Ha.
      destruct Ha as [<- | Ha]; [exact Hyx |].
      rewrite Forall_forall in Hy. now apply Hy.
Qed.

Lemma order_by_sorted (l : list A) :
  StronglySorted (fun a b => leb a b = true) (order_by leb l).
Proof.
  induction l as [| x l IH]; cbn [order_by]; [constructor |].
  now apply insert_by_sorted.
Qed.

End OrderBy.

Lemma strongly_sorted_weaken {A : Type} (R R' : A -> A -> Prop)
    (l : list A) :
  (forall a b, R a b -> R' a b) ->
  StronglySorted R l -> StronglySorted R' l.
Proof.
  intros Himp. induction 1 as [| x l Hs IH Hx]; constructor; auto.
  eapply Forall_impl; [| exact Hx]. intros a. apply Himp.
Qed.

Lemma order_by_rand_perm {A : Type} (rand : nat -> Q) (l : list A) :
  Permutation (order_by_rand rand l) l.
Proof.
  unfold order_by_rand.
  set (keyed := combine (map rand (seq 0 (List.length l))) l).
  assert (Hsnd : map snd keyed = l).
  { unfold keyed.
    assert (H : forall (ks : list Q) (xs : list A),
              List.length ks = List.length xs ->
              map snd (combine ks xs) = xs).
    { induction ks as [| k ks IH]; intros [| x xs] Hl;
        try discriminate; cbn; [reflexivity |].
      f_equal. apply IH. now injection Hl. }
    apply H. now rewrite length_map, length_seq. }
  apply Permutation_trans with (map snd keyed).
  - apply Permutation_map, order_by_perm.
  - now rewrite Hsnd.
Qed.

(** ** Windows by day numbers *)

Section DayNumbers.

Variable to_days : Z -> option Z.

Lemma between_true (x : option Z) (lo hi : Z) :
  between x lo hi = true <-> exists v, x = Some v /\ lo <= v <= hi.
Proof.
  unfold between. destruct x as [v |].
  - rewrite andb_true_iff, !Z.leb_le. split.
    + intros H. exists v. split; [reflexivity | lia].
    + intros [v' [Hv H]]. injection Hv as ->. lia.
  - split; [discriminate | intros [v [Hv _]]; discriminate].
Qed.

(** [DATEDIFF(a, b) BETWEEN lo AND hi] selects by the day numbers. *)
Lemma between_datediff (lo hi a b : Z) :
  between (datediff to_days a b) lo hi = days_apartb to_days lo hi a b.
Proof.
  unfold between, datediff, days_apartb.
  destruct (to_days a), (to_days b); reflexivity.
Qed.

Lemma days_apartb_true (lo hi a b : Z) :
  days_apartb to_days lo hi a b = true <-> days_apart to_days lo hi a b.
Proof.
  unfold days_apartb, days_apart.
  destruct (to_days a) as [x |], (to_days b) as [y |].
  - rewrite andb_true_iff, !Z.leb_le. split.
    + intros H. exists x, y. auto.
    + intros [x' [y' [Hx [Hy H]]]]. injection Hx as <-. injection Hy as <-.
      exact H.
  - split; [discriminate | intros [x' [y' [_ [Hy _]]]]; discriminate].
  - split; [discriminate | intros [x' [y' [Hx _]]]; discriminate].
  - split; [discriminate | intros [x' [y' [Hx _]]]; discriminate].
Qed.

Lemma datediff_days (a b x y : Z) :
  to_days a = Some x -> to_days b = Some y ->
  datediff to_days a b = Some (x - y).
Proof. intros Ha Hb. unfold datediff. now rewrite Ha, Hb. Qed.

Lemma where_direction_window_days
    (src sig gty : string) (day : Z) (gval : string) (r : row) :
  where_direction_window to_days src sig gty day gval r =
  in_direction_window to_days src sig gty day gval r.
Proof.
  unfold where_direction_window, in_direction_window.
  now rewrite between_datediff.
Qed.

Lemma in_direction_window_true
    (src sig gty : string) (day : Z) (gval : string) (r : row) :
  in_direction_window to_days src sig gty day gval r = true <->
  source r = src /\ signal r = sig /\ time_type r = "day" /\
  geo_type r = gty /\ geo_value r = gval /\
  exists x y,
    to_days (time_value r) = Some x /\ to_days day = Some y /\
    -6 <= x - y <= 0.
Proof.
  unfold in_direction_window.
  rewrite !andb_true_iff, !String.eqb_eq, days_apartb_true.
  unfold days_apart. tauto.
Qed.

End DayNumbers.

(** ** [get_rows_to_compute_direction] *)

Section DirectionWindow.

Variable to_days : Z -> option Z.

Lemma where_direction_window_true
    (src sig gty : string) (day : Z) (gval : string) (r : row) :
  where_direction_window to_days src sig gty day gval r = true <->
  source r = src /\ signal r = sig /\ time_type r = "day" /\
  geo_type r = gty /\ geo_value r = gval /\
  exists o, datediff to_days (time_value r) day = Some o /\ -6 <= o <= 0.
Proof.
  unfold where_direction_window.
  rewrite !andb_true_iff, !String.eqb_eq, between_true. tauto.
Qed.

(** C6.  The result of [get_rows_to_compute_direction] is read off a list
    [sel] of rows, one result per row and in the same order, where [sel]
    holds exactly the rows of the table (each as often as the table has
    it) with the given source, signal, geo_type and geo_value, time type
    day, and a [time_value] that is a date whose day number [x] lies from
    six days before the day number [y] of the target to it; [sel] ascends
    in [time_value], and the result of a row is its offset [x - y] to the
    target, between -6 and 0, with its value. *)
Theorem get_rows_to_compute_direction_window
    (src sig gty : string) (day : Z) (gval : string) (db : database) :
  exists sel : list row,
    Permutation sel
      (filter (in_direction_window to_days src sig gty day gval)
         (covidcast db)) /\
    (forall r,
       In r sel <->
       In r (covidcast db) /\
       source r = src /\ signal r = sig /\ time_type r = "day" /\
       geo_type r = gty /\ geo_value r = gval /\
       exists x y,
         to_days (time_value r) = Some x /\ to_days day = Some y /\
         -6 <= x - y <= 0) /\
    StronglySorted (fun a b => time_value a <= time_value b) sel /\
    Forall2
      (fun r out =>
         exists x y,
           to_days (time_value r) = Some x /\ to_days day = Some y /\
           -6 <= x - y <= 0 /\ out = (Some (x - y), value r))
      sel
      (Database.get_rows_to_compute_direction to_days src sig gty day gval
         db).
Proof.
  unfold Database.get_rows_to_compute_direction.
  rewrite (filter_ext _ _
             (where_direction_window_days to_days src sig gty day gval)).
  set (hit := filter (in_direction_window to_days src sig gty day gval)
                (covidcast db)).
  exists (order_by time_value_asc hit).
  assert (Hin : forall r,
            In r (order_by time_value_asc hit) <->
            In r (covidcast db) /\
            in_direction_window to_days src sig gty day gval r = true).
  { intros r. rewrite order_by_In. unfold hit. apply filter_In. }
  split; [apply order_by_perm |].
  split; [intros r; rewrite Hin, in_direction_window_true; tauto |].
  split.
  - apply strongly_sorted_weaken with
      (R := fun a b => time_value_asc a b = true).
    + intros a b H. now apply Z.leb_le in H.
    + apply order_by_sorted; unfold time_value_asc.
      * intros a b. rewrite !Z.leb_le. lia.
      * intros a b c. rewrite !Z.leb_le. lia.
  - assert (Hall : forall r, In r (order_by time_value_asc hit) ->
              exists x y,
                to_days (time_value r) = Some x /\ to_days day = Some y /\
                -6 <= x - y <= 0).
    { intros r Hr. apply Hin in Hr. destruct Hr as [_ Hr].
      apply in_direction_window_true in Hr. tauto. }
    clear Hin. revert Hall.
    induction (order_by time_value_asc hit) as [| a l IH]; intros Hall;
      cbn [map]; constructor.
    + destruct (Hall a (or_introl eq_refl)) as [x [y [Hx [Hy Hb]]]].
      exists x, y. unfold select_time_offset.
      rewrite (datediff_days to_days _ _ _ _ Hx Hy). auto.
    + apply IH. intros r Hr. apply Hall. now right.
Qed.

End DirectionWindow.

(** The window of 24 April 2020 over the example series reaches back to
    18 April; the window of 25 April does not. *)
Example get_rows_to_compute_direction_two_days :
  Database.get_rows_to_compute_direction ymd_to_days
    "src_a" "sig_a" "hrr" 20200424 "a1" db_two_days =
    [ (Some (-6), 3 # 2); (Some (-5), 5 # 2) ] /\
  Database.get_rows_to_compute_direction ymd_to_days
    "src_a" "sig_a" "hrr" 20200425 "a1" db_two_days =
    [ (Some (-6), 5 # 2) ].
Proof. split; reflexivity. Qed.

(** ** Query primitives: aggregates and groups *)

Lemma fold_max_spec (l : list Z) (x : Z) :
  In (fold_left Z.max l x) (x :: l) /\
  forall y, In y (x :: l) -> y <= fold_left Z.max l x.
Proof.
  revert x. induction l as [| a l IH]; intros x; simpl fold_left.
  - split; [left; reflexivity |]. intros y [<- | []]. lia.
  - destruct (IH (Z.max x a)) as [Hin Hub]. split.
    + destruct Hin as [Hin | Hin]; [| right; now right].
      destruct (Z.max_spec x a) as [[_ E] | [_ E]]; rewrite E in *.
      * right. now left.
      * now left.
    + intros y Hy.
      assert (Hm : Z.max x a <= fold_left Z.max l (Z.max x a))
        by (apply Hub; now left).
      destruct Hy as [<- | [<- | Hy]]; [lia | lia |].
      apply Hub. now right.
Qed.

Lemma fold_min_spec (l : list Z) (x : Z) :
  In (fold_left Z.min l x) (x :: l) /\
  forall y, In y (x :: l) -> fold_left Z.min l x <= y.
Proof.
  revert x. induction l as [| a l IH]; intros x; simpl fold_left.
  - split; [left; reflexivity |]. intros y [<- | []]. lia.
  - destruct (IH (Z.min x a)) as [Hin Hlb]. split.
    + destruct Hin as [Hin | Hin]; [| right; now right].
      destruct (Z.min_spec x a) as [[_ E] | [_ E]]; rewrite E in *.
      * now left.
      * right. now left.
    + intros y Hy.
      assert (Hm : fold_left Z.min l (Z.min x a) <= Z.min x a)
        by (apply Hlb; now left).
      destruct Hy as [<- | [<- | Hy]]; [lia | lia |].
      apply Hlb. now right.
Qed.

(** [MAX] of a column over at least one row is a value of the column that
    no value exceeds. *)
Lemma sql_max_spec (l : list Z) :
  l <> [] ->
  exists m, sql_max l = Some m /\ In m l /\ forall y, In y l -> y <= m.
Proof.
  destruct l as [| x l]; [congruence | intros _].
  exists (fold_left Z.max l x). split; [reflexivity |].
  apply fold_max_spec.
Qed.

Lemma sql_min_spec (l : list Z) :
  l <> [] ->
  exists m, sql_min l = Some m /\ In m l /\ forall y, In y l -> m <= y.
Proof.
  destruct l as [| x l]; [congruence | intros _].
  exists (fold_left Z.min l x). split; [reflexivity |].
  apply fold_min_spec.
Qed.

Section GroupBy.

Context {A K : Type}.
Variable eqb : K -> K -> bool.
Variable f : A -> K.
Hypothesis eqb_eq : forall k1 k2, eqb k1 k2 = true <-> k1 = k2.

Lemma distinct_In (l : list K) (k : K) : In k (distinct eqb l) <-> In k l.
Proof.
  induction l as [| a l IH]; cbn [distinct]; [reflexivity |].
  cbn [In]. rewrite filter_In, IH, negb_true_iff.
  split.
  - intros [H | [H _]]; auto.
  - intros [H | H]; [now left |].
    destruct (eqb k a) eqn:E.
    + left. symmetry. now apply eqb_eq.
    + right. now split.
Qed.

Lemma distinct_NoDup (l : list K) : NoDup (distinct eqb l).
Proof.
  induction l as [| a l IH]; cbn [distinct]; constructor.
  - rewrite filter_In, negb_true_iff. intros [_ E].
    assert (eqb a a = true) by now apply eqb_eq.
    congruence.
  - now apply NoDup_filter.
Qed.

(** The groups of [GROUP BY]: the rows of each value that the grouping
    columns take. *)
Lemma group_by_In (l : list A) (g : list A) :
  In g (group_by eqb f l) <->
  exists x, In x l /\ g = filter (fun y => eqb (f y) (f x)) l.
Proof.
  unfold group_by. rewrite in_map_iff. split.
  - intros [k [<- Hk]]. apply distinct_In, in_map_iff in Hk.
    destruct Hk as [x [<- Hx]]. exists x. now split.
  - intros [x [Hx ->]]. exists (f x). split; [reflexivity |].
    apply distinct_In. now apply in_map.
Qed.

Lemma group_by_member (l : list A) (x : A) :
  In x l -> In x (filter (fun y => eqb (f y) (f x)) l).
Proof.
  intros Hx. apply filter_In. split; [exact Hx | now apply eqb_eq].
Qed.

End GroupBy.

(** ** [get_keys_with_potentially_stale_direction] *)

Lemma sql_gt_true (a b : option Z) :
  sql_gt a b = true <-> exists x y, a = Some x /\ b = Some y /\ y < x.
Proof.
  unfold sql_gt. destruct a as [x |], b as [y |].
  - rewrite Z.ltb_lt. split.
    + intros H. exists x, y. auto.
    + intros [x' [y' [Hx [Hy H]]]]. injection Hx as ->. now injection Hy as ->.
  - split; [discriminate | intros [x' [y' [_ [Hy _]]]]; discriminate].
  - split; [discriminate | intros [x' [y' [Hx _]]]; discriminate].
  - split; [discriminate | intros [x' [y' [Hx _]]]; discriminate].
Qed.

(** The rows of the group of a series among the rows of time type day. *)
Lemma stale_series_group (t : list row) (x r : row) :
  In r (filter (fun y => series_eqb (series_of y) (series_of x))
          (filter (fun r => (time_type r =? "day")%string) t)) <->
  In r t /\ time_type r = "day" /\ series_of r = series_of x.
Proof.
  rewrite !filter_In, String.eqb_eq, series_eqb_eq. tauto.
Qed.

(** A series with a row written after a row of it was confirmed is
    returned. *)
Lemma potentially_stale_series_returned
    (db : database) (src sig gty gv : string) (a b : row) :
  In a (covidcast db) -> In b (covidcast db) ->
  series_of a = (src, sig, "day", gty, gv) ->
  series_of b = (src, sig, "day", gty, gv) ->
  timestamp2 b < timestamp1 a ->
  exists s,
    In s (Database.get_keys_with_potentially_stale_direction db) /\
    ss_source s = src /\ ss_signal s = sig /\
    ss_geo_type s = gty /\ ss_geo_value s = gv.
Proof.
  intros Ha Hb Hsa Hsb Hlt.
  unfold Database.get_keys_with_potentially_stale_direction.
  set (days := filter (fun r => (time_type r =? "day")%string)
                 (covidcast db)).
  assert (Hda : time_type a = "day")
    by (unfold series_of in Hsa; congruence).
  assert (Hdb : time_type b = "day")
    by (unfold series_of in Hsb; congruence).
  set (g := filter (fun y => series_eqb (series_of y) (series_of a))
              days).
  assert (Hing : forall r, In r g <->
            In r (covidcast db) /\ time_type r = "day" /\
            series_of r = series_of a)
    by (intros r; apply stale_series_group).
  assert (Hga : In a g) by (apply Hing; auto).
  assert (Hgb : In b g) by (apply Hing; repeat split; congruence).
  assert (Hgroup : In g (group_by series_eqb series_of days)).
  { apply (group_by_In series_eqb series_of series_eqb_eq).
    exists a. split; [| reflexivity].
    apply filter_In. split; [exact Ha |]. now apply String.eqb_eq. }
  destruct g as [| r g'] eqn:Eg; [contradiction |].
  assert (Hr : In r (covidcast db) /\ time_type r = "day" /\
               series_of r = series_of a)
    by (apply Hing; now left).
  destruct (sql_max_spec (map timestamp1 (r :: g')))
    as [m [Hm [_ Hub]]]; [discriminate |].
  destruct (sql_min_spec (map timestamp2 (r :: g')))
    as [n [Hn [_ Hlb]]]; [discriminate |].
  eexists. split.
  - apply filter_In. split.
    + apply in_flat_map. exists (r :: g'). split; [exact Hgroup |].
      cbn [Database.stale_series_select]. left. reflexivity.
    + cbn [ss_max_timestamp1 ss_min_timestamp2]. rewrite Hm, Hn.
      apply sql_gt_true. exists m, n. repeat split.
      assert (timestamp1 a <= m) by (apply Hub; now apply in_map).
      assert (n <= timestamp2 b) by (apply Hlb; now apply in_map).
      lia.
  - cbn [ss_source ss_signal ss_geo_type ss_geo_value].
    destruct Hr as [_ [_ Hr]]. rewrite Hsa in Hr.
    unfold series_of in Hr. injection Hr as -> -> _ -> ->. auto.
Qed.

(** C2, as amended.  A series is returned by
    [get_keys_with_potentially_stale_direction] exactly when it has rows
    [a] and [b] of time type day, not necessarily the same row, with
    [a.timestamp1 > b.timestamp2]: the query compares the largest
    [timestamp1] of the series with its smallest [timestamp2].  No series is
    dropped by a limit, and a series that has a row with
    [timestamp1 > timestamp2] is returned. *)
Theorem get_keys_with_potentially_stale_direction_series
    (db : database) (src sig gty gv : string) :
  ((exists s,
      In s (Database.get_keys_with_potentially_stale_direction db) /\
      ss_source s = src /\ ss_signal s = sig /\
      ss_geo_type s = gty /\ ss_geo_value s = gv) <->
   (exists a b,
      In a (covidcast db) /\ In b (covidcast db) /\
      series_of a = (src, sig, "day", gty, gv) /\
      series_of b = (src, sig, "day", gty, gv) /\
      timestamp2 b < timestamp1 a)) /\
  ((exists r,
      In r (covidcast db) /\ series_of r = (src, sig, "day", gty, gv) /\
      timestamp2 r < timestamp1 r) ->
   exists s,
     In s (Database.get_keys_with_potentially_stale_direction db) /\
     ss_source s = src /\ ss_signal s = sig /\
     ss_geo_type s = gty /\ ss_geo_value s = gv).
Proof.
  assert (Hiff :
    (exists s,
      In s (Database.get_keys_with_potentially_stale_direction db) /\
      ss_source s = src /\ ss_signal s = sig /\
      ss_geo_type s = gty /\ ss_geo_value s = gv) <->
    (exists a b,
      In a (covidcast db) /\ In b (covidcast db) /\
      series_of a = (src, sig, "day", gty, gv) /\
      series_of b = (src, sig, "day", gty, gv) /\
      timestamp2 b < timestamp1 a)).
  { unfold Database.get_keys_with_potentially_stale_direction.
    set (days := filter (fun r => (time_type r =? "day")%string)
                   (covidcast db)).
    split.
    - intros [s [Hs [Hsrc [Hsig [Hgty Hgv]]]]].
      apply filter_In in Hs. destruct Hs as [Hs Hhave].
      apply in_flat_map in Hs. destruct Hs as [g [Hg Hsel]].
      apply (group_by_In series_eqb series_of series_eqb_eq) in Hg.
      destruct Hg as [x [Hx Hg]].
      destruct g as [| r g']; [contradiction |].
      destruct Hsel as [<- | []]. cbn in Hsrc, Hsig, Hgty, Hgv.
      cbn [ss_max_timestamp1 ss_min_timestamp2] in Hhave.
      assert (Hr : In r (r :: g')) by now left.
      rewrite Hg in Hr. apply stale_series_group in Hr.
      destruct Hr as [_ [Hday Hser]].
      assert (Hk : series_of r = (src, sig, "day", gty, gv))
        by (unfold series_of; congruence).
      apply sql_gt_true in Hhave. destruct Hhave as [m [n [Hm [Hn Hlt]]]].
      destruct (sql_max_spec (map timestamp1 (r :: g')))
        as [m' [Hm' [Hinm _]]]; [discriminate |].
      destruct (sql_min_spec (map timestamp2 (r :: g')))
        as [n' [Hn' [Hinn _]]]; [discriminate |].
      assert (m' = m) by congruence. assert (n' = n) by congruence.
      subst m' n'.
      apply in_map_iff in Hinm. destruct Hinm as [a [Ha Hina]].
      apply in_map_iff in Hinn. destruct Hinn as [b [Hb Hinb]].
      rewrite Hg in Hina, Hinb.
      apply stale_series_group in Hina. apply stale_series_group in Hinb.
      exists a, b.
      destruct Hina as [Hia [_ Hsa]], Hinb as [Hib [_ Hsb]].
      repeat split; try assumption; try congruence; try lia.
    - intros [a [b [Ha [Hb [Hsa [Hsb Hlt]]]]]].
      now apply (potentially_stale_series_returned db src sig gty gv a b). }
  split; [exact Hiff |].
  intros [r [Hr [Hs Hlt]]]. apply Hiff. exists r, r. auto.
Qed.

(** C2, as stated, fails on two days of a series that were each written
    and then confirmed, the later day written after the earlier one was
    confirmed: no row has [timestamp1 > timestamp2], and the series is
    returned. *)
Lemma potentially_stale_series_without_stale_row :
  (exists s,
     In s (Database.get_keys_with_potentially_stale_direction db_two_days) /\
     ss_source s = "src_a" /\ ss_signal s = "sig_a" /\
     ss_geo_type s = "hrr" /\ ss_geo_value s = "a1") /\
  ~ (exists r,
       In r (covidcast db_two_days) /\
       series_of r = ("src_a", "sig_a", "day", "hrr", "a1") /\
       timestamp2 r < timestamp1 r).
Proof.
  split.
  - eexists. split; [vm_compute; left; reflexivity |]. repeat split.
  - intros [r [[<- | [<- | []]] [_ H]]]; vm_compute in H; discriminate.
Qed.

(** ** [insert_or_update] of a new key *)

(** C9.  On a key that is absent, [insert_or_update] appends one row with
    [direction] NULL, [timestamp2] 0 and [timestamp1] the current time; as
    the current time is a positive number of seconds, the row is born with
    [timestamp1 > timestamp2], and when it is a day row its series is among
    those that [get_keys_with_potentially_stale_direction] returns. *)
Theorem insert_or_update_new_key
    (now : Z) (src sig tty gty : string) (tv : Z) (gv : string)
    (v : Q) (se ss : option Q) (db : database) :
  (forall r, In r (covidcast db) -> key_of r <> (src, sig, tty, gty, tv, gv)) ->
  0 < now ->
  exists r' : row,
    Database.insert_or_update now src sig tty gty tv gv v se ss db =
      inr {| covidcast := covidcast db ++ [r'];
             auto_increment := auto_increment db + 1 |} /\
    key_of r' = (src, sig, tty, gty, tv, gv) /\
    value r' = v /\ stderr r' = se /\ sample_size r' = ss /\
    direction r' = None /\ timestamp2 r' = 0 /\ timestamp1 r' = now /\
    timestamp2 r' < timestamp1 r' /\
    (tty = "day" ->
     exists s,
       In s (Database.get_keys_with_potentially_stale_direction
               {| covidcast := covidcast db ++ [r'];
                  auto_increment := auto_increment db + 1 |}) /\
       ss_source s = src /\ ss_signal s = sig /\
       ss_geo_type s = gty /\ ss_geo_value s = gv).
Proof.
  intros Hnone Hnow.
  eexists. split.
  - unfold Database.insert_or_update.
    set (new := mk_row 0 src sig tty gty tv gv now v se ss 0 None).
    assert (Hk : key_of new = (src, sig, tty, gty, tv, gv)) by reflexivity.
    assert (E : has_key (src, sig, tty, gty, tv, gv) (covidcast db) = false)
      by (now apply has_key_false).
    unfold insert_values. rewrite Hk, E. reflexivity.
  - cbn [key_of source signal time_type geo_type time_value geo_value value
           stderr sample_size direction timestamp1 timestamp2].
    repeat split; auto.
    intros ->.
    match goal with
    | |- context [covidcast db ++ [?r]] =>
        apply (potentially_stale_series_returned _ src sig gty gv r r)
    end; cbn [covidcast]; try reflexivity; try exact Hnow;
      apply in_or_app; right; now left.
Qed.

Lemma insert_or_update_new_key_witness :
  exists r' : row,
    Database.insert_or_update 1587400000 "src_a" "sig_a" "day" "hrr"
      20200420 "a1" (7 # 2) None None db_confirmed =
      inr {| covidcast := covidcast db_confirmed ++ [r'];
             auto_increment := auto_increment db_confirmed + 1 |} /\
    key_of r' = ("src_a", "sig_a", "day", "hrr", 20200420, "a1") /\
    value r' = (7 # 2) /\ stderr r' = None /\ sample_size r' = None /\
    direction r' = None /\ timestamp2 r' = 0 /\
    timestamp1 r' = 1587400000 /\
    timestamp2 r' < timestamp1 r' /\
    ("day" = "day" ->
     exists s,
       In s (Database.get_keys_with_potentially_stale_direction
               {| covidcast := covidcast db_confirmed ++ [r'];
                  auto_increment := auto_increment db_confirmed + 1 |}) /\
       ss_source s = "src_a" /\ ss_signal s = "sig_a" /\
       ss_geo_type s = "hrr" /\ ss_geo_value s = "a1").
Proof.
  apply (insert_or_update_new_key 1587400000 "src_a" "sig_a" "day" "hrr"
           20200420 "a1" (7 # 2) None None db_confirmed).
  - simpl. intros r [<- | []]. vm_compute. congruence.
  - lia.
Defined.

(** ** [get_rows_with_stale_direction] *)

Lemma filter_flat_map {A B : Type} (p : B -> bool) (f : A -> list B)
    (l : list A) :
  filter p (flat_map f l) = flat_map (fun x => filter p (f x)) l.
Proof.
  induction l as [| a l IH]; cbn [flat_map]; [reflexivity |].
  now rewrite filter_app, IH.
Qed.

Lemma filter_map_swap {A B : Type} (p : B -> bool) (f : A -> B)
    (l : list A) :
  filter p (map f l) = map f (filter (fun x => p (f x)) l).
Proof.
  induction l as [| a l IH]; cbn [map filter]; [reflexivity |].
  destruct (p (f a)); cbn [map]; now rewrite IH.
Qed.

Lemma filter_all {A : Type} (p : A -> bool) (l : list A) :
  (forall x, In x l -> p x = true) -> filter p l = l.
Proof.
  induction l as [| a l IH]; cbn [filter]; intros H; [reflexivity |].
  rewrite (H a) by now left. f_equal. apply IH. intros; apply H; now right.
Qed.

Lemma filter_none {A : Type} (p : A -> bool) (l : list A) :
  (forall x, In x l -> p x = false) -> filter p l = [].
Proof.
  induction l as [| a l IH]; cbn [filter]; intros H; [reflexivity |].
  rewrite (H a) by now left. apply IH. intros; apply H; now right.
Qed.

Lemma filter_filter_andb {A : Type} (p q : A -> bool) (l : list A) :
  filter q (filter p l) = filter (fun x => p x && q x) l.
Proof.
  induction l as [| a l IH]; cbn [filter]; [reflexivity |].
  destruct (p a); cbn [andb filter]; [| exact IH].
  destruct (q a); now rewrite IH.
Qed.

Lemma unique_key_inj (t : list row) (a b : row) :
  unique_key t -> In a t -> In b t -> key_of a = key_of b -> a = b.
Proof.
  unfold unique_key. induction t as [| x t IH]; [contradiction |].
  cbn [map]. intros Hu Ha Hb Hk. inversion Hu as [| ? ? Hnot Hu']; subst.
  destruct Ha as [-> | Ha], Hb as [-> | Hb]; auto.
  - exfalso. apply Hnot. rewrite Hk. now apply in_map.
  - exfalso. apply Hnot. rewrite <- Hk. now apply in_map.
Qed.

Lemma unique_key_NoDup (t : list row) : unique_key t -> NoDup t.
Proof. apply NoDup_map_inv. Qed.

Lemma NoDup_map_filter {A B : Type} (keep : A -> bool) (rows : list A)
    (column : A -> B) :
  NoDup (map column rows) -> NoDup (map column (filter keep rows)).
Proof.
  induction rows as [| a rows IH]; cbn [map filter]; intros H;
    [constructor |].
  inversion H as [| ? ? Hnot Hnd]; subst.
  destruct (keep a); [| now apply IH].
  cbn [map]. constructor; [| now apply IH].
  intros Hin. apply Hnot. apply in_map_iff in Hin.
  destruct Hin as [x [Hx Hin]]. apply filter_In in Hin.
  rewrite <- Hx. apply in_map. tauto.
Qed.

Lemma NoDup_firstn {A : Type} (n : nat) (l : list A) :
  NoDup l -> NoDup (firstn n l).
Proof.
  intros H. rewrite <- (firstn_skipn n l) in H.
  now apply NoDup_app_remove_r in H.
Qed.

Section StaleRows.

Variable to_days : Z -> option Z.

Lemma pairs_of_fst (t : list row) (c : row) (x : row * row) :
  In x (pairs_of to_days t c) -> fst x = c.
Proof.
  unfold pairs_of. destruct (time_type c =? "day")%string; [| contradiction].
  intros H. apply in_map_iff in H. now destruct H as [d [<- _]].
Qed.

Lemma stale_direction_join_pairs (t : list row) :
  Database.stale_direction_join to_days t =
  flat_map (pairs_of to_days t) t.
Proof.
  unfold Database.stale_direction_join. rewrite filter_flat_map.
  apply flat_map_ext. intros c.
  rewrite filter_map_swap. cbn [fst snd]. unfold pairs_of, support_of.
  destruct (time_type c =? "day")%string; cbn [andb].
  - f_equal.
    induction t as [| d t IH]; cbn [filter]; [reflexivity |].
    unfold in_support at 1.
    destruct (series_eqb (series_of c) (series_of d)); cbn [andb filter].
    + destruct (between _ 0 6); now rewrite IH.
    + exact IH.
  - rewrite filter_none by reflexivity. reflexivity.
Qed.

(** In a join whose left rows have distinct keys, the pairs of one key are
    the pairs of one left row. *)
Lemma group_of_row (B : row -> list (row * row)) (outer : list row)
    (c0 : row) :
  NoDup (map key_of outer) ->
  (forall c x, In x (B c) -> fst x = c) ->
  In c0 outer ->
  filter (fun cd => key_eqb (key_of (fst cd)) (key_of c0))
    (flat_map B outer) = B c0.
Proof.
  intros Hu Hfst. induction outer as [| a outer IH]; [contradiction |].
  cbn [map] in Hu. inversion Hu as [| ? ? Hnot Hu']; subst.
  cbn [flat_map]. rewrite filter_app. intros [-> | Hin].
  - rewrite filter_all.
    + rewrite filter_none; [apply app_nil_r |].
      intros x Hx. apply in_flat_map in Hx. destruct Hx as [c [Hc Hx]].
      rewrite (Hfst _ _ Hx). apply key_eqb_neq. intros E.
      apply Hnot. rewrite <- E. now apply in_map.
    + intros x Hx. rewrite (Hfst _ _ Hx). apply key_eqb_refl.
  - rewrite filter_none.
    + now apply IH.
    + intros x Hx. rewrite (Hfst _ _ Hx). apply key_eqb_neq. intros E.
      apply Hnot. rewrite E. now apply in_map.
Qed.

Lemma distinct_same_prefix (k : key) (l1 l2 : list key) :
  (forall x, In x l1 -> x = k) ->
  ~ In k l2 ->
  distinct key_eqb (l1 ++ l2) =
  (if nonempty l1 then [k] else []) ++ distinct key_eqb l2.
Proof.
  intros Hall Hnot.
  assert (Hkeep : filter (fun k' => negb (key_eqb k' k))
                    (distinct key_eqb l2) = distinct key_eqb l2).
  { apply filter_all. intros x Hx. apply negb_true_iff, key_eqb_neq.
    intros ->. apply Hnot. now apply (distinct_In key_eqb key_eqb_eq). }
  induction l1 as [| a l1 IH]; [reflexivity |].
  assert (a = k) by (apply Hall; now left). subst a.
  cbn [app distinct nonempty]. f_equal.
  rewrite IH by (intros; apply Hall; now right).
  rewrite filter_app, Hkeep.
  destruct (nonempty l1); cbn [filter app]; [| reflexivity].
  now rewrite key_eqb_refl.
Qed.

Lemma distinct_join_keys (B : row -> list (row * row)) (outer : list row) :
  NoDup (map key_of outer) ->
  (forall c x, In x (B c) -> fst x = c) ->
  distinct key_eqb (map (fun cd => key_of (fst cd)) (flat_map B outer)) =
  map key_of (filter (fun c => nonempty (B c)) outer).
Proof.
  intros Hu Hfst. induction outer as [| a outer IH]; [reflexivity |].
  cbn [map] in Hu. inversion Hu as [| ? ? Hnot Hu']; subst.
  cbn [flat_map filter]. rewrite map_app.
  rewrite (distinct_same_prefix (key_of a)).
  - rewrite (IH Hu').
    assert (E : nonempty (map (fun cd => key_of (fst cd)) (B a)) =
                nonempty (B a)) by (destruct (B a); reflexivity).
    rewrite E. destruct (nonempty (B a)); reflexivity.
  - intros x Hx. apply in_map_iff in Hx. destruct Hx as [cd [<- Hcd]].
    now rewrite (Hfst _ _ Hcd).
  - intros Hin. apply in_map_iff in Hin. destruct Hin as [cd [E Hcd]].
    apply in_flat_map in Hcd. destruct Hcd as [c [Hc Hcd]].
    rewrite (Hfst _ _ Hcd) in E. apply Hnot. rewrite <- E. now apply in_map.
Qed.

(** The groups of the query are the pairs of the rows that have a pair. *)
Lemma stale_direction_groups (t : list row) :
  unique_key t ->
  group_by key_eqb (fun cd => key_of (fst cd))
    (Database.stale_direction_join to_days t) =
  map (pairs_of to_days t)
    (filter (fun c => nonempty (pairs_of to_days t c)) t).
Proof.
  intros Hu. rewrite stale_direction_join_pairs. unfold group_by.
  rewrite (distinct_join_keys _ _ Hu (pairs_of_fst t)), map_map.
  apply map_ext_in. intros c Hc. apply filter_In in Hc.
  apply (group_of_row _ _ _ Hu (pairs_of_fst t)). tauto.
Qed.

Lemma sql_gt_max_existsb {A : Type} (f : A -> Z) (y : Z) (l : list A) :
  sql_gt (sql_max (map f l)) (Some y) = existsb (fun d => y <? f d) l.
Proof.
  destruct l as [| x l]; [reflexivity |].
  apply eq_true_iff_eq. cbn [map sql_max sql_gt].
  rewrite Z.ltb_lt, existsb_exists.
  destruct (fold_max_spec (map f l) (f x)) as [Hin Hub].
  change (f x :: map f l) with (map f (x :: l)) in Hin, Hub.
  split.
  - intros Hlt. apply in_map_iff in Hin. destruct Hin as [d [Hd Hin]].
    exists d. split; [exact Hin |]. apply Z.ltb_lt. lia.
  - intros [d [Hd Hlt]]. apply Z.ltb_lt in Hlt.
    assert (f d <= fold_left Z.max (map f l) (f x))
      by (apply Hub; now apply in_map).
    lia.
Qed.

Lemma stale_direction_select_pairs (t : list row) (c : row) :
  nonempty (pairs_of to_days t c) = true ->
  Database.stale_direction_select (pairs_of to_days t c) =
  [stale_row_of to_days t c].
Proof.
  unfold pairs_of, stale_row_of.
  destruct (time_type c =? "day")%string; [| discriminate].
  destruct (support_of to_days t c) as [| d S]; [discriminate |]. intros _.
  cbn [map Database.stale_direction_select]. do 2 f_equal.
  - f_equal. cbn [snd]. f_equal. rewrite map_map. reflexivity.
  - cbn [List.length]. now rewrite length_map.
Qed.

(** The query down to its [HAVING] clause returns, row by row of the
    table, what the spec asks for the rows that are stale. *)
Lemma stale_direction_having_rows (t : list row) :
  unique_key t ->
  Database.stale_direction_having to_days t =
  map (stale_row_of to_days t) (filter (is_stale to_days t) t).
Proof.
  intros Hu. unfold Database.stale_direction_having.
  rewrite (stale_direction_groups t Hu).
  assert (Hsel : forall l,
            (forall c, In c l -> nonempty (pairs_of to_days t c) = true) ->
            flat_map Database.stale_direction_select
              (map (pairs_of to_days t) l) =
            map (stale_row_of to_days t) l).
  { induction l as [| a l IH]; intros H; [reflexivity |].
    cbn [map flat_map]. rewrite stale_direction_select_pairs
      by (apply H; now left).
    cbn [app]. f_equal. apply IH. intros; apply H; now right. }
  rewrite Hsel by (intros c Hc; apply filter_In in Hc; tauto).
  rewrite filter_map_swap. f_equal.
  cbn [max_timestamp1 stale_timestamp2 stale_row_of].
  rewrite filter_filter_andb. apply filter_ext. intros c.
  rewrite sql_gt_max_existsb. unfold is_stale, pairs_of.
  destruct (time_type c =? "day")%string; [| reflexivity].
  destruct (support_of to_days t c); reflexivity.
Qed.

Lemma in_support_true (c d : row) :
  in_support to_days c d = true <->
  series_of d = series_of c /\
  exists k,
    datediff to_days (time_value c) (time_value d) = Some k /\ 0 <= k <= 6.
Proof.
  unfold in_support. rewrite andb_true_iff, series_eqb_eq, between_true.
  split; intros [H1 H2]; split; auto.
Qed.

(** A row whose [time_value] is a date is in its own support. *)
Lemma in_support_self (c : row) :
  to_days (time_value c) <> None -> in_support to_days c c = true.
Proof.
  intros Hd. apply in_support_true. split; [reflexivity |].
  unfold datediff. destruct (to_days (time_value c)) as [x |];
    [| congruence].
  exists 0. split; [f_equal; lia | lia].
Qed.

Lemma is_stale_true (t : list row) (c : row) :
  is_stale to_days t c = true <-> stale_condition to_days t c.
Proof.
  unfold is_stale, stale_condition, support_of.
  rewrite andb_true_iff, String.eqb_eq, existsb_exists.
  split; intros [Hday [d Hd]]; (split; [exact Hday |]); exists d.
  - rewrite filter_In, in_support_true, Z.ltb_lt in Hd. tauto.
  - rewrite filter_In, in_support_true, Z.ltb_lt. tauto.
Qed.

Lemma sql_limit_In {A : Type} (n : Z) (l : list A) (x : A) :
  In x (sql_limit n l) -> In x l.
Proof.
  unfold sql_limit. intros H.
  rewrite <- (firstn_skipn (Z.to_nat n) l). apply in_or_app. now left.
Qed.

Lemma sql_limit_all {A : Type} (n : Z) (l : list A) :
  Z.of_nat (List.length l) <= n -> sql_limit n l = l.
Proof. intros H. unfold sql_limit. apply firstn_all2. lia. Qed.

Lemma sql_limit_length {A : Type} (n : Z) (l : list A) :
  0 <= n -> Z.of_nat (List.length (sql_limit n l)) <= n.
Proof.
  intros H. unfold sql_limit.
  pose proof (firstn_le_length (Z.to_nat n) l). lia.
Qed.

(** The rows of a result are rows of the query before its [ORDER BY] and
    [LIMIT], and all of them when there are at most 10000. *)
Lemma get_rows_with_stale_direction_In (rand : nat -> Q) (db : database)
    (s : stale_row) :
  unique_key (covidcast db) ->
  (In s (Database.get_rows_with_stale_direction to_days rand db) ->
   exists c,
     In c (covidcast db) /\ is_stale to_days (covidcast db) c = true /\
     s = stale_row_of to_days (covidcast db) c) /\
  (Z.of_nat
     (List.length
        (filter (is_stale to_days (covidcast db)) (covidcast db))) <= 10000 ->
   forall c,
     In c (covidcast db) -> is_stale to_days (covidcast db) c = true ->
     In (stale_row_of to_days (covidcast db) c)
        (Database.get_rows_with_stale_direction to_days rand db)).
Proof.
  intros Hu. unfold Database.get_rows_with_stale_direction.
  rewrite (stale_direction_having_rows _ Hu).
  set (rows := map (stale_row_of to_days (covidcast db))
                 (filter (is_stale to_days (covidcast db)) (covidcast db))).
  split.
  - intros H. apply sql_limit_In in H.
    apply (Permutation_in _ (order_by_rand_perm rand rows)) in H.
    apply in_map_iff in H. destruct H as [c [<- Hc]].
    apply filter_In in Hc. exists c. tauto.
  - intros Hlen c Hc Hst.
    rewrite sql_limit_all.
    + apply (Permutation_in _ (Permutation_sym (order_by_rand_perm rand rows))).
      apply in_map, filter_In. now split.
    + rewrite (Permutation_length (order_by_rand_perm rand rows)).
      unfold rows. now rewrite length_map.
Qed.

End StaleRows.

Lemma sql_limit_length_min {A : Type} (n : Z) (l : list A) :
  0 <= n ->
  Z.of_nat (List.length (sql_limit n l)) = Z.min n (Z.of_nat (List.length l)).
Proof. intros H. unfold sql_limit. rewrite length_firstn. lia. Qed.

Section StaleByDays.

Variable to_days : Z -> option Z.

(** The support of the query is the window by day numbers. *)
Lemma in_support_window (c d : row) :
  in_support to_days c d = in_window to_days c d.
Proof. unfold in_support, in_window. now rewrite between_datediff. Qed.

Lemma support_of_window (t : list row) (c : row) :
  support_of to_days t c = window_of to_days t c.
Proof. apply filter_ext. intros d. apply in_support_window. Qed.

Lemma is_stale_by_days_eq (t : list row) (c : row) :
  is_stale to_days t c = is_stale_by_days to_days t c.
Proof. unfold is_stale, is_stale_by_days. now rewrite support_of_window. Qed.

Lemma in_window_true (c d : row) :
  in_window to_days c d = true <->
  series_of d = series_of c /\
  days_apart to_days 0 6 (time_value c) (time_value d).
Proof.
  unfold in_window. rewrite andb_true_iff, series_eqb_eq, days_apartb_true.
  split; intros [H1 H2]; split; auto.
Qed.

Lemma window_of_In (t : list row) (c d : row) :
  In d (window_of to_days t c) <->
  In d t /\ series_of d = series_of c /\
  days_apart to_days 0 6 (time_value c) (time_value d).
Proof. unfold window_of. now rewrite filter_In, in_window_true. Qed.

Lemma is_stale_by_days_true (t : list row) (c : row) :
  is_stale_by_days to_days t c = true <-> stale_by_days to_days t c.
Proof.
  unfold is_stale_by_days, stale_by_days.
  rewrite andb_true_iff, String.eqb_eq, existsb_exists.
  split; intros [Hday [d Hd]]; (split; [exact Hday |]); exists d.
  - rewrite window_of_In, Z.ltb_lt in Hd. tauto.
  - rewrite window_of_In, Z.ltb_lt. tauto.
Qed.

(** A row whose [time_value] is a date is in its own window. *)
Lemma days_apart_self (a x : Z) :
  to_days a = Some x -> days_apart to_days 0 6 a a.
Proof. intros H. exists x, x. repeat split; auto; lia. Qed.

(** The query down to its [HAVING] clause, by day numbers. *)
Lemma stale_direction_having_by_days (t : list row) :
  unique_key t ->
  Database.stale_direction_having to_days t =
  map (stale_row_of to_days t) (filter (is_stale_by_days to_days t) t).
Proof.
  intros Hu. rewrite (stale_direction_having_rows to_days t Hu).
  f_equal. apply filter_ext. intros c. apply is_stale_by_days_eq.
Qed.

(** What the row reported for a stale [c] carries. *)
Lemma stale_row_of_window (t : list row) (c : row) :
  is_stale_by_days to_days t c = true ->
  stale_key (stale_row_of to_days t c) = key_of c /\
  stale_timestamp2 (stale_row_of to_days t c) = timestamp2 c /\
  (exists m d,
     max_timestamp1 (stale_row_of to_days t c) = Some m /\
     In d (window_of to_days t c) /\ timestamp1 d = m /\
     (forall d', In d' (window_of to_days t c) -> timestamp1 d' <= m) /\
     timestamp2 c < m) /\
  support (stale_row_of to_days t c) =
    Z.of_nat (List.length (window_of to_days t c)).
Proof.
  intros Hst. unfold is_stale_by_days in Hst.
  apply andb_true_iff in Hst. destruct Hst as [_ Hex].
  apply existsb_exists in Hex. destruct Hex as [d0 [Hd0 Hlt]].
  apply Z.ltb_lt in Hlt.
  cbn [stale_key stale_timestamp2 max_timestamp1 support stale_row_of].
  rewrite support_of_window.
  split; [reflexivity |]. split; [reflexivity |]. split; [| reflexivity].
  destruct (sql_max_spec (map timestamp1 (window_of to_days t c)))
    as [m [Hm [Hin Hub]]].
  { intros E. apply (in_map timestamp1) in Hd0. rewrite E in Hd0.
    contradiction. }
  apply in_map_iff in Hin. destruct Hin as [d [Hd Hin]].
  exists m, d. split; [exact Hm |]. split; [exact Hin |].
  split; [exact Hd |]. split.
  - intros d' Hd'. apply Hub. now apply in_map.
  - assert (timestamp1 d0 <= m) by (apply Hub; now apply in_map). lia.
Qed.

(** C1, as amended.  In a table that satisfies the unique index, call a
    row [c] stale when it is of time type day and a row [d] of its series
    whose day number lies from six days before the day number of [c] to
    it has [d.timestamp1 > c.timestamp2].  Every row of a result of
    [get_rows_with_stale_direction] is the row of a stale [c]: it carries
    the key and [timestamp2] of [c], the largest [timestamp1] of the window
    of [c], which is above [c.timestamp2], and the number of rows of that
    window.  No key is reported twice, and the result holds as many rows
    as there are stale rows, up to 10000: all of them when at most 10000
    rows are stale, and 10000 of them beyond that.  So a row that appears
    is stale; within the bound every stale row appears, among them a day
    row with [timestamp1 > timestamp2] that has a row of its series within
    six days of it; and a row whose [timestamp2] is at least the
    [timestamp1] of every row of its window never appears. *)
Theorem get_rows_with_stale_direction_rows
    (rand : nat -> Q) (db : database) :
  unique_key (covidcast db) ->
  let t := covidcast db in
  let result := Database.get_rows_with_stale_direction to_days rand db in
  exists stale : list row,
    NoDup stale /\
    (forall c, In c stale <-> In c t /\ stale_by_days to_days t c) /\
    (forall c d,
       In d (window_of to_days t c) <->
       In d t /\ series_of d = series_of c /\
       exists x y,
         to_days (time_value c) = Some x /\ to_days (time_value d) = Some y /\
         0 <= x - y <= 6) /\
    (forall s,
       In s result ->
       exists c,
         In c stale /\
         stale_key s = key_of c /\ stale_timestamp2 s = timestamp2 c /\
         (exists m d,
            max_timestamp1 s = Some m /\
            In d (window_of to_days t c) /\ timestamp1 d = m /\
            (forall d', In d' (window_of to_days t c) -> timestamp1 d' <= m) /\
            timestamp2 c < m) /\
         support s = Z.of_nat (List.length (window_of to_days t c))) /\
    NoDup (map stale_key result) /\
    Z.of_nat (List.length result) =
      Z.min 10000 (Z.of_nat (List.length stale)) /\
    (forall c, In c t -> appears c result -> stale_by_days to_days t c) /\
    (Z.of_nat (List.length stale) <= 10000 ->
     (forall c, In c t -> stale_by_days to_days t c -> appears c result) /\
     (forall c d,
        In c t -> time_type c = "day" -> timestamp2 c < timestamp1 c ->
        In d t -> series_of d = series_of c ->
        days_apart to_days (-6) 6 (time_value c) (time_value d) ->
        appears c result)) /\
    (forall c,
       In c t ->
       (forall d,
          In d t -> series_of d = series_of c ->
          days_apart to_days 0 6 (time_value c) (time_value d) ->
          timestamp1 d <= timestamp2 c) ->
       ~ appears c result).
Proof.
  intros Hu. cbv zeta.
  set (t := covidcast db).
  set (stale := filter (is_stale_by_days to_days t) t).
  set (rows := map (stale_row_of to_days t) stale).
  assert (Hres : Database.get_rows_with_stale_direction to_days rand db =
                 sql_limit 10000 (order_by_rand rand rows)).
  { unfold Database.get_rows_with_stale_direction. fold t.
    now rewrite (stale_direction_having_by_days t Hu). }
  rewrite Hres.
  assert (Hstale : forall c, In c stale <-> In c t /\ stale_by_days to_days t c).
  { intros c. unfold stale. now rewrite filter_In, is_stale_by_days_true. }
  assert (Hrow : forall s,
            In s (sql_limit 10000 (order_by_rand rand rows)) ->
            exists c, In c stale /\ is_stale_by_days to_days t c = true /\
                      s = stale_row_of to_days t c).
  { intros s Hs. apply sql_limit_In in Hs.
    apply (Permutation_in _ (order_by_rand_perm rand rows)) in Hs.
    apply in_map_iff in Hs. destruct Hs as [c [<- Hc]].
    exists c. split; [exact Hc |]. split; [| reflexivity].
    apply filter_In in Hc. tauto. }
  assert (Hsound : forall c,
            In c t ->
            appears c (sql_limit 10000 (order_by_rand rand rows)) ->
            stale_by_days to_days t c).
  { intros c Hc [s [Hs [Hk _]]].
    destruct (Hrow s Hs) as [c' [Hc' [Hst ->]]].
    cbn [stale_key stale_row_of] in Hk.
    assert (c' = c).
    { apply (unique_key_inj t); auto. apply Hstale in Hc'. tauto. }
    subst c'. now apply is_stale_by_days_true. }
  assert (Hcomplete :
            Z.of_nat (List.length stale) <= 10000 ->
            forall c, In c t -> stale_by_days to_days t c ->
            appears c (sql_limit 10000 (order_by_rand rand rows))).
  { intros Hlen c Hc Hst. exists (stale_row_of to_days t c).
    split; [| split; reflexivity].
    rewrite sql_limit_all.
    - apply (Permutation_in _
               (Permutation_sym (order_by_rand_perm rand rows))).
      apply in_map, Hstale. now split.
    - rewrite (Permutation_length (order_by_rand_perm rand rows)).
      unfold rows. now rewrite length_map. }
  exists stale.
  split; [apply NoDup_filter, unique_key_NoDup, Hu |].
  split; [exact Hstale |].
  split; [intros c d; apply window_of_In |].
  split; [| split; [| split; [| split; [exact Hsound | split]]]].
  - intros s Hs. destruct (Hrow s Hs) as [c [Hc [Hst ->]]].
    exists c. split; [exact Hc |]. now apply stale_row_of_window.
  - unfold sql_limit. rewrite <- firstn_map. apply NoDup_firstn.
    apply (Permutation_NoDup
             (Permutation_map stale_key
                (Permutation_sym (order_by_rand_perm rand rows)))).
    unfold rows. rewrite map_map. cbn [stale_key stale_row_of].
    now apply NoDup_map_filter.
  - rewrite sql_limit_length_min by lia.
    rewrite (Permutation_length (order_by_rand_perm rand rows)).
    unfold rows. now rewrite length_map.
  - intros Hlen. split; [now apply Hcomplete |].
    intros c d Hc Hday Hlt _ _ [x [y [Hx _]]].
    apply (Hcomplete Hlen c Hc). split; [exact Hday |].
    exists c. split; [exact Hc |]. split; [reflexivity |].
    split; [now apply (days_apart_self _ x) | exact Hlt].
  - intros c Hc Hfresh Happ. apply (Hsound c Hc) in Happ.
    destruct Happ as [_ [d [Hd [Hs [Hk Hlt]]]]].
    assert (timestamp1 d <= timestamp2 c) by now apply Hfresh.
    lia.
Qed.

End StaleByDays.

Lemma db_rewritten_unique_key : unique_key (covidcast db_rewritten).
Proof.
  unfold unique_key. simpl.
  constructor; [simpl; intros [H | []]; discriminate |].
  constructor; [simpl; tauto | constructor].
Qed.

Lemma get_rows_with_stale_direction_rows_witness :
  appears row_day2_rewritten
    (Database.get_rows_with_stale_direction ymd_to_days no_shuffle
       db_rewritten) /\
  ~ appears row_day1
      (Database.get_rows_with_stale_direction ymd_to_days no_shuffle
         db_rewritten) /\
  (exists stale,
     NoDup stale /\
     (In row_day2_rewritten stale /\ ~ In row_day1 stale) /\
     Z.of_nat
       (List.length
          (Database.get_rows_with_stale_direction ymd_to_days no_shuffle
             db_rewritten)) =
     Z.min 10000 (Z.of_nat (List.length stale))).
Proof.
  destruct (get_rows_with_stale_direction_rows ymd_to_days no_shuffle
              db_rewritten db_rewritten_unique_key)
    as [stale [Hnd [Hstale [_ [_ [_ [Hlen [Hsound [Hcomplete Hfresh]]]]]]]]].
  assert (Hbound : Z.of_nat (List.length stale) <= 10000).
  { change (Z.of_nat (List.length
              (Database.get_rows_with_stale_direction ymd_to_days no_shuffle
                 db_rewritten))) with 1 in Hlen.
    lia. }
  assert (Hold : forall d,
            In d (covidcast db_rewritten) ->
            series_of d = series_of row_day1 ->
            days_apart ymd_to_days 0 6 (time_value row_day1) (time_value d) ->
            timestamp1 d <= timestamp2 row_day1).
  { intros d [<- | [<- | []]] _ [x [y [Hx [Hy Hb]]]].
    - cbn [timestamp1 timestamp2 row_day1]. lia.
    - vm_compute in Hx, Hy. injection Hx as <-. injection Hy as <-. lia. }
  assert (Happ : appears row_day2_rewritten
                   (Database.get_rows_with_stale_direction ymd_to_days
                      no_shuffle db_rewritten)).
  { apply (proj2 (Hcomplete Hbound) row_day2_rewritten row_day1).
    - right. left. reflexivity.
    - reflexivity.
    - reflexivity.
    - left. reflexivity.
    - reflexivity.
    - exists 737899, 737898. repeat split; try reflexivity; lia. }
  assert (Hnot : ~ appears row_day1
                   (Database.get_rows_with_stale_direction ymd_to_days
                      no_shuffle db_rewritten)).
  { apply Hfresh; [left; reflexivity | exact Hold]. }
  split; [exact Happ |]. split; [exact Hnot |].
  exists stale. split; [exact Hnd |]. split; [| exact Hlen].
  split.
  - apply Hstale. split; [right; left; reflexivity |].
    apply Hsound; [right; left; reflexivity | exact Happ].
  - intros Hin. apply Hstale in Hin. destruct Hin as [_ [_ [d [Hd [Hs [Hk Hlt]]]]]].
    pose proof (Hold d Hd Hs Hk). lia.
Defined.

(** The query on the table with the rewritten day: that day is reported
    with both days of its window as support. *)
Example get_rows_with_stale_direction_rewritten :
  Database.get_rows_with_stale_direction ymd_to_days no_shuffle db_rewritten =
  [ {| stale_key := ("src_a", "sig_a", "day", "hrr", 20200419, "a1");
       stale_timestamp2 := 40;
       max_timestamp1 := Some 50;
       support := 2 |} ] /\
  filter (is_stale ymd_to_days (covidcast db_rewritten))
    (covidcast db_rewritten) = [row_day2_rewritten].
Proof. split; reflexivity. Qed.

Section SelfSupport.

Variable to_days : Z -> option Z.

(** The support of a row that is alone in its window. *)
Lemma support_of_alone (t : list row) (c : row) :
  NoDup t -> In c t ->
  in_support to_days c c = true ->
  (forall d, In d t -> in_support to_days c d = true -> d = c) ->
  support_of to_days t c = [c].
Proof.
  unfold support_of. intros Hnd Hin Hself Halone.
  induction t as [| a t IH]; [contradiction |].
  inversion Hnd as [| ? ? Hnot Hnd']; subst.
  cbn [filter]. destruct Hin as [-> | Hin].
  - rewrite Hself. f_equal. apply filter_none.
    intros d Hd. destruct (in_support to_days c d) eqn:E; [| reflexivity].
    exfalso. apply Hnot. rewrite <- (Halone d); auto. now right.
  - destruct (in_support to_days c a) eqn:E.
    + exfalso. apply Hnot. rewrite (Halone a); auto. now left.
    + apply IH; auto. intros d Hd. apply Halone. now right.
Qed.

(** C10, as amended.  In a table that satisfies the unique index, every
    row of a result of [get_rows_with_stale_direction] has a support of at
    least 1, and a day row [c] whose [time_value] is a date lies zero days
    from itself and is joined with itself.  A result is the first 10000
    rows of the candidates, the rows of the query before its [ORDER BY
    rand()] and [LIMIT], in some order.  When [c.timestamp1 >
    c.timestamp2] as well, [c] is stale whatever the other rows are and one
    of the candidates is its row, with a support of at least 1 and a
    [max_timestamp1] of at least its own [timestamp1]; it appears in the
    result when there are at most 10000 candidates.  When no other row is
    in its window, its candidate carries its own [timestamp1] and
    support 1. *)
Theorem stale_direction_self_support
    (rand : nat -> Q) (db : database) (c : row) (x : Z) :
  unique_key (covidcast db) ->
  In c (covidcast db) ->
  time_type c = "day" ->
  to_days (time_value c) = Some x ->
  let t := covidcast db in
  let candidates := Database.stale_direction_having to_days t in
  let result := Database.get_rows_with_stale_direction to_days rand db in
  (forall s, In s result -> 1 <= support s) /\
  (exists y, to_days (time_value c) = Some y /\ 0 <= y - y <= 6) /\
  In (c, c) (Database.stale_direction_join to_days t) /\
  (exists shuffled,
     Permutation shuffled candidates /\
     result = firstn (Z.to_nat 10000) shuffled) /\
  Z.of_nat (List.length result) =
    Z.min 10000 (Z.of_nat (List.length candidates)) /\
  (timestamp2 c < timestamp1 c ->
   stale_by_days to_days t c /\
   (exists s m,
      In s candidates /\
      stale_key s = key_of c /\ stale_timestamp2 s = timestamp2 c /\
      1 <= support s /\
      max_timestamp1 s = Some m /\ timestamp1 c <= m) /\
   (Z.of_nat (List.length candidates) <= 10000 -> appears c result) /\
   ((forall d,
       In d t -> series_of d = series_of c ->
       days_apart to_days 0 6 (time_value c) (time_value d) -> d = c) ->
    In {| stale_key := key_of c;
          stale_timestamp2 := timestamp2 c;
          max_timestamp1 := Some (timestamp1 c);
          support := 1 |} candidates /\
    (Z.of_nat (List.length candidates) <= 10000 ->
     In {| stale_key := key_of c;
           stale_timestamp2 := timestamp2 c;
           max_timestamp1 := Some (timestamp1 c);
           support := 1 |} result))).
Proof.
  intros Hu Hc Hday Hx. cbv zeta.
  assert (Hdate : to_days (time_value c) <> None) by (rewrite Hx; discriminate).
  pose proof (in_support_self to_days c Hdate) as Hself.
  assert (Hall : Z.of_nat
                   (List.length
                      (Database.stale_direction_having to_days (covidcast db)))
                 <= 10000 ->
                 forall s,
                   In s (Database.stale_direction_having to_days
                           (covidcast db)) ->
                   In s (Database.get_rows_with_stale_direction to_days rand
                           db)).
  { intros Hlen s Hs. unfold Database.get_rows_with_stale_direction.
    rewrite sql_limit_all.
    - apply (Permutation_in _
               (Permutation_sym (order_by_rand_perm rand _))). exact Hs.
    - now rewrite (Permutation_length (order_by_rand_perm rand _)). }
  split; [| split; [| split; [| split; [| split]]]].
  - intros s Hs.
    destruct (proj1 (get_rows_with_stale_direction_In to_days rand db s Hu)
                Hs) as [c' [Hc' [Hst ->]]].
    cbn [support stale_row_of].
    unfold is_stale in Hst. apply andb_true_iff in Hst.
    destruct Hst as [_ Hst].
    destruct (support_of to_days (covidcast db) c') as [| d S];
      [discriminate |].
    cbn [List.length]. lia.
  - exists x. split; [exact Hx | lia].
  - rewrite stale_direction_join_pairs. apply in_flat_map.
    exists c. split; [exact Hc |]. unfold pairs_of.
    apply String.eqb_eq in Hday. rewrite Hday.
    apply in_map, filter_In. now split.
  - exists (order_by_rand rand
              (Database.stale_direction_having to_days (covidcast db))).
    split; [apply order_by_rand_perm | reflexivity].
  - unfold Database.get_rows_with_stale_direction.
    rewrite sql_limit_length_min by lia.
    now rewrite (Permutation_length (order_by_rand_perm rand _)).
  - intros Hlt.
    assert (Hst : is_stale_by_days to_days (covidcast db) c = true).
    { apply is_stale_by_days_true. split; [exact Hday |]. exists c.
      split; [exact Hc |]. split; [reflexivity |].
      split; [now apply (days_apart_self to_days _ x) | exact Hlt]. }
    assert (Hcand : In (stale_row_of to_days (covidcast db) c)
                      (Database.stale_direction_having to_days (covidcast db))).
    { rewrite (stale_direction_having_by_days to_days _ Hu).
      apply in_map, filter_In. now split. }
    assert (Hwin : In c (window_of to_days (covidcast db) c)).
    { rewrite <- support_of_window. apply filter_In. now split. }
    split; [now apply is_stale_by_days_true |].
    split; [| split].
    + destruct (stale_row_of_window to_days (covidcast db) c Hst)
        as [Hk [Ht2 [[m [d [Hm [_ [_ [Hub _]]]]]] Hsup]]].
      exists (stale_row_of to_days (covidcast db) c), m.
      split; [exact Hcand |]. split; [exact Hk |]. split; [exact Ht2 |].
      split; [| split; [exact Hm | now apply Hub]].
      rewrite Hsup.
      destruct (window_of to_days (covidcast db) c); [contradiction |].
      cbn [List.length]. lia.
    + intros Hlen. exists (stale_row_of to_days (covidcast db) c).
      split; [now apply Hall | split; reflexivity].
    + intros Halone.
      assert (Hrow : stale_row_of to_days (covidcast db) c =
                     {| stale_key := key_of c;
                        stale_timestamp2 := timestamp2 c;
                        max_timestamp1 := Some (timestamp1 c);
                        support := 1 |}).
      { unfold stale_row_of.
        rewrite (support_of_alone (covidcast db) c
                   (unique_key_NoDup _ Hu) Hc Hself); [reflexivity |].
        intros d Hd Hin. rewrite in_support_window in Hin.
        apply in_window_true in Hin. destruct Hin as [Hs Hk].
        now apply Halone. }
      rewrite <- Hrow. split; [exact Hcand |].
      intros Hlen. now apply Hall.
Qed.

End SelfSupport.

Lemma stale_direction_self_support_witness :
  (forall s,
     In s (Database.get_rows_with_stale_direction ymd_to_days no_shuffle
             db_lone) ->
     1 <= support s) /\
  In (row_lone, row_lone)
     (Database.stale_direction_join ymd_to_days (covidcast db_lone)) /\
  stale_by_days ymd_to_days (covidcast db_lone) row_lone /\
  appears row_lone
    (Database.get_rows_with_stale_direction ymd_to_days no_shuffle db_lone) /\
  In {| stale_key := ("src_a", "sig_a", "day", "hrr", 20200419, "a1");
        stale_timestamp2 := 0;
        max_timestamp1 := Some 1587300000;
        support := 1 |}
     (Database.get_rows_with_stale_direction ymd_to_days no_shuffle db_lone).
Proof.
  assert (Hu : unique_key (covidcast db_lone)).
  { unfold unique_key. simpl. constructor; [simpl; tauto | constructor]. }
  destruct (stale_direction_self_support ymd_to_days no_shuffle db_lone
              row_lone 737899 Hu (or_introl eq_refl) eq_refl eq_refl)
    as [Hsup [_ [Hjoin [_ [_ Hstale]]]]].
  assert (Hlt : timestamp2 row_lone < timestamp1 row_lone) by reflexivity.
  destruct (Hstale Hlt) as [Hst [_ [Happ Halone]]].
  assert (Hlen : Z.of_nat
                   (List.length
                      (Database.stale_direction_having ymd_to_days
                         (covidcast db_lone))) <= 10000)
    by (vm_compute; discriminate).
  split; [exact Hsup |]. split; [exact Hjoin |]. split; [exact Hst |].
  split; [exact (Happ Hlen) |].
  apply Halone; [| exact Hlen].
  intros d [<- | []] _ _. reflexivity.
Defined.

(** ** More stale rows than the limit *)

Lemma digit_char_inj (a b : Z) :
  0 <= a < 10 -> 0 <= b < 10 -> digit_char a = digit_char b -> a = b.
Proof.
  intros Ha Hb H. apply (f_equal nat_of_ascii) in H. unfold digit_char in H.
  rewrite !nat_ascii_embedding in H by lia. lia.
Qed.

Lemma county_code_inj (n m : nat) :
  Z.of_nat n < 100000 -> Z.of_nat m < 100000 ->
  county_code n = county_code m -> n = m.
Proof.
  intros Hn Hm H. unfold county_code in H.
  set (x := Z.of_nat n) in *. set (y := Z.of_nat m) in *.
  assert (Hx : 0 <= x) by (unfold x; lia).
  assert (Hy : 0 <= y) by (unfold y; lia).
  injection H as H4 H3 H2 H1 H0.
  apply digit_char_inj in H4; [| apply Z.mod_pos_bound; lia ..].
  apply digit_char_inj in H3; [| apply Z.mod_pos_bound; lia ..].
  apply digit_char_inj in H2; [| apply Z.mod_pos_bound; lia ..].
  apply digit_char_inj in H1; [| apply Z.mod_pos_bound; lia ..].
  apply digit_char_inj in H0; [| apply Z.mod_pos_bound; lia ..].
  assert (x = y) by (Z.to_euclidean_division_equations; lia).
  unfold x, y in *. lia.
Qed.

Lemma ingested_row_inj (n m : nat) :
  Z.of_nat n < 100000 -> Z.of_nat m < 100000 ->
  key_of (ingested_row n) = key_of (ingested_row m) -> n = m.
Proof.
  intros Hn Hm H. unfold key_of, ingested_row in H. cbn [geo_value] in H.
  apply county_code_inj; auto. congruence.
Qed.

Lemma ingested_rows_unique (len : nat) :
  Z.of_nat len < 100000 ->
  unique_key (map ingested_row (seq 0 len)).
Proof.
  intros Hlen. unfold unique_key. rewrite map_map.
  assert (H : forall l : list nat,
            NoDup l -> (forall i, In i l -> Z.of_nat i < 100000) ->
            NoDup (map (fun i => key_of (ingested_row i)) l)).
  { induction l as [| a l IH]; intros Hnd Hb; cbn [map]; constructor.
    - intros Hin. apply in_map_iff in Hin. destruct Hin as [i [Hi Hin]].
      apply ingested_row_inj in Hi;
        [| apply Hb; now right | apply Hb; now left].
      subst i. now inversion Hnd.
    - apply IH; [now inversion Hnd | intros; apply Hb; now right]. }
  apply H; [apply seq_NoDup |].
  intros i Hi. apply in_seq in Hi. lia.
Qed.

Lemma ingested_rows_stale (len : nat) (c : row) :
  In c (map ingested_row (seq 0 len)) ->
  is_stale ymd_to_days (map ingested_row (seq 0 len)) c = true.
Proof.
  intros Hc. apply is_stale_true.
  assert (Hrow : time_type c = "day" /\ time_value c = 20200419 /\
                 timestamp2 c < timestamp1 c).
  { apply in_map_iff in Hc. destruct Hc as [i [<- _]].
    unfold ingested_row. cbn [time_type time_value timestamp1 timestamp2].
    repeat split. }
  destruct Hrow as [Hday [Htv Hlt]].
  split; [exact Hday |]. exists c.
  assert (Hself : in_support ymd_to_days c c = true).
  { apply in_support_self. rewrite Htv. vm_compute. discriminate. }
  apply in_support_true in Hself. tauto.
Qed.

Lemma order_by_rand_no_shuffle {A : Type} (l : list A) :
  order_by_rand no_shuffle l = l.
Proof.
  unfold order_by_rand.
  assert (Hsort : forall keyed : list (Q * A),
            (forall a, In a keyed -> fst a = 0%Q) ->
            order_by (fun a b => Qle_bool (fst a) (fst b)) keyed = keyed).
  { induction keyed as [| a keyed IH]; intros H; [reflexivity |].
    cbn [order_by]. rewrite IH by (intros; apply H; now right).
    destruct keyed as [| b keyed]; [reflexivity |].
    cbn [insert_by]. rewrite (H a), (H b); [reflexivity | |].
    - right. now left.
    - now left. }
  rewrite Hsort.
  - assert (H : forall (ks : list Q) (xs : list A),
              List.length ks = List.length xs ->
              map snd (combine ks xs) = xs).
    { induction ks as [| k ks IH]; intros [| x xs] Hl;
        try discriminate; cbn; [reflexivity |].
      f_equal. apply IH. now injection Hl. }
    apply H. now rewrite length_map, length_seq.
  - intros [k x] Hin. apply in_combine_l in Hin.
    apply in_map_iff in Hin. now destruct Hin as [i [<- _]].
Qed.

Lemma firstn_seq_le (n start len : nat) :
  (n <= len)%nat -> firstn n (seq start len) = seq start n.
Proof.
  revert start len. induction n as [| n IH]; intros start len Hle;
    [reflexivity |].
  destruct len as [| len]; [lia |].
  cbn [seq firstn]. f_equal. apply IH. lia.
Qed.

(** The result on the ingested table: the first 10000 counties. *)
Lemma get_rows_with_stale_direction_ingested :
  Database.get_rows_with_stale_direction ymd_to_days no_shuffle db_ingested =
  map (stale_row_of ymd_to_days (covidcast db_ingested))
    (map ingested_row (seq 0 (Z.to_nat 10000))).
Proof.
  unfold Database.get_rows_with_stale_direction.
  rewrite stale_direction_having_rows
    by (apply ingested_rows_unique; lia).
  rewrite order_by_rand_no_shuffle.
  unfold db_ingested. cbn [covidcast].
  rewrite filter_all by apply ingested_rows_stale.
  unfold sql_limit. rewrite !firstn_map, firstn_seq_le by lia. reflexivity.
Qed.

Lemma ingested_row_missing :
  ~ appears (ingested_row (Z.to_nat 10000))
      (Database.get_rows_with_stale_direction ymd_to_days no_shuffle
         db_ingested).
Proof.
  rewrite get_rows_with_stale_direction_ingested.
  intros [s [Hs [Hk _]]].
  apply in_map_iff in Hs. destruct Hs as [c [<- Hc]].
  apply in_map_iff in Hc. destruct Hc as [i [<- Hi]].
  apply in_seq in Hi. cbn [stale_key stale_row_of] in Hk.
  apply ingested_row_inj in Hk; lia.
Qed.

Lemma key_eq_dec (k1 k2 : key) : {k1 = k2} + {k1 <> k2}.
Proof.
  destruct (key_eqb k1 k2) eqn:E.
  - left. now apply key_eqb_eq.
  - right. now apply key_eqb_neq.
Qed.

(** Whatever the draws, a table of more than 10000 rows has a row that is
    not in the result. *)
Lemma some_row_not_returned (to_days : Z -> option Z) (rand : nat -> Q)
    (db : database) :
  unique_key (covidcast db) ->
  10000 < Z.of_nat (List.length (covidcast db)) ->
  exists c,
    In c (covidcast db) /\
    ~ appears c (Database.get_rows_with_stale_direction to_days rand db).
Proof.
  intros Hu Hlen.
  set (res := Database.get_rows_with_stale_direction to_days rand db).
  assert (Hres : Z.of_nat (List.length res) <= 10000)
    by (apply sql_limit_length; lia).
  destruct (Forall_Exists_dec
              (fun c => In (key_of c) (map stale_key res))
              (fun c => in_dec key_eq_dec (key_of c) (map stale_key res))
              (covidcast db)) as [Hall | Hex].
  - exfalso.
    assert (Hincl : incl (map key_of (covidcast db)) (map stale_key res)).
    { intros k Hk. apply in_map_iff in Hk. destruct Hk as [c [<- Hc]].
      rewrite Forall_forall in Hall. now apply Hall. }
    apply (NoDup_incl_length Hu) in Hincl.
    rewrite !length_map in Hincl. lia.
  - apply Exists_exists in Hex. destruct Hex as [c [Hc Hnot]].
    exists c. split; [exact Hc |].
    intros [s [Hs [Hk _]]]. apply Hnot. rewrite <- Hk. now apply in_map.
Qed.

Lemma db_ingested_length :
  Z.of_nat (List.length (covidcast db_ingested)) = 10001.
Proof.
  unfold db_ingested. cbn [covidcast]. rewrite length_map, length_seq. lia.
Qed.

(** C1, as stated, fails on a table with more stale rows than the limit:
    of 10001 counties just ingested for one day, every row is a day row
    that satisfies the condition, and whatever the draws one of them is not
    in the result; with equal draws it is the last one. *)
Lemma stale_rows_exceed_limit :
  (forall c,
     In c (covidcast db_ingested) ->
     time_type c = "day" /\
     stale_condition ymd_to_days (covidcast db_ingested) c) /\
  (forall rand,
     exists c,
       In c (covidcast db_ingested) /\
       ~ appears c
           (Database.get_rows_with_stale_direction ymd_to_days rand
              db_ingested)) /\
  In (ingested_row (Z.to_nat 10000)) (covidcast db_ingested) /\
  ~ appears (ingested_row (Z.to_nat 10000))
      (Database.get_rows_with_stale_direction ymd_to_days no_shuffle
         db_ingested).
Proof.
  split; [| split; [| split]].
  - intros c Hc.
    assert (Hst : stale_condition ymd_to_days (covidcast db_ingested) c)
      by (apply is_stale_true; now apply ingested_rows_stale).
    split; [apply Hst | exact Hst].
  - intros rand. apply some_row_not_returned.
    + apply ingested_rows_unique. lia.
    + rewrite db_ingested_length. lia.
  - unfold db_ingested. cbn [covidcast]. apply in_map, in_seq. lia.
  - exact ingested_row_missing.
Qed.

(** C10, as stated, fails on the same table: every row is a day row whose
    own [timestamp1] exceeds its [timestamp2], and whatever the draws one
    of them is not reported.  It also fails on a day row whose [time_value]
    is not a date: the row is not joined with itself and is not reported. *)
Lemma self_support_not_reported :
  (forall c,
     In c (covidcast db_ingested) ->
     time_type c = "day" /\ timestamp2 c < timestamp1 c) /\
  (forall rand,
     exists c,
       In c (covidcast db_ingested) /\
       ~ appears c
           (Database.get_rows_with_stale_direction ymd_to_days rand
              db_ingested)) /\
  time_type row_no_date = "day" /\
  timestamp2 row_no_date < timestamp1 row_no_date /\
  Database.stale_direction_join ymd_to_days (covidcast db_no_date) = [] /\
  Database.get_rows_with_stale_direction ymd_to_days no_shuffle db_no_date =
  [].
Proof.
  split; [| split; [| repeat split]].
  - intros c Hc. unfold db_ingested in Hc. cbn [covidcast] in Hc.
    apply in_map_iff in Hc. destruct Hc as [i [<- _]].
    split; reflexivity.
  - intros rand. apply some_row_not_returned.
    + apply ingested_rows_unique. lia.
    + rewrite db_ingested_length. lia.
Qed.

(** ** The driver *)

(** [disconnect] without commit leaves the server's table as it was, and
    with commit makes it the table of the transaction. *)
Lemma disconnect_rollback (w : world) :
  committed (snd (Connection.disconnect false w)) = committed w /\
  transaction (snd (Connection.disconnect false w)) = None.
Proof.
  unfold Connection.disconnect.
  destruct (transaction w) eqn:E; cbn [snd committed transaction]; auto.
Qed.

Lemma disconnect_commit (w : world) (db : database) :
  transaction w = Some db ->
  committed (snd (Connection.disconnect true w)) = db /\
  transaction (snd (Connection.disconnect true w)) = None.
Proof.
  intros H. unfold Connection.disconnect. rewrite H.
  cbn [snd committed transaction]. auto.
Qed.

Lemma disconnect_not_connected (commit : bool) (w : world) :
  transaction w = None ->
  fst (Connection.disconnect commit w) = inl NotConnected /\
  committed (snd (Connection.disconnect commit w)) = committed w.
Proof.
  intros H. unfold Connection.disconnect. rewrite H. split; reflexivity.
Qed.

(** C7.  [main] connects, which opens a transaction on the server's table,
    and runs the ingest step on it.  Provided the step leaves the
    connection open: when the step raises, [main] disconnects with
    [commit = false] and raises the same exception; when the step
    completes and test mode is off, it disconnects with [commit = true];
    in test mode it disconnects with [commit = false] whatever the step
    did.  The disconnect is the last call and succeeds; without commit it
    leaves the server's table as it was, with commit it makes it the table
    of the transaction. *)
Theorem main_commits_clean_runs_only
    (data_dir : string) (test : bool)
    (scan_upload_archive_impl : string -> M unit) (w : world)
    (db2 : database) :
  let w1 := snd (Connection.connect w) in
  let r := fst (scan_upload_archive_impl data_dir w1) in
  let w2 := snd (scan_upload_archive_impl data_dir w1) in
  transaction w2 = Some db2 ->
  (fst (Connection.connect w) = inr tt /\
   transaction w1 = Some (committed w) /\
   committed w1 = committed w /\
   journal w1 = journal w ++ [call_connect]) /\
  (forall e,
     r = inl e ->
     CsvToDatabase.main data_dir test scan_upload_archive_impl w =
       (inl e, snd (Connection.disconnect false w2))) /\
  (r = inr tt -> test = false ->
   CsvToDatabase.main data_dir test scan_upload_archive_impl w =
     (inr tt, snd (Connection.disconnect true w2))) /\
  (test = true ->
   CsvToDatabase.main data_dir test scan_upload_archive_impl w =
     (r, snd (Connection.disconnect false w2))) /\
  (forall commit,
     fst (Connection.disconnect commit w2) = inr tt /\
     journal (snd (Connection.disconnect commit w2)) =
       journal w2 ++ [call_disconnect commit] /\
     transaction (snd (Connection.disconnect commit w2)) = None) /\
  committed (snd (Connection.disconnect false w2)) = committed w2 /\
  committed (snd (Connection.disconnect true w2)) = db2.
Proof.
  cbv zeta. intros Hopen.
  split; [repeat split |].
  unfold CsvToDatabase.main, bind, attempt.
  destruct (Connection.connect w) as [rc w1] eqn:Ec.
  assert (Hrc : rc = inr tt)
    by (unfold Connection.connect in Ec; now injection Ec as <- _).
  subst rc. cbn [snd fst] in *.
  destruct (scan_upload_archive_impl data_dir w1) as [r w2] eqn:E.
  cbn [fst snd] in *.
  assert (Hd : forall commit,
            Connection.disconnect commit w2 =
            (inr tt,
             {| committed := if commit then db2 else committed w2;
                transaction := None;
                executed := executed w2;
                journal := journal w2 ++ [call_disconnect commit] |}))
    by (intros commit; unfold Connection.disconnect; now rewrite Hopen).
  split; [| split; [| split; [| split; [| split]]]].
  - intros e ->. now rewrite Hd.
  - intros -> ->. cbn [negb]. now rewrite Hd.
  - intros ->. cbn [negb]. destruct r as [e | []]; now rewrite Hd.
  - intros commit. rewrite Hd. repeat split.
  - now rewrite Hd.
  - now rewrite Hd.
Qed.

Lemma main_commits_clean_runs_only_witness :
  (fst (CsvToDatabase.main "data" false (step_failing (fun _ => 1587400000))
          world_idle) = inl (Failure "testing") /\
   committed
     (snd (CsvToDatabase.main "data" false
             (step_failing (fun _ => 1587400000)) world_idle)) =
   db_confirmed) /\
  (fst (CsvToDatabase.main "data" false (step_clean (fun _ => 1587400000))
          world_idle) = inr tt /\
   covidcast
     (committed
        (snd (CsvToDatabase.main "data" false
                (step_clean (fun _ => 1587400000)) world_idle))) =
   [ row_confirmed;
     mk_row 2 "src_a" "sig_a" "day" "hrr" 20200420 "a1" 1587400000
       (7 # 2) None None 0 None ]) /\
  (fst (CsvToDatabase.main "data" true (step_clean (fun _ => 1587400000))
          world_idle) = inr tt /\
   committed
     (snd (CsvToDatabase.main "data" true
             (step_clean (fun _ => 1587400000)) world_idle)) =
   db_confirmed).
Proof.
  split; [| split].
  - destruct (main_commits_clean_runs_only "data" false
                (step_failing (fun _ => 1587400000)) world_idle _ eq_refl)
      as [_ [H _]].
    rewrite (H (Failure "testing") eq_refl). split; reflexivity.
  - destruct (main_commits_clean_runs_only "data" false
                (step_clean (fun _ => 1587400000)) world_idle _ eq_refl)
      as [_ [_ [H _]]].
    rewrite (H eq_refl eq_refl). split; reflexivity.
  - destruct (main_commits_clean_runs_only "data" true
                (step_clean (fun _ => 1587400000)) world_idle _ eq_refl)
      as [_ [_ [_ [H _]]]].
    rewrite (H eq_refl). split; reflexivity.
Defined.

(** The three runs of the tests of [main], on a server that holds one row:
    a step that fails after an upsert, a clean step, and a clean step in
    test mode. *)
Example main_unsuccessful (clock : nat -> Z) :
  let out := CsvToDatabase.main "data" false (step_failing clock) world_idle in
  fst out = inl (Failure "testing") /\
  committed (snd out) = db_confirmed /\
  transaction (snd out) = None /\
  journal (snd out) =
    [ call_connect;
      call_insert_or_update "src_a" "sig_a" "day" "hrr" 20200420 "a1"
        (7 # 2) None None;
      call_disconnect false ].
Proof. repeat split. Qed.

Example main_successful (clock : nat -> Z) :
  let out := CsvToDatabase.main "data" false (step_clean clock) world_idle in
  fst out = inr tt /\
  covidcast (committed (snd out)) =
    [ row_confirmed;
      mk_row 2 "src_a" "sig_a" "day" "hrr" 20200420 "a1" (clock 0%nat)
        (7 # 2) None None 0 None ] /\
  transaction (snd out) = None /\
  journal (snd out) =
    [ call_connect;
      call_insert_or_update "src_a" "sig_a" "day" "hrr" 20200420 "a1"
        (7 # 2) None None;
      call_disconnect true ].
Proof. repeat split. Qed.

Example main_testing (clock : nat -> Z) :
  let out := CsvToDatabase.main "data" true (step_clean clock) world_idle in
  fst out = inr tt /\
  committed (snd out) = db_confirmed /\
  transaction (snd out) = None /\
  journal (snd out) =
    [ call_connect;
      call_insert_or_update "src_a" "sig_a" "day" "hrr" 20200420 "a1"
        (7 # 2) None None;
      call_disconnect false ].
Proof. repeat split. Qed.

(** [insert_or_update] has no error of its own. *)
Lemma insert_or_update_no_error
    (now : Z) (src sig tty gty : string) (tv : Z) (gv : string)
    (v : Q) (se ss : option Q) (db : database) :
  exists db',
    Database.insert_or_update now src sig tty gty tv gv v se ss db = inr db'.
Proof.
  unfold Database.insert_or_update.
  destruct (insert_values _ db) as [[k] | db']; eauto.
Qed.

Section Ingest.

Variable clock : nat -> Z.

(** On an open connection the row loop upserts every valid row of the
    file, in order, also those after an invalid one, and answers whether
    all rows were valid. *)
Lemma upload_rows_journal (d : details) (rows : list (option csv_row))
    (ok : bool) (w : world) (db : database) :
  transaction w = Some db ->
  exists db',
    CsvToDatabase.upload_rows clock d rows ok w =
    (inr (ok && forallb (fun r => match r with Some _ => true | None => false end) rows),
     {| committed := committed w;
        transaction := Some db';
        executed := (executed w + List.length (valid_rows rows))%nat;
        journal := journal w ++ map (upsert_call d) (valid_rows rows) |}).
Proof.
  revert ok w db. induction rows as [| [r |] rows IH]; intros ok w db Hw.
  - exists db. cbn [CsvToDatabase.upload_rows valid_rows flat_map map
                      forallb List.length].
    unfold ret. rewrite andb_true_r, app_nil_r, Nat.add_0_r.
    destruct w; cbn in *. now rewrite Hw.
  - cbn [CsvToDatabase.upload_rows]. destruct d as [[[[s g] t] y] v].
    unfold bind, Connection.insert_or_update. rewrite Hw.
    destruct (insert_or_update_no_error (clock (executed w)) s g t y v
                (row_geo_value r) (row_value r) (row_stderr r)
                (row_sample_size r) db) as [db1 E].
    rewrite E. cbn [committed transaction executed journal].
    edestruct (IH ok) as [db' E']; [| rewrite E'].
    + cbn [transaction]. reflexivity.
    + exists db'. cbn [committed transaction executed journal valid_rows
                         flat_map forallb map app List.length upsert_call
                         andb Nat.add].
      rewrite <- app_assoc, Nat.add_succ_r. reflexivity.
  - cbn [CsvToDatabase.upload_rows].
    destruct (IH false w db Hw) as [db' E']. rewrite E'.
    exists db'. cbn [forallb valid_rows flat_map app].
    now rewrite andb_false_r.
Qed.

(** The scenario of the tests, started on an open connection to an empty
    table: the calls in order, and the five rows in the table of the
    transaction with their timestamps. *)
Example scan_upload_archive_scenario :
  let out :=
    CsvToDatabase.scan_upload_archive clock "data_dir" scenario_files
      scenario_load_csv world_connected in
  fst out = inr tt /\
  journal (snd out) =
    [ call_insert_or_update "src_a" "sig_a" "day" "hrr" 20200419 "a1"
        (1 # 1) (Some (1 # 10)) (Some (25 # 1));
      call_insert_or_update "src_a" "sig_a" "day" "hrr" 20200419 "a2"
        (2 # 1) (Some (1 # 10)) (Some (25 # 1));
      call_insert_or_update "src_a" "sig_a" "day" "hrr" 20200419 "a3"
        (3 # 1) (Some (1 # 10)) (Some (25 # 1));
      call_archive_file "path" "data_dir/archive/successful/src_a" "a.csv"
        true;
      call_insert_or_update "src_b" "sig_b" "week" "msa" 202016 "b1"
        (4 # 1) (Some (1 # 10)) (Some (25 # 1));
      call_insert_or_update "src_b" "sig_b" "week" "msa" 202016 "b3"
        (6 # 1) (Some (1 # 10)) (Some (25 # 1));
      call_archive_file "path" "data_dir/archive/failed/src_b" "b.csv" false;
      call_archive_file "path" "data_dir/archive/failed/unknown" "c.csv"
        false ] /\
  List.length (filter is_insert_or_update (journal (snd out))) = 5%nat /\
  List.length (filter is_archive_file (journal (snd out))) = 3%nat /\
  (exists db,
     transaction (snd out) = Some db /\
     map key_of (covidcast db) =
       [ ("src_a", "sig_a", "day", "hrr", 20200419, "a1");
         ("src_a", "sig_a", "day", "hrr", 20200419, "a2");
         ("src_a", "sig_a", "day", "hrr", 20200419, "a3");
         ("src_b", "sig_b", "week", "msa", 202016, "b1");
         ("src_b", "sig_b", "week", "msa", 202016, "b3") ] /\
     map timestamp1 (covidcast db) =
       [ clock 0%nat; clock 1%nat; clock 2%nat; clock 3%nat; clock 4%nat ]).
Proof.
  cbv zeta. vm_compute. repeat split.
  eexists. repeat split.
Qed.

End Ingest.

(** * Further properties of the statements *)

(** ** What the writes keep *)

Lemma duplicate_key_update_key (new old : row) :
  key_of (duplicate_key_update new old) = key_of old.
Proof. reflexivity. Qed.

Lemma on_duplicate_key_update_keys (new : row) (db : database) :
  map key_of (covidcast (on_duplicate_key_update new db)) =
  map key_of (covidcast db).
Proof.
  unfold on_duplicate_key_update. cbn [covidcast]. rewrite map_map.
  apply map_ext. intros a. now destruct (key_eqb _ _).
Qed.

(** The two outcomes of [insert_or_update], by the presence of the key. *)
Lemma insert_or_update_cases
    (now : Z) (src sig tty gty : string) (tv : Z) (gv : string)
    (v : Q) (se ss : option Q) (db : database) :
  let new := mk_row 0 src sig tty gty tv gv now v se ss 0 None in
  (has_key (src, sig, tty, gty, tv, gv) (covidcast db) = true /\
   Database.insert_or_update now src sig tty gty tv gv v se ss db =
     inr (on_duplicate_key_update new db)) \/
  (has_key (src, sig, tty, gty, tv, gv) (covidcast db) = false /\
   Database.insert_or_update now src sig tty gty tv gv v se ss db =
     inr {| covidcast :=
              covidcast db ++
              [mk_row (auto_increment db) src sig tty gty tv gv now v se ss
                 0 None];
            auto_increment := auto_increment db + 1 |}).
Proof.
  cbv zeta. unfold Database.insert_or_update, insert_values.
  change (key_of (mk_row 0 src sig tty gty tv gv now v se ss 0 None))
    with (src, sig, tty, gty, tv, gv).
  destruct (has_key _ (covidcast db)); [left | right]; split; reflexivity.
Qed.

Lemma insert_or_update_keeps_unique_key
    (now : Z) (src sig tty gty : string) (tv : Z) (gv : string)
    (v : Q) (se ss : option Q) (db db' : database) :
  unique_key (covidcast db) ->
  Database.insert_or_update now src sig tty gty tv gv v se ss db = inr db' ->
  unique_key (covidcast db').
Proof.
  intros Hu H.
  destruct (insert_or_update_cases now src sig tty gty tv gv v se ss db)
    as [[Hk E] | [Hk E]]; rewrite E in H; injection H as <-.
  - unfold unique_key. now rewrite on_duplicate_key_update_keys.
  - unfold unique_key. cbn [covidcast]. rewrite map_app. cbn [map].
    apply NoDup_app; [exact Hu | constructor; [intros [] | constructor] |].
    intros k Hin [<- | []]. apply in_map_iff in Hin.
    destruct Hin as [r [Hr Hin]].
    rewrite has_key_false in Hk. now apply (Hk r).
Qed.

(** After [insert_or_update] the table holds a row with the key, the
    values and [timestamp1 = now]; its [timestamp2] is the one of a row
    that held the key, or 0. *)
Lemma insert_or_update_stores
    (now : Z) (src sig tty gty : string) (tv : Z) (gv : string)
    (v : Q) (se ss : option Q) (db : database) :
  exists db' r',
    Database.insert_or_update now src sig tty gty tv gv v se ss db = inr db' /\
    In r' (covidcast db') /\
    key_of r' = (src, sig, tty, gty, tv, gv) /\
    value r' = v /\ stderr r' = se /\ sample_size r' = ss /\
    timestamp1 r' = now /\
    (timestamp2 r' = 0 \/
     exists r, In r (covidcast db) /\
               key_of r = (src, sig, tty, gty, tv, gv) /\
               timestamp2 r' = timestamp2 r).
Proof.
  destruct (insert_or_update_cases now src sig tty gty tv gv v se ss db)
    as [[Hk E] | [Hk E]]; rewrite E.
  - apply has_key_true in Hk. destruct Hk as [r [Hr Hk]].
    eexists. exists (duplicate_key_update
                       (mk_row 0 src sig tty gty tv gv now v se ss 0 None) r).
    split; [reflexivity |]. split.
    + unfold on_duplicate_key_update. cbn [covidcast]. apply in_map_iff.
      exists r. split; [| exact Hr].
      change (key_of (mk_row 0 src sig tty gty tv gv now v se ss 0 None))
        with (src, sig, tty, gty, tv, gv).
      rewrite <- Hk, key_eqb_refl. reflexivity.
    + rewrite duplicate_key_update_key. repeat split; auto.
      right. exists r. auto.
  - eexists. eexists. split; [reflexivity |]. split.
    + cbn [covidcast]. apply in_or_app. right. left. reflexivity.
    + cbn. repeat split; auto.
Qed.

(** X1.  [insert_or_update] returns a table in which the unique index
    still holds and the key is present; no key of the table is lost, and
    [count_all_rows] grows by one when the key was absent and stays when it
    was present. *)
Theorem insert_or_update_keeps_index_and_counts
    (now : Z) (src sig tty gty : string) (tv : Z) (gv : string)
    (v : Q) (se ss : option Q) (db : database) :
  unique_key (covidcast db) ->
  exists db',
    Database.insert_or_update now src sig tty gty tv gv v se ss db = inr db' /\
    unique_key (covidcast db') /\
    has_key (src, sig, tty, gty, tv, gv) (covidcast db') = true /\
    (forall k, has_key k (covidcast db) = true ->
               has_key k (covidcast db') = true) /\
    Database.count_all_rows db' =
      Database.count_all_rows db +
      (if has_key (src, sig, tty, gty, tv, gv) (covidcast db) then 0 else 1).
Proof.
  intros Hu.
  destruct (insert_or_update_stores now src sig tty gty tv gv v se ss db)
    as [db' [r' [E [Hin [Hk _]]]]].
  exists db'. split; [exact E |].
  split; [eapply insert_or_update_keeps_unique_key; eauto |].
  split; [apply has_key_true; eauto |].
  destruct (insert_or_update_cases now src sig tty gty tv gv v se ss db)
    as [[Hp E'] | [Hp E']]; rewrite E' in E; injection E as <-; rewrite Hp.
  - split.
    + intros k Hhas. apply has_key_true in Hhas.
      destruct Hhas as [r [Hr Hkr]]. apply has_key_true.
      assert (Hmem : In k (map key_of
                (covidcast (on_duplicate_key_update
                   (mk_row 0 src sig tty gty tv gv now v se ss 0 None) db)))).
      { rewrite on_duplicate_key_update_keys, <- Hkr. now apply in_map. }
      apply in_map_iff in Hmem. destruct Hmem as [x [Hx Hxin]]. eauto.
    + unfold Database.count_all_rows, on_duplicate_key_update.
      cbn [covidcast]. rewrite length_map. lia.
  - split.
    + intros k Hhas. apply has_key_true in Hhas.
      destruct Hhas as [r [Hr Hkr]]. apply has_key_true.
      exists r. split; [| exact Hkr]. cbn [covidcast].
      apply in_or_app. now left.
    + unfold Database.count_all_rows. cbn [covidcast].
      rewrite length_app. cbn [List.length]. lia.
Qed.

Lemma insert_or_update_keeps_index_and_counts_witness :
  exists db',
    Database.insert_or_update 1587400000 "src_a" "sig_a" "day" "hrr" 20200420
      "a1" (7 # 2) None None db_two_days = inr db' /\
    unique_key (covidcast db') /\
    has_key ("src_a", "sig_a", "day", "hrr", 20200420, "a1") (covidcast db')
      = true /\
    (forall k, has_key k (covidcast db_two_days) = true ->
               has_key k (covidcast db') = true) /\
    Database.count_all_rows db' =
      Database.count_all_rows db_two_days +
      (if has_key ("src_a", "sig_a", "day", "hrr", 20200420, "a1")
            (covidcast db_two_days) then 0 else 1).
Proof.
  apply (insert_or_update_keeps_index_and_counts 1587400000 "src_a" "sig_a"
           "day" "hrr" 20200420 "a1" (7 # 2) None None db_two_days).
  unfold unique_key. simpl.
  constructor; [simpl; intros [H | []]; discriminate |].
  constructor; [simpl; tauto | constructor].
Defined.

Lemma on_duplicate_key_update_twice (new1 new2 : row) (db : database) :
  key_of new1 = key_of new2 ->
  on_duplicate_key_update new2 (on_duplicate_key_update new1 db) =
  on_duplicate_key_update new2 db.
Proof.
  intros Hk. unfold on_duplicate_key_update. cbn [covidcast auto_increment].
  f_equal. rewrite map_map. apply map_ext. intros a. rewrite Hk.
  destruct (key_eqb (key_of a) (key_of new2)) eqn:Ea; [| now rewrite Ea].
  now rewrite duplicate_key_update_key, Ea.
Qed.

Lemma on_duplicate_key_update_appended (new r : row) (db : database)
    (n : Z) :
  has_key (key_of new) (covidcast db) = false ->
  key_of r = key_of new ->
  on_duplicate_key_update new
    {| covidcast := covidcast db ++ [r]; auto_increment := n |} =
  {| covidcast := covidcast db ++ [duplicate_key_update new r];
     auto_increment := n |}.
Proof.
  intros Hno Hk. unfold on_duplicate_key_update.
  cbn [covidcast auto_increment]. f_equal.
  rewrite map_app. cbn [map]. rewrite Hk, key_eqb_refl. f_equal.
  rewrite <- (map_id (covidcast db)) at 2. apply map_ext_in.
  intros a Ha. rewrite has_key_false in Hno.
  assert (Ea : key_eqb (key_of a) (key_of new) = false)
    by (apply key_eqb_neq, Hno, Ha).
  now rewrite Ea.
Qed.

(** X2.  The last write wins: two calls of [insert_or_update] on one key
    leave the rows that the second call alone would have left, ids
    included, whether the key was present before or not. *)
Theorem insert_or_update_last_write_wins
    (now1 now2 : Z) (src sig tty gty : string) (tv : Z) (gv : string)
    (v1 v2 : Q) (se1 se2 ss1 ss2 : option Q) (db : database) :
  exists db1 db2 db2',
    Database.insert_or_update now1 src sig tty gty tv gv v1 se1 ss1 db =
      inr db1 /\
    Database.insert_or_update now2 src sig tty gty tv gv v2 se2 ss2 db1 =
      inr db2 /\
    Database.insert_or_update now2 src sig tty gty tv gv v2 se2 ss2 db =
      inr db2' /\
    covidcast db2 = covidcast db2'.
Proof.
  destruct (insert_or_update_stores now1 src sig tty gty tv gv v1 se1 ss1 db)
    as [db1 [r1 [E1 [Hin1 [Hk1 _]]]]].
  exists db1.
  assert (Hhas1 : has_key (src, sig, tty, gty, tv, gv) (covidcast db1) = true)
    by (apply has_key_true; eauto).
  destruct (insert_or_update_cases now2 src sig tty gty tv gv v2 se2 ss2 db1)
    as [[_ E2] | [Hno _]]; [| congruence].
  rewrite E2. clear Hhas1 Hin1 Hk1 r1.
  destruct (insert_or_update_cases now1 src sig tty gty tv gv v1 se1 ss1 db)
    as [[Hp E] | [Hp E]]; rewrite E in E1; injection E1 as <-.
  - destruct (insert_or_update_cases now2 src sig tty gty tv gv v2 se2 ss2 db)
      as [[_ E3] | [Hno _]]; [| congruence].
    rewrite E3. do 2 eexists.
    split; [exact E |]. split; [reflexivity |]. split; [reflexivity |].
    now rewrite on_duplicate_key_update_twice.
  - destruct (insert_or_update_cases now2 src sig tty gty tv gv v2 se2 ss2 db)
      as [[Hyes _] | [_ E3]]; [congruence |].
    rewrite E3. do 2 eexists.
    split; [exact E |]. split; [reflexivity |]. split; [reflexivity |].
    now rewrite on_duplicate_key_update_appended.
Qed.

Lemma update_direction_keys
    (now : Z) (src sig tty gty : string) (tv : Z) (gv : string)
    (d : option Z) (db : database) :
  map key_of
    (covidcast (Database.update_direction now src sig tty gty tv gv d db)) =
  map key_of (covidcast db).
Proof.
  unfold Database.update_direction. cbn [covidcast]. rewrite map_map.
  apply map_ext. intros a. now destruct (key_eqb _ _).
Qed.

Lemma update_timeseries_timestamp2_keys
    (now : Z) (src sig tty gty gv : string) (db : database) :
  map key_of
    (covidcast
       (Database.update_timeseries_timestamp2 now src sig tty gty gv db)) =
  map key_of (covidcast db).
Proof.
  unfold Database.update_timeseries_timestamp2. cbn [covidcast].
  rewrite map_map. apply map_ext. intros a. now destruct (series_eqb _ _).
Qed.

(** X3.  On a series that no row of the table belongs to,
    [update_timeseries_timestamp2] and, for every day of the series,
    [update_direction] leave the database as it is: no row is created and
    no row is touched. *)
Theorem updates_of_absent_series
    (now : Z) (src sig tty gty : string) (tv : Z) (gv : string)
    (d : option Z) (db : database) :
  (forall r, In r (covidcast db) -> series_of r <> (src, sig, tty, gty, gv)) ->
  Database.update_timeseries_timestamp2 now src sig tty gty gv db = db /\
  Database.update_direction now src sig tty gty tv gv d db = db.
Proof.
  intros H. split.
  - unfold Database.update_timeseries_timestamp2. destruct db as [t n].
    cbn [covidcast auto_increment] in *. f_equal.
    rewrite <- (map_id t) at 2. apply map_ext_in. intros a Ha.
    assert (E : series_eqb (series_of a) (src, sig, tty, gty, gv) = false)
      by (apply series_eqb_neq, H, Ha).
    now rewrite E.
  - apply update_direction_absent_key. intros r Hr Hk. apply (H r Hr).
    unfold series_of. unfold key_of in Hk. congruence.
Qed.

Lemma updates_of_absent_series_witness :
  Database.update_timeseries_timestamp2 1587400000 "src_a" "sig_a" "day"
    "hrr" "a1" db_week = db_week /\
  Database.update_direction 1587400000 "src_a" "sig_a" "day" "hrr" 20200419
    "a1" (Some 1) db_week = db_week.
Proof.
  apply (updates_of_absent_series 1587400000 "src_a" "sig_a" "day" "hrr"
           20200419 "a1" (Some 1) db_week).
  simpl. intros r [<- | []]. vm_compute. congruence.
Defined.

(** X4.  In any table, with or without the key, [update_direction] keeps
    the rows in place with their id, key, [timestamp1], [value], [stderr]
    and [sample_size]; a row with the key gets the direction and
    [timestamp2 = now], a row with another key is as before.  The unique
    index and [count_all_rows] are kept. *)
Theorem update_direction_frame
    (now : Z) (src sig tty gty : string) (tv : Z) (gv : string)
    (d : option Z) (db : database) :
  Forall2
    (fun r r' =>
       id r' = id r /\ key_of r' = key_of r /\
       timestamp1 r' = timestamp1 r /\ value r' = value r /\
       stderr r' = stderr r /\ sample_size r' = sample_size r /\
       (key_of r = (src, sig, tty, gty, tv, gv) ->
        timestamp2 r' = now /\ direction r' = d) /\
       (key_of r <> (src, sig, tty, gty, tv, gv) -> r' = r))
    (covidcast db)
    (covidcast (Database.update_direction now src sig tty gty tv gv d db)) /\
  (unique_key (covidcast db) ->
   unique_key
     (covidcast (Database.update_direction now src sig tty gty tv gv d db))) /\
  Database.count_all_rows
    (Database.update_direction now src sig tty gty tv gv d db) =
  Database.count_all_rows db.
Proof.
  split; [| split].
  - unfold Database.update_direction. cbn [covidcast].
    induction (covidcast db) as [| a l IH]; cbn [map]; constructor; auto.
    destruct (key_eqb (key_of a) (src, sig, tty, gty, tv, gv)) eqn:E.
    + apply key_eqb_eq in E. cbn. repeat split; auto. congruence.
    + apply key_eqb_neq in E. repeat split; auto; contradiction.
  - unfold unique_key. now rewrite update_direction_keys.
  - unfold Database.count_all_rows.
    rewrite <- (length_map key_of), update_direction_keys, length_map.
    reflexivity.
Qed.

(** ** The driver over any files *)

Lemma insert_or_update_keeps_keys
    (now : Z) (src sig tty gty : string) (tv : Z) (gv : string)
    (v : Q) (se ss : option Q) (db db' : database) :
  Database.insert_or_update now src sig tty gty tv gv v se ss db = inr db' ->
  has_key (src, sig, tty, gty, tv, gv) (covidcast db') = true /\
  (forall k, has_key k (covidcast db) = true ->
             has_key k (covidcast db') = true).
Proof.
  intros E.
  destruct (insert_or_update_stores now src sig tty gty tv gv v se ss db)
    as [db'' [r' [E' [Hin [Hk _]]]]].
  rewrite E in E'. injection E' as <-.
  split; [apply has_key_true; eauto |].
  intros k Hhas. apply has_key_true in Hhas.
  destruct Hhas as [r [Hr Hkr]]. apply has_key_true.
  destruct (insert_or_update_cases now src sig tty gty tv gv v se ss db)
    as [[Hp E2] | [Hp E2]]; rewrite E2 in E; injection E as <-.
  - assert (Hmem : In k (map key_of
              (covidcast (on_duplicate_key_update
                 (mk_row 0 src sig tty gty tv gv now v se ss 0 None) db)))).
    { rewrite on_duplicate_key_update_keys, <- Hkr. now apply in_map. }
    apply in_map_iff in Hmem. destruct Hmem as [x [Hx Hxin]]. eauto.
  - exists r. split; [| exact Hkr]. cbn [covidcast].
    apply in_or_app. now left.
Qed.

Lemma valid_rows_length (rows : list (option csv_row)) :
  (List.length (valid_rows rows) <= List.length rows)%nat /\
  (all_valid rows = true ->
   List.length (valid_rows rows) = List.length rows).
Proof.
  induction rows as [| [r |] rows [IH1 IH2]].
  - split; auto.
  - change (valid_rows (Some r :: rows)) with (r :: valid_rows rows).
    cbn [all_valid forallb List.length]. split; [lia |].
    intros H. rewrite IH2; auto.
  - change (valid_rows (None :: rows)) with (valid_rows rows).
    cbn [all_valid forallb List.length]. split; [lia | discriminate].
Qed.

Lemma upsert_calls_counted (d : details) (l : list csv_row) :
  filter is_insert_or_update (map (upsert_call d) l) = map (upsert_call d) l /\
  filter is_archive_file (map (upsert_call d) l) = [].
Proof.
  destruct d as [[[[s g] t] y] v].
  induction l as [| r l [IH1 IH2]]; [split; reflexivity |].
  cbn [map filter upsert_call is_insert_or_update is_archive_file].
  rewrite IH1, IH2. split; reflexivity.
Qed.

Section IngestFiles.

Variable clock : nat -> Z.

(** On an open connection the row loop makes one upsert for every valid
    row of the file, in order, and no other call; the keys it upserts are
    in the table of the transaction afterwards, and so are the keys that
    were there. *)
Lemma upload_rows_keys (d : details) (rows : list (option csv_row))
    (ok : bool) (w : world) (db : database) :
  transaction w = Some db ->
  exists db',
    CsvToDatabase.upload_rows clock d rows ok w =
    (inr (ok && all_valid rows),
     {| committed := committed w;
        transaction := Some db';
        executed := (executed w + List.length (valid_rows rows))%nat;
        journal := journal w ++ map (upsert_call d) (valid_rows rows) |}) /\
    (forall k, has_key k (covidcast db) = true ->
               has_key k (covidcast db') = true) /\
    (forall r, In r (valid_rows rows) ->
               has_key (upsert_key d r) (covidcast db') = true) /\
    (unique_key (covidcast db) -> unique_key (covidcast db')).
Proof.
  revert ok w db. induction rows as [| [r |] rows IH]; intros ok w db Hw.
  - exists db.
    cbn [CsvToDatabase.upload_rows valid_rows flat_map map all_valid forallb
           List.length].
    unfold ret. rewrite andb_true_r, app_nil_r, Nat.add_0_r.
    split; [destruct w; cbn in *; now rewrite Hw |].
    split; [auto |]. split; [intros r [] | auto].
  - cbn [CsvToDatabase.upload_rows]. destruct d as [[[[s g] t] y] v].
    unfold bind, Connection.insert_or_update. rewrite Hw.
    destruct (insert_or_update_no_error (clock (executed w)) s g t y v
                (row_geo_value r) (row_value r) (row_stderr r)
                (row_sample_size r) db) as [db1 E].
    rewrite E. cbn [committed transaction executed journal].
    destruct (insert_or_update_keeps_keys _ _ _ _ _ _ _ _ _ _ _ _ E)
      as [Hnew Hold].
    edestruct (IH ok) as [db' [E' [Hkeep [Hrows Hu]]]]; [| rewrite E'].
    + cbn [transaction]. reflexivity.
    + exists db'.
      cbn [committed transaction executed journal valid_rows flat_map
             all_valid forallb map app List.length upsert_call andb Nat.add].
      rewrite <- app_assoc, Nat.add_succ_r.
      split; [reflexivity |]. split; [auto |]. split.
      * intros r0 [<- | Hin]; [apply Hkeep, Hnew | now apply Hrows].
      * intros Hdb. apply Hu.
        eapply insert_or_update_keeps_unique_key; eauto.
  - cbn [CsvToDatabase.upload_rows].
    destruct (IH false w db Hw) as [db' [E' [Hkeep [Hrows Hu]]]].
    rewrite E'. exists db'. cbn [all_valid forallb valid_rows flat_map app].
    rewrite andb_false_r. auto.
Qed.

(** On an open connection [scan_upload_archive] completes on any files:
    its calls are those of the files, one file after the other; the
    connection stays open, every key it upserts is in the table of the
    transaction afterwards, and so are the keys that were there. *)
Lemma scan_upload_archive_journal (data_dir : string)
    (files : list (string * option details))
    (load_csv : string -> list (option csv_row))
    (w : world) (db : database) :
  transaction w = Some db ->
  exists db' n,
    CsvToDatabase.scan_upload_archive clock data_dir files load_csv w =
    (inr tt,
     {| committed := committed w;
        transaction := Some db';
        executed := n;
        journal := journal w ++ flat_map (file_calls data_dir load_csv) files |})
    /\
    (forall k, has_key k (covidcast db) = true ->
               has_key k (covidcast db') = true) /\
    (forall path d r,
       In (path, Some d) files -> In r (valid_rows (load_csv path)) ->
       has_key (upsert_key d r) (covidcast db') = true) /\
    (unique_key (covidcast db) -> unique_key (covidcast db')).
Proof.
  unfold CsvToDatabase.scan_upload_archive.
  revert w db. induction files as [| [path [d |]] files IH]; intros w db Hw.
  - exists db, (executed w). cbn [for_each flat_map]. unfold ret.
    rewrite app_nil_r.
    split; [destruct w; cbn in *; now rewrite Hw |].
    split; [auto |]. split; [intros ? ? ? [] | auto].
  - cbn [for_each flat_map file_calls].
    destruct (path_split path) as [path_src filename].
    destruct d as [[[[s g] t] y] v].
    destruct (upload_rows_keys (s, g, t, y, v) (load_csv path) true w db Hw)
      as [db1 [E1 [Hkeep1 [Hrows1 Hu1]]]].
    unfold bind at 1. unfold bind at 1. rewrite E1. cbn [andb].
    set (w1 := {| committed := committed w;
                  transaction := Some db1;
                  executed := (executed w +
                               List.length (valid_rows (load_csv path)))%nat;
                  journal := journal w ++
                             map (upsert_call (s, g, t, y, v))
                                 (valid_rows (load_csv path)) |}).
    assert (Ha : forall dst flag,
              CsvToDatabase.archive_file path_src dst filename flag w1 =
              (inr tt,
               {| committed := committed w;
                  transaction := Some db1;
                  executed := executed w1;
                  journal := journal w1 ++
                             [call_archive_file path_src dst filename flag] |}))
      by reflexivity.
    destruct (all_valid (load_csv path)); rewrite Ha; cbv beta iota;
      match goal with
      | |- context [for_each files _ ?w2] =>
          destruct (IH w2 db1 eq_refl) as [db' [n [E' [Hkeep [Hrows Hu]]]]]
      end;
      rewrite E'; exists db', n;
      cbn [committed journal]; unfold w1; cbn [journal];
      rewrite <- !app_assoc;
      (split; [reflexivity |]); (split; [auto |]);
      (split; [| auto]);
      intros p d r [Heq | Hin] Hr;
      try (injection Heq as <- <-; apply Hkeep, Hrows1, Hr);
      eapply Hrows; eauto.
  - cbn [for_each flat_map file_calls].
    destruct (path_split path) as [path_src filename].
    unfold bind at 1.
    unfold CsvToDatabase.archive_file at 1, record at 1. cbv beta iota.
    match goal with
    | |- context [for_each files _ ?w2] =>
        destruct (IH w2 db Hw) as [db' [n [E' [Hkeep [Hrows Hu]]]]]
    end.
    rewrite E'. exists db', n. cbn [committed journal].
    rewrite <- !app_assoc.
    split; [reflexivity |]. split; [auto |]. split; [| auto].
    intros p d r [Heq | Hin] Hr; [discriminate | eapply Hrows; eauto].
Qed.

(** C8.  Take any three files on an open connection: one whose three rows
    are all valid, one of three rows of which two are valid, and one whose
    name was not classified.  [scan_upload_archive] completes; its calls
    are, in order, the three upserts of the first file and its archival
    under [successful/<source>] with success flag true, the upserts of the
    two valid rows of the second file, wherever the invalid row stands, and
    its archival under [failed/<source>] with flag false, and the archival
    of the third file under [failed/unknown] with flag false: five upserts
    and three archivals.  The connection stays open, the five upserted
    keys are in the table of the transaction, and no key is lost. *)
Theorem scan_upload_archive_three_files
    (data_dir path_a path_b path_c : string) (details_a details_b : details)
    (a1 a2 a3 : csv_row) (load_csv : string -> list (option csv_row))
    (w : world) (db : database) :
  transaction w = Some db ->
  load_csv path_a = [Some a1; Some a2; Some a3] ->
  List.length (load_csv path_b) = 3%nat ->
  List.length (valid_rows (load_csv path_b)) = 2%nat ->
  let out :=
    CsvToDatabase.scan_upload_archive clock data_dir
      [ (path_a, Some details_a); (path_b, Some details_b); (path_c, None) ]
      load_csv w in
  fst out = inr tt /\
  journal (snd out) =
    journal w ++
    [ upsert_call details_a a1; upsert_call details_a a2;
      upsert_call details_a a3;
      call_archive_file (fst (path_split path_a))
        (data_dir ++ "/archive/successful/" ++ source_of details_a)
        (snd (path_split path_a)) true ] ++
    map (upsert_call details_b) (valid_rows (load_csv path_b)) ++
    [ call_archive_file (fst (path_split path_b))
        (data_dir ++ "/archive/failed/" ++ source_of details_b)
        (snd (path_split path_b)) false;
      call_archive_file (fst (path_split path_c))
        (data_dir ++ "/archive/failed/" ++ "unknown")
        (snd (path_split path_c)) false ] /\
  List.length (filter is_insert_or_update (journal (snd out))) =
    (List.length (filter is_insert_or_update (journal w)) + 5)%nat /\
  List.length (filter is_archive_file (journal (snd out))) =
    (List.length (filter is_archive_file (journal w)) + 3)%nat /\
  (exists db',
     transaction (snd out) = Some db' /\
     has_key (upsert_key details_a a1) (covidcast db') = true /\
     has_key (upsert_key details_a a2) (covidcast db') = true /\
     has_key (upsert_key details_a a3) (covidcast db') = true /\
     (forall r, In r (valid_rows (load_csv path_b)) ->
                has_key (upsert_key details_b r) (covidcast db') = true) /\
     (forall k, has_key k (covidcast db) = true ->
                has_key k (covidcast db') = true)).
Proof.
  intros Hw Ha Hb3 Hb2. cbv zeta.
  destruct (scan_upload_archive_journal data_dir
              [ (path_a, Some details_a); (path_b, Some details_b);
                (path_c, None) ] load_csv w db Hw)
    as [db' [n [E [Hkeep [Hrows _]]]]].
  rewrite E. cbn [fst snd journal transaction].
  assert (Hbad : all_valid (load_csv path_b) = false).
  { destruct (all_valid (load_csv path_b)) eqn:Eb; [| reflexivity].
    apply valid_rows_length in Eb. lia. }
  assert (Hj : flat_map (file_calls data_dir load_csv)
                 [ (path_a, Some details_a); (path_b, Some details_b);
                   (path_c, None) ] =
               [ upsert_call details_a a1; upsert_call details_a a2;
                 upsert_call details_a a3;
                 call_archive_file (fst (path_split path_a))
                   (data_dir ++ "/archive/successful/" ++ source_of details_a)
                   (snd (path_split path_a)) true ] ++
               map (upsert_call details_b) (valid_rows (load_csv path_b)) ++
               [ call_archive_file (fst (path_split path_b))
                   (data_dir ++ "/archive/failed/" ++ source_of details_b)
                   (snd (path_split path_b)) false;
                 call_archive_file (fst (path_split path_c))
                   (data_dir ++ "/archive/failed/" ++ "unknown")
                   (snd (path_split path_c)) false ]).
  { cbn [flat_map file_calls]. rewrite Ha, Hbad.
    destruct (path_split path_a) as [sa fa].
    destruct (path_split path_b) as [sb fb].
    destruct (path_split path_c) as [sc fc].
    destruct details_a as [[[[s g] t] y] v].
    destruct details_b as [[[[s' g'] t'] y'] v'].
    cbn [valid_rows flat_map all_valid forallb andb map app fst snd source_of].
    rewrite <- !app_assoc. reflexivity. }
  rewrite Hj. split; [reflexivity |]. split; [reflexivity |].
  assert (Hvalid_a : valid_rows (load_csv path_a) = [a1; a2; a3])
    by (rewrite Ha; reflexivity).
  split; [| split].
  - rewrite !filter_app, !length_app.
    rewrite (proj1 (upsert_calls_counted details_b _)), length_map, Hb2.
    destruct details_a as [[[[s g] t] y] v]. reflexivity.
  - rewrite !filter_app, !length_app.
    rewrite (proj2 (upsert_calls_counted details_b _)).
    destruct details_a as [[[[s g] t] y] v]. reflexivity.
  - exists db'. split; [reflexivity |].
    assert (Hin_a : forall r, In r [a1; a2; a3] ->
              has_key (upsert_key details_a r) (covidcast db') = true).
    { intros r Hr. apply (Hrows path_a details_a r); [now left |].
      now rewrite Hvalid_a. }
    split; [apply Hin_a; cbn; auto |].
    split; [apply Hin_a; cbn; auto |].
    split; [apply Hin_a; cbn; auto |].
    split; [| exact Hkeep].
    intros r Hr. apply (Hrows path_b details_b r); [right; now left | exact Hr].
Qed.

End IngestFiles.

Lemma scan_upload_archive_three_files_witness :
  let out :=
    CsvToDatabase.scan_upload_archive (fun n => 1587400000 + Z.of_nat n)
      "data_dir" scenario_files scenario_load_csv world_connected in
  fst out = inr tt /\
  journal (snd out) =
    [ call_insert_or_update "src_a" "sig_a" "day" "hrr" 20200419 "a1"
        (1 # 1) (Some (1 # 10)) (Some (25 # 1));
      call_insert_or_update "src_a" "sig_a" "day" "hrr" 20200419 "a2"
        (2 # 1) (Some (1 # 10)) (Some (25 # 1));
      call_insert_or_update "src_a" "sig_a" "day" "hrr" 20200419 "a3"
        (3 # 1) (Some (1 # 10)) (Some (25 # 1));
      call_archive_file "path" "data_dir/archive/successful/src_a" "a.csv"
        true;
      call_insert_or_update "src_b" "sig_b" "week" "msa" 202016 "b1"
        (4 # 1) (Some (1 # 10)) (Some (25 # 1));
      call_insert_or_update "src_b" "sig_b" "week" "msa" 202016 "b3"
        (6 # 1) (Some (1 # 10)) (Some (25 # 1));
      call_archive_file "path" "data_dir/archive/failed/src_b" "b.csv" false;
      call_archive_file "path" "data_dir/archive/failed/unknown" "c.csv"
        false ] /\
  List.length (filter is_insert_or_update (journal (snd out))) = 5%nat /\
  List.length (filter is_archive_file (journal (snd out))) = 3%nat /\
  (exists db',
     transaction (snd out) = Some db' /\
     has_key ("src_a", "sig_a", "day", "hrr", 20200419, "a1") (covidcast db')
       = true /\
     has_key ("src_a", "sig_a", "day", "hrr", 20200419, "a2") (covidcast db')
       = true /\
     has_key ("src_a", "sig_a", "day", "hrr", 20200419, "a3") (covidcast db')
       = true /\
     has_key ("src_b", "sig_b", "week", "msa", 202016, "b1") (covidcast db')
       = true /\
     has_key ("src_b", "sig_b", "week", "msa", 202016, "b3") (covidcast db')
       = true).
Proof.
  destruct (scan_upload_archive_three_files
              (fun n => 1587400000 + Z.of_nat n) "data_dir"
              "path/a.csv" "path/b.csv" "path/c.csv"
              ("src_a", "sig_a", "day", "hrr", 20200419)
              ("src_b", "sig_b", "week", "msa", 202016)
              (scenario_row "a1" (1 # 1)) (scenario_row "a2" (2 # 1))
              (scenario_row "a3" (3 # 1))
              scenario_load_csv world_connected
              {| covidcast := []; auto_increment := 1 |}
              eq_refl eq_refl eq_refl eq_refl)
    as [H1 [H2 [H3 [H4 [db' [Ht [Ka1 [Ka2 [Ka3 [Kb _]]]]]]]]]].
  cbv zeta. split; [exact H1 |]. split; [exact H2 |].
  split; [exact H3 |]. split; [exact H4 |].
  exists db'. split; [exact Ht |].
  split; [exact Ka1 |]. split; [exact Ka2 |]. split; [exact Ka3 |].
  split;
    [apply (Kb (scenario_row "b1" (4 # 1))) |
     apply (Kb (scenario_row "b3" (6 # 1)))]; cbn; auto.
Defined.

(** ** Writes followed by the staleness queries *)

Section WritesAndStaleness.

Variable to_days : Z -> option Z.

Lemma in_support_columns (c c' d d' : row) :
  series_of c' = series_of c -> time_value c' = time_value c ->
  series_of d' = series_of d -> time_value d' = time_value d ->
  in_support to_days c' d' = in_support to_days c d.
Proof.
  intros Hsc Htc Hsd Htd. unfold in_support.
  now rewrite Hsc, Htc, Hsd, Htd.
Qed.

Lemma set_direction_columns (now : Z) (d : option Z) (k : key)
    (r r' : row) :
  (if key_eqb (key_of r) k then set_direction now d r else r) = r' ->
  key_of r' = key_of r /\ series_of r' = series_of r /\
  time_value r' = time_value r /\ timestamp1 r' = timestamp1 r /\
  value r' = value r /\
  (key_of r = k -> timestamp2 r' = now).
Proof.
  intros <-. destruct (key_eqb (key_of r) k) eqn:E.
  - repeat split.
  - apply key_eqb_neq in E. repeat split. intros; contradiction.
Qed.

(** X5.  The write-back confirms the row: after [update_direction] on the
    key of a row, at a time that is not before the [timestamp1] of any row
    of its support, no result of [get_rows_with_stale_direction] reports
    that key. *)
Theorem update_direction_confirms_row
    (rand : nat -> Q) (now : Z) (src sig tty gty : string) (tv : Z)
    (gv : string) (d : option Z) (db : database) (c : row) :
  unique_key (covidcast db) ->
  In c (covidcast db) ->
  key_of c = (src, sig, tty, gty, tv, gv) ->
  (forall x,
     In x (covidcast db) -> in_support to_days c x = true ->
     timestamp1 x <= now) ->
  Forall (fun s => stale_key s <> (src, sig, tty, gty, tv, gv))
    (Database.get_rows_with_stale_direction to_days rand
       (Database.update_direction now src sig tty gty tv gv d db)).
Proof.
  intros Hu Hc Hk Hfresh. apply Forall_forall. intros s Hs Hks.
  assert (Hu' : unique_key
                  (covidcast
                     (Database.update_direction now src sig tty gty tv gv d
                        db)))
    by (unfold unique_key; now rewrite update_direction_keys).
  destruct (proj1 (get_rows_with_stale_direction_In to_days rand _ s Hu')
              Hs) as [c' [Hc' [Hst ->]]].
  cbn [stale_key stale_row_of] in Hks.
  apply is_stale_true in Hst.
  destruct Hst as [_ [d' [Hd' [Hser [[j [Hj Hb]] Hlt]]]]].
  unfold Database.update_direction in Hc', Hd'. cbn [covidcast] in Hc', Hd'.
  apply in_map_iff in Hc'. destruct Hc' as [c0 [Ec Hc0]].
  apply in_map_iff in Hd'. destruct Hd' as [d0 [Ed Hd0]].
  destruct (set_direction_columns _ _ _ _ _ Ec) as [Kc [Sc [Tc [_ [_ Nc]]]]].
  destruct (set_direction_columns _ _ _ _ _ Ed) as [_ [Sd [Td [T1d _]]]].
  assert (c0 = c)
    by (apply (unique_key_inj (covidcast db)); auto; congruence).
  subst c0.
  assert (Hsup : in_support to_days c d0 = true).
  { rewrite <- (in_support_columns c c' d0 d' Sc Tc Sd Td).
    apply in_support_true. split; [exact Hser | eauto]. }
  assert (timestamp1 d0 <= now) by (now apply Hfresh).
  rewrite (Nc Hk) in Hlt. lia.
Qed.

Lemma insert_or_update_length
    (now : Z) (src sig tty gty : string) (tv : Z) (gv : string)
    (v : Q) (se ss : option Q) (db db' : database) :
  Database.insert_or_update now src sig tty gty tv gv v se ss db = inr db' ->
  (List.length (covidcast db') <= S (List.length (covidcast db)))%nat.
Proof.
  intros H.
  destruct (insert_or_update_cases now src sig tty gty tv gv v se ss db)
    as [[_ E] | [_ E]]; rewrite E in H; injection H as <-.
  - unfold on_duplicate_key_update. cbn [covidcast]. rewrite length_map. lia.
  - cbn [covidcast]. rewrite length_app. cbn [List.length]. lia.
Qed.

(** X6.  A write makes the row stale: after [insert_or_update] of a day
    whose [time_value] is a date, at a time after the row, if there was
    one, was last confirmed, every result of
    [get_rows_with_stale_direction] on a table of fewer than 10000 rows
    reports the key, with a [max_timestamp1] that is at least the time of
    the write. *)
Theorem insert_or_update_marks_stale
    (rand : nat -> Q) (now : Z) (src sig gty : string) (tv : Z)
    (gv : string) (v : Q) (se ss : option Q) (db : database) :
  unique_key (covidcast db) ->
  to_days tv <> None ->
  0 < now ->
  (forall r,
     In r (covidcast db) -> key_of r = (src, sig, "day", gty, tv, gv) ->
     timestamp2 r < now) ->
  Z.of_nat (List.length (covidcast db)) < 10000 ->
  exists db' s m,
    Database.insert_or_update now src sig "day" gty tv gv v se ss db =
      inr db' /\
    In s (Database.get_rows_with_stale_direction to_days rand db') /\
    stale_key s = (src, sig, "day", gty, tv, gv) /\
    max_timestamp1 s = Some m /\ now <= m /\ stale_timestamp2 s < now /\
    1 <= support s.
Proof.
  intros Hu Hdate Hnow Hconf Hlen.
  destruct (insert_or_update_stores now src sig "day" gty tv gv v se ss db)
    as [db' [r' [E [Hin [Hk [_ [_ [_ [Ht1 Ht2]]]]]]]]].
  assert (Hu' : unique_key (covidcast db'))
    by (eapply insert_or_update_keeps_unique_key; eauto).
  assert (Hlt : timestamp2 r' < now).
  { destruct Ht2 as [-> | [r [Hr [Hkr ->]]]]; [exact Hnow | now apply Hconf]. }
  assert (Htv : time_value r' = tv)
    by (unfold key_of in Hk; congruence).
  assert (Hday : time_type r' = "day")
    by (unfold key_of in Hk; congruence).
  assert (Hself : in_support to_days r' r' = true)
    by (apply in_support_self; now rewrite Htv).
  assert (Hst : is_stale to_days (covidcast db') r' = true).
  { apply is_stale_true. split; [exact Hday |]. exists r'.
    apply in_support_true in Hself. rewrite Ht1. tauto. }
  assert (Hcount :
            Z.of_nat
              (List.length
                 (filter (is_stale to_days (covidcast db')) (covidcast db')))
            <= 10000).
  { pose proof (insert_or_update_length _ _ _ _ _ _ _ _ _ _ _ _ E).
    pose proof (filter_length_le (is_stale to_days (covidcast db'))
                  (covidcast db')).
    lia. }
  pose proof (proj2 (get_rows_with_stale_direction_In to_days rand db'
                       (stale_row_of to_days (covidcast db') r') Hu')
                Hcount r' Hin Hst) as Hres.
  assert (Hmem : In r' (support_of to_days (covidcast db') r'))
    by (apply filter_In; now split).
  destruct (sql_max_spec (map timestamp1 (support_of to_days (covidcast db') r')))
    as [m [Hm [_ Hub]]].
  { destruct (support_of to_days (covidcast db') r'); [contradiction |].
    discriminate. }
  exists db', (stale_row_of to_days (covidcast db') r'), m.
  split; [exact E |]. split; [exact Hres |].
  cbn [stale_key stale_timestamp2 max_timestamp1 support stale_row_of].
  split; [exact Hk |]. split; [exact Hm |].
  split; [rewrite <- Ht1; apply Hub; now apply in_map |].
  split; [exact Hlt |].
  destruct (support_of to_days (covidcast db') r'); [contradiction |].
  cbn [List.length]. lia.
Qed.

End WritesAndStaleness.

Lemma update_direction_confirms_row_witness :
  Forall
    (fun s => stale_key s <> ("src_a", "sig_a", "day", "hrr", 20200419, "a1"))
    (Database.get_rows_with_stale_direction ymd_to_days no_shuffle
       (Database.update_direction 60 "src_a" "sig_a" "day" "hrr"
          20200419 "a1" (Some 1) db_rewritten)).
Proof.
  apply (update_direction_confirms_row ymd_to_days no_shuffle 60
           "src_a" "sig_a" "day" "hrr" 20200419 "a1" (Some 1)
           db_rewritten row_day2_rewritten).
  - unfold unique_key. simpl.
    constructor; [simpl; intros [H | []]; discriminate |].
    constructor; [simpl; tauto | constructor].
  - simpl. right. left. reflexivity.
  - reflexivity.
  - simpl. intros x [<- | [<- | []]] _; simpl; lia.
Defined.

Lemma insert_or_update_marks_stale_witness :
  exists db' s m,
    Database.insert_or_update 1587400000 "src_a" "sig_a" "day" "hrr" 20200419
      "a1" (7 # 2) None None db_confirmed = inr db' /\
    In s (Database.get_rows_with_stale_direction ymd_to_days no_shuffle db') /\
    stale_key s = ("src_a", "sig_a", "day", "hrr", 20200419, "a1") /\
    max_timestamp1 s = Some m /\ 1587400000 <= m /\
    stale_timestamp2 s < 1587400000 /\
    1 <= support s.
Proof.
  apply (insert_or_update_marks_stale ymd_to_days no_shuffle 1587400000
           "src_a" "sig_a" "hrr" 20200419 "a1" (7 # 2) None None
           db_confirmed).
  - unfold unique_key. simpl. constructor; [simpl; tauto | constructor].
  - vm_compute. discriminate.
  - lia.
  - simpl. intros r [<- | []] _. simpl. lia.
  - simpl. lia.
Defined.

(** ** The series query and the series-wide confirmation *)

(** A row of the result of [get_keys_with_potentially_stale_direction] is
    the select list over the day rows of the series of one day row. *)
Lemma potentially_stale_series_group (db : database) (s : stale_series) :
  In s (Database.get_keys_with_potentially_stale_direction db) ->
  exists r g,
    In r g /\
    g = filter (fun y => series_eqb (series_of y) (series_of r))
          (filter (fun y => (time_type y =? "day")%string) (covidcast db)) /\
    Database.stale_series_select g = [s] /\
    ss_source s = source r /\ ss_signal s = signal r /\
    ss_geo_type s = geo_type r /\ ss_geo_value s = geo_value r /\
    time_type r = "day" /\
    sql_gt (ss_max_timestamp1 s) (ss_min_timestamp2 s) = true.
Proof.
  unfold Database.get_keys_with_potentially_stale_direction.
  intros Hs. apply filter_In in Hs. destruct Hs as [Hs Hhave].
  apply in_flat_map in Hs. destruct Hs as [g [Hg Hsel]].
  apply (group_by_In series_eqb series_of series_eqb_eq) in Hg.
  destruct Hg as [x [Hx Hg]].
  destruct g as [| r g'] eqn:Eg; [contradiction |].
  destruct Hsel as [<- | []].
  assert (Hr : In r (r :: g')) by now left.
  rewrite Hg in Hr. apply stale_series_group in Hr.
  destruct Hr as [_ [Hday Hser]].
  exists r, (r :: g'). split; [now left |].
  split; [now rewrite Hser |].
  repeat split; auto.
Qed.

Lemma potentially_stale_series_only_if (db : database) (s : stale_series) :
  In s (Database.get_keys_with_potentially_stale_direction db) ->
  exists a b,
    In a (covidcast db) /\ In b (covidcast db) /\
    series_of a =
      (ss_source s, ss_signal s, "day", ss_geo_type s, ss_geo_value s) /\
    series_of b =
      (ss_source s, ss_signal s, "day", ss_geo_type s, ss_geo_value s) /\
    timestamp2 b < timestamp1 a.
Proof.
  intros Hs.
  destruct (potentially_stale_series_group db s Hs)
    as [r [g [Hr [Hg [Hsel [Hsrc [Hsig [Hgty [Hgv [Hday Hhave]]]]]]]]]].
  assert (Hk : series_of r =
               (ss_source s, ss_signal s, "day", ss_geo_type s,
                ss_geo_value s))
    by (unfold series_of; congruence).
  destruct g as [| r0 g']; [contradiction |].
  assert (Hmax : ss_max_timestamp1 s = sql_max (map timestamp1 (r0 :: g')))
    by (cbn [Database.stale_series_select] in Hsel;
        injection Hsel as <-; reflexivity).
  assert (Hmin : ss_min_timestamp2 s = sql_min (map timestamp2 (r0 :: g')))
    by (cbn [Database.stale_series_select] in Hsel;
        injection Hsel as <-; reflexivity).
  rewrite Hmax, Hmin in Hhave. clear Hsel.
  apply sql_gt_true in Hhave. destruct Hhave as [m [n [Hm [Hn Hlt]]]].
  destruct (sql_max_spec (map timestamp1 (r0 :: g')))
    as [m' [Hm' [Hinm _]]]; [discriminate |].
  destruct (sql_min_spec (map timestamp2 (r0 :: g')))
    as [n' [Hn' [Hinn _]]]; [discriminate |].
  assert (m' = m) by congruence. assert (n' = n) by congruence.
  subst m' n'.
  apply in_map_iff in Hinm. destruct Hinm as [a [Ha Hina]].
  apply in_map_iff in Hinn. destruct Hinn as [b [Hb Hinb]].
  rewrite Hg in Hina, Hinb.
  apply stale_series_group in Hina. apply stale_series_group in Hinb.
  destruct Hina as [Hia [_ Hsa]], Hinb as [Hib [_ Hsb]].
  exists a, b. repeat split; try assumption; try congruence; lia.
Qed.

Lemma set_timestamp2_columns (now : Z) (k : series) (r r' : row) :
  (if series_eqb (series_of r) k then set_timestamp2 now r else r) = r' ->
  series_of r' = series_of r /\ timestamp1 r' = timestamp1 r /\
  (series_of r = k -> timestamp2 r' = now) /\
  (series_of r <> k -> r' = r).
Proof.
  intros <-. destruct (series_eqb (series_of r) k) eqn:E.
  - apply series_eqb_eq in E. repeat split. intros; contradiction.
  - apply series_eqb_neq in E. repeat split. intros; contradiction.
Qed.

(** X7.  The series-wide confirmation takes the series off the list:
    after [update_timeseries_timestamp2] on a daily series, at a time that
    is not before the [timestamp1] of any of its rows,
    [get_keys_with_potentially_stale_direction] does not return that
    series, and it returns every other series exactly when it did
    before. *)
Theorem update_timeseries_timestamp2_confirms_series
    (now : Z) (src sig gty gv : string) (db : database) :
  (forall r,
     In r (covidcast db) -> series_of r = (src, sig, "day", gty, gv) ->
     timestamp1 r <= now) ->
  (forall s,
     In s (Database.get_keys_with_potentially_stale_direction
             (Database.update_timeseries_timestamp2 now src sig "day" gty gv
                db)) ->
     (ss_source s, ss_signal s, ss_geo_type s, ss_geo_value s) <>
     (src, sig, gty, gv)) /\
  (forall src' sig' gty' gv',
     (src', sig', gty', gv') <> (src, sig, gty, gv) ->
     ((exists s,
         In s (Database.get_keys_with_potentially_stale_direction
                 (Database.update_timeseries_timestamp2 now src sig "day" gty
                    gv db)) /\
         ss_source s = src' /\ ss_signal s = sig' /\
         ss_geo_type s = gty' /\ ss_geo_value s = gv') <->
      (exists s,
         In s (Database.get_keys_with_potentially_stale_direction db) /\
         ss_source s = src' /\ ss_signal s = sig' /\
         ss_geo_type s = gty' /\ ss_geo_value s = gv'))).
Proof.
  intros Hfresh.
  set (k := (src, sig, "day", gty, gv)).
  set (db' := Database.update_timeseries_timestamp2 now src sig "day" gty gv
                db).
  assert (Hrows' : forall r', In r' (covidcast db') ->
            exists r, In r (covidcast db) /\
              series_of r' = series_of r /\ timestamp1 r' = timestamp1 r /\
              (series_of r = k -> timestamp2 r' = now) /\
              (series_of r <> k -> r' = r)).
  { intros r' Hr'. unfold db', Database.update_timeseries_timestamp2 in Hr'.
    cbn [covidcast] in Hr'. apply in_map_iff in Hr'.
    destruct Hr' as [r [E Hr]]. exists r. split; [exact Hr |].
    now apply (set_timestamp2_columns now k). }
  assert (Hrows : forall r, In r (covidcast db) -> series_of r <> k ->
            In r (covidcast db')).
  { intros r Hr Hne. unfold db', Database.update_timeseries_timestamp2.
    cbn [covidcast]. apply in_map_iff. exists r. split; [| exact Hr].
    fold k. apply series_eqb_neq in Hne. now rewrite Hne. }
  split.
  - intros s Hs Heq. injection Heq as Hsrc Hsig Hgty Hgv.
    destruct (potentially_stale_series_only_if db' s Hs)
      as [a' [b' [Ha' [Hb' [Hsa [Hsb Hlt]]]]]].
    rewrite Hsrc, Hsig, Hgty, Hgv in Hsa, Hsb. subst k.
    destruct (Hrows' a' Ha') as [a [Ha [Sa [Ta _]]]].
    destruct (Hrows' b' Hb') as [b [Hb [Sb [_ [Nb _]]]]].
    assert (timestamp1 a <= now) by (apply Hfresh; [exact Ha | congruence]).
    assert (timestamp2 b' = now) by (apply Nb; congruence).
    lia.
  - intros src' sig' gty' gv' Hne.
    subst k.
    assert (Hk' : (src', sig', "day", gty', gv') <> (src, sig, "day", gty, gv))
      by congruence.
    split.
    + intros [s [Hs [Hsrc [Hsig [Hgty Hgv]]]]].
      destruct (potentially_stale_series_only_if db' s Hs)
        as [a' [b' [Ha' [Hb' [Hsa [Hsb Hlt]]]]]].
      rewrite Hsrc, Hsig, Hgty, Hgv in Hsa, Hsb.
      destruct (Hrows' a' Ha') as [a [Ha [Sa [_ [_ Ea]]]]].
      destruct (Hrows' b' Hb') as [b [Hb [Sb [_ [_ Eb]]]]].
      assert (a' = a) by (apply Ea; congruence).
      assert (b' = b) by (apply Eb; congruence).
      subst a' b'.
      now apply (potentially_stale_series_returned db src' sig' gty' gv' a b).
    + intros [s [Hs [Hsrc [Hsig [Hgty Hgv]]]]].
      destruct (potentially_stale_series_only_if db s Hs)
        as [a [b [Ha [Hb [Hsa [Hsb Hlt]]]]]].
      rewrite Hsrc, Hsig, Hgty, Hgv in Hsa, Hsb.
      apply (potentially_stale_series_returned db' src' sig' gty' gv' a b);
        auto; apply Hrows; auto; congruence.
Qed.

Lemma update_timeseries_timestamp2_confirms_series_witness :
  (forall s,
     In s (Database.get_keys_with_potentially_stale_direction
             (Database.update_timeseries_timestamp2 50 "src_a" "sig_a" "day"
                "hrr" "a1" db_two_days)) ->
     (ss_source s, ss_signal s, ss_geo_type s, ss_geo_value s) <>
     ("src_a", "sig_a", "hrr", "a1")) /\
  (forall src' sig' gty' gv',
     (src', sig', gty', gv') <> ("src_a", "sig_a", "hrr", "a1") ->
     ((exists s,
         In s (Database.get_keys_with_potentially_stale_direction
                 (Database.update_timeseries_timestamp2 50 "src_a" "sig_a"
                    "day" "hrr" "a1" db_two_days)) /\
         ss_source s = src' /\ ss_signal s = sig' /\
         ss_geo_type s = gty' /\ ss_geo_value s = gv') <->
      (exists s,
         In s (Database.get_keys_with_potentially_stale_direction
                 db_two_days) /\
         ss_source s = src' /\ ss_signal s = sig' /\
         ss_geo_type s = gty' /\ ss_geo_value s = gv'))).
Proof.
  apply (update_timeseries_timestamp2_confirms_series 50 "src_a" "sig_a"
           "hrr" "a1" db_two_days).
  simpl. intros r [<- | [<- | []]] _; simpl; lia.
Defined.

(** ** [get_daily_timeseries_for_direction_update] *)

Lemma where_daily_timeseries_true
    (src sig gty gval : string) (lo hi : Z) (r : row) :
  where_daily_timeseries src sig gty gval lo hi r = true <->
  source r = src /\ signal r = sig /\ time_type r = "day" /\
  geo_type r = gty /\ geo_value r = gval /\ lo <= time_value r <= hi.
Proof.
  unfold where_daily_timeseries.
  rewrite !andb_true_iff, !String.eqb_eq, !Z.leb_le. tauto.
Qed.

Section DailyTimeseries.

Variable to_days : Z -> option Z.

(** X8.  The result of [get_daily_timeseries_for_direction_update] is read
    off a list [sel] of rows, one result per row and in the same order:
    [sel] holds exactly the day rows of the given series whose
    [time_value], as an integer, lies between [min_day] and [max_day]
    inclusive, and ascends in [time_value]; a result carries the offset of
    its day to [min_day], the day, the value and both timestamps.  With
    [max_day] below [min_day] the result is empty. *)
Theorem get_daily_timeseries_for_direction_update_window
    (src sig gty gval : string) (lo hi : Z) (db : database) :
  exists sel : list row,
    Permutation sel
      (filter (where_daily_timeseries src sig gty gval lo hi)
         (covidcast db)) /\
    (forall r,
       In r sel <->
       In r (covidcast db) /\
       source r = src /\ signal r = sig /\ time_type r = "day" /\
       geo_type r = gty /\ geo_value r = gval /\
       lo <= time_value r <= hi) /\
    StronglySorted (fun a b => time_value a <= time_value b) sel /\
    Database.get_daily_timeseries_for_direction_update to_days
      src sig gty gval lo hi db =
    map (fun r =>
           {| ts_offset := datediff to_days (time_value r) lo;
              ts_day := time_value r;
              ts_value := value r;
              ts_timestamp1 := timestamp1 r;
              ts_timestamp2 := timestamp2 r |}) sel /\
    (hi < lo ->
     Database.get_daily_timeseries_for_direction_update to_days
       src sig gty gval lo hi db = []).
Proof.
  set (hit := filter (where_daily_timeseries src sig gty gval lo hi)
                (covidcast db)).
  exists (order_by time_value_asc hit).
  assert (Hin : forall r,
            In r (order_by time_value_asc hit) <->
            In r (covidcast db) /\
            where_daily_timeseries src sig gty gval lo hi r = true).
  { intros r. rewrite order_by_In. unfold hit. apply filter_In. }
  split; [apply order_by_perm |].
  split; [intros r; rewrite Hin, where_daily_timeseries_true; tauto |].
  split.
  - apply strongly_sorted_weaken with
      (R := fun a b => time_value_asc a b = true).
    + intros a b H. now apply Z.leb_le in H.
    + apply order_by_sorted; unfold time_value_asc.
      * intros a b. rewrite !Z.leb_le. lia.
      * intros a b c. rewrite !Z.leb_le. lia.
  - split; [reflexivity |].
    intros Hlt. unfold Database.get_daily_timeseries_for_direction_update.
    fold hit.
    assert (Hnil : hit = []).
    { unfold hit. apply filter_none. intros r _.
      destruct (where_daily_timeseries src sig gty gval lo hi r) eqn:E;
        [| reflexivity].
      apply where_daily_timeseries_true in E. lia. }
    now rewrite Hnil.
Qed.

(** X9.  The series query hands the update what it needs to read the whole
    series back: a row of [get_keys_with_potentially_stale_direction] has a
    [min_day] and a [max_day], and
    [get_daily_timeseries_for_direction_update] called with its series and
    these two days returns [series_length] rows, at least one. *)
Theorem potentially_stale_series_read_back (db : database) (s : stale_series) :
  In s (Database.get_keys_with_potentially_stale_direction db) ->
  exists lo hi,
    min_day s = Some lo /\ max_day s = Some hi /\ lo <= hi /\
    1 <= series_length s /\
    Z.of_nat
      (List.length
         (Database.get_daily_timeseries_for_direction_update to_days
            (ss_source s) (ss_signal s) (ss_geo_type s) (ss_geo_value s)
            lo hi db)) = series_length s.
Proof.
  intros Hs.
  destruct (potentially_stale_series_group db s Hs)
    as [r [g [Hr [Hg [Hsel [Hsrc [Hsig [Hgty [Hgv [Hday _]]]]]]]]]].
  assert (Hne : map time_value g <> [])
    by (destruct g; [contradiction | discriminate]).
  destruct (sql_min_spec _ Hne) as [lo [Hlo [Hinlo Hlb]]].
  destruct (sql_max_spec _ Hne) as [hi [Hhi [_ Hub]]].
  assert (Hfields : min_day s = Some lo /\ max_day s = Some hi /\
                    series_length s = Z.of_nat (List.length g) /\
                    1 <= Z.of_nat (List.length g)).
  { clear Hg. destruct g as [| r0 g']; [contradiction |].
    cbn [Database.stale_series_select] in Hsel.
    injection Hsel as <-. cbn [min_day max_day series_length List.length].
    repeat split; auto. lia. }
  destruct Hfields as [Hmin [Hmax [Hlen Hpos]]].
  exists lo, hi. split; [exact Hmin |]. split; [exact Hmax |].
  split; [now apply Hub |].
  split; [now rewrite Hlen |].
  unfold Database.get_daily_timeseries_for_direction_update.
  rewrite length_map, order_by_length, Hlen. do 2 f_equal.
  rewrite Hg at 1. rewrite filter_filter_andb.
  apply filter_ext_in. intros y Hy. apply eq_true_iff_eq.
  rewrite where_daily_timeseries_true, andb_true_iff, String.eqb_eq,
    series_eqb_eq.
  split.
  - intros [H1 [H2 [H3 [H4 [H5 _]]]]]. split; [exact H3 |].
    unfold series_of. congruence.
  - intros [H3 Hser].
    assert (Hyg : In y g)
      by (rewrite Hg; apply stale_series_group; auto).
    unfold series_of in Hser. injection Hser as E1 E2 _ E4 E5.
    repeat split; try congruence.
    + apply Hlb. now apply in_map.
    + apply Hub. now apply in_map.
Qed.

End DailyTimeseries.

Lemma potentially_stale_series_read_back_witness :
  exists lo hi,
    Some 20200418 = Some lo /\ Some 20200419 = Some hi /\ lo <= hi /\
    1 <= 2 /\
    Z.of_nat
      (List.length
         (Database.get_daily_timeseries_for_direction_update ymd_to_days
            "src_a" "sig_a" "hrr" "a1" lo hi db_two_days)) = 2.
Proof.
  apply (potentially_stale_series_read_back ymd_to_days db_two_days
           (mk_stale_series "src_a" "sig_a" "hrr" "a1" (Some 30) (Some 20)
              (Some 20200418) (Some 20200419) 2)).
  vm_compute. left. reflexivity.
Defined.

(** The series of the example read back from its first to its last day. *)
Example get_daily_timeseries_two_days :
  Database.get_daily_timeseries_for_direction_update ymd_to_days
    "src_a" "sig_a" "hrr" "a1" 20200418 20200419 db_two_days =
  [ mk_timeseries_row (Some 0) 20200418 (3 # 2) 10 20;
    mk_timeseries_row (Some 1) 20200419 (5 # 2) 30 40 ].
Proof. reflexivity. Qed.

(** ** Shape of the results of the staleness queries *)

Section StaleRowsShape.

Variable to_days : Z -> option Z.

(** X10.  In a table that satisfies the unique index, a result of
    [get_rows_with_stale_direction] has at most 10000 rows and reports no
    key twice; every row of it is for a day row of the table and carries a
    [max_timestamp1] above the [timestamp2] it reports. *)
Theorem get_rows_with_stale_direction_shape
    (rand : nat -> Q) (db : database) :
  unique_key (covidcast db) ->
  Z.of_nat
    (List.length (Database.get_rows_with_stale_direction to_days rand db))
    <= 10000 /\
  NoDup
    (map stale_key (Database.get_rows_with_stale_direction to_days rand db)) /\
  (forall s,
     In s (Database.get_rows_with_stale_direction to_days rand db) ->
     exists c m,
       In c (covidcast db) /\ time_type c = "day" /\
       stale_key s = key_of c /\ stale_timestamp2 s = timestamp2 c /\
       max_timestamp1 s = Some m /\ stale_timestamp2 s < m).
Proof.
  intros Hu. split; [| split].
  - unfold Database.get_rows_with_stale_direction.
    apply sql_limit_length. lia.
  - unfold Database.get_rows_with_stale_direction, sql_limit.
    rewrite <- firstn_map. apply NoDup_firstn.
    apply (Permutation_NoDup
             (Permutation_map stale_key
                (Permutation_sym (order_by_rand_perm rand _)))).
    rewrite (stale_direction_having_rows to_days _ Hu), map_map.
    cbn [stale_key stale_row_of].
    now apply NoDup_map_filter.
  - intros s Hs.
    destruct (proj1 (get_rows_with_stale_direction_In to_days rand db s Hu)
                Hs) as [c [Hc [Hst ->]]].
    pose proof Hst as Hst'. unfold is_stale in Hst'.
    apply andb_true_iff in Hst'. destruct Hst' as [Hday Hex].
    apply String.eqb_eq in Hday.
    rewrite <- sql_gt_max_existsb in Hex. apply sql_gt_true in Hex.
    destruct Hex as [m [y [Hm [Hy Hlt]]]]. injection Hy as <-.
    exists c, m. cbn [stale_key stale_timestamp2 max_timestamp1 stale_row_of].
    repeat split; auto.
Qed.

(** X11.  Direction is kept for days only: on a table without a day row
    the two staleness queries and, for every series and day, the two
    reads for the direction update return nothing. *)
Theorem no_day_rows_no_results
    (rand : nat -> Q) (db : database)
    (src sig gty gval : string) (day lo hi : Z) :
  (forall r, In r (covidcast db) -> time_type r <> "day") ->
  Database.get_rows_with_stale_direction to_days rand db = [] /\
  Database.get_keys_with_potentially_stale_direction db = [] /\
  Database.get_rows_to_compute_direction to_days src sig gty day gval db
    = [] /\
  Database.get_daily_timeseries_for_direction_update to_days
    src sig gty gval lo hi db = [].
Proof.
  intros Hno.
  assert (Hday : forall r, In r (covidcast db) ->
            (time_type r =? "day")%string = false).
  { intros r Hr. destruct (time_type r =? "day")%string eqn:E;
      [| reflexivity].
    apply String.eqb_eq in E. exfalso. now apply (Hno r). }
  split; [| split; [| split]].
  - unfold Database.get_rows_with_stale_direction,
      Database.stale_direction_having.
    rewrite stale_direction_join_pairs.
    assert (Hnil : flat_map (pairs_of to_days (covidcast db)) (covidcast db)
                   = []).
    { assert (H : forall l, (forall r, In r l -> In r (covidcast db)) ->
                flat_map (pairs_of to_days (covidcast db)) l = []).
      { induction l as [| a l IH]; intros Hl; [reflexivity |].
        cbn [flat_map]. rewrite IH by (intros; apply Hl; now right).
        unfold pairs_of. rewrite Hday by (apply Hl; now left). reflexivity. }
      apply H. auto. }
    rewrite Hnil. reflexivity.
  - unfold Database.get_keys_with_potentially_stale_direction.
    rewrite (filter_none _ _ Hday). reflexivity.
  - unfold Database.get_rows_to_compute_direction.
    rewrite filter_none; [reflexivity |].
    intros r Hr. unfold where_direction_window.
    rewrite (Hday r Hr), !andb_false_r. reflexivity.
  - unfold Database.get_daily_timeseries_for_direction_update.
    rewrite filter_none; [reflexivity |].
    intros r Hr. unfold where_daily_timeseries.
    rewrite (Hday r Hr), !andb_false_r. reflexivity.
Qed.

End StaleRowsShape.

Lemma get_rows_with_stale_direction_shape_witness :
  Z.of_nat
    (List.length
       (Database.get_rows_with_stale_direction ymd_to_days no_shuffle
          db_rewritten)) <= 10000 /\
  NoDup
    (map stale_key
       (Database.get_rows_with_stale_direction ymd_to_days no_shuffle
          db_rewritten)) /\
  (forall s,
     In s (Database.get_rows_with_stale_direction ymd_to_days no_shuffle
             db_rewritten) ->
     exists c m,
       In c (covidcast db_rewritten) /\ time_type c = "day" /\
       stale_key s = key_of c /\ stale_timestamp2 s = timestamp2 c /\
       max_timestamp1 s = Some m /\ stale_timestamp2 s < m).
Proof.
  apply (get_rows_with_stale_direction_shape ymd_to_days no_shuffle
           db_rewritten).
  unfold unique_key. simpl.
  constructor; [simpl; intros [H | []]; discriminate |].
  constructor; [simpl; tauto | constructor].
Defined.

Lemma no_day_rows_no_results_witness :
  Database.get_rows_with_stale_direction ymd_to_days no_shuffle db_week
    = [] /\
  Database.get_keys_with_potentially_stale_direction db_week = [] /\
  Database.get_rows_to_compute_direction ymd_to_days "src_b" "sig_b" "msa"
    20200419 "b1" db_week = [] /\
  Database.get_daily_timeseries_for_direction_update ymd_to_days
    "src_b" "sig_b" "msa" "b1" 202001 202052 db_week = [].
Proof.
  apply (no_day_rows_no_results ymd_to_days no_shuffle db_week
           "src_b" "sig_b" "msa" "b1" 20200419 202001 202052).
  simpl. intros r [<- | []]. simpl. discriminate.
Defined.

(** The select list over the group of a series of the day rows. *)
Lemma stale_series_select_group (days : list row) (k : series) :
  (forall r, In r days -> time_type r = "day") ->
  In k (map series_of days) ->
  exists s src sig gty gv,
    Database.stale_series_select
      (filter (fun x => series_eqb (series_of x) k) days) = [s] /\
    k = (src, sig, "day", gty, gv) /\
    ss_source s = src /\ ss_signal s = sig /\
    ss_geo_type s = gty /\ ss_geo_value s = gv.
Proof.
  intros Hdays Hk. apply in_map_iff in Hk. destruct Hk as [x [Hx Hin]].
  assert (Hxg : In x (filter (fun y => series_eqb (series_of y) k) days))
    by (apply filter_In; split; [exact Hin | now apply series_eqb_eq]).
  destruct (filter (fun y => series_eqb (series_of y) k) days)
    as [| r g'] eqn:Eg; [contradiction |].
  assert (Hr : In r days /\ series_eqb (series_of r) k = true).
  { apply (proj1 (filter_In (fun y => series_eqb (series_of y) k) r days)).
    rewrite Eg. now left. }
  destruct Hr as [Hrd Hrk]. apply series_eqb_eq in Hrk.
  eexists. exists (source r), (signal r), (geo_type r), (geo_value r).
  split; [reflexivity |].
  split; [| repeat split].
  rewrite <- Hrk. unfold series_of. now rewrite (Hdays r Hrd).
Qed.

(** X12.  [get_keys_with_potentially_stale_direction] returns every series
    once: no two rows of its result agree on source, signal, geo_type and
    geo_value. *)
Theorem get_keys_with_potentially_stale_direction_once (db : database) :
  NoDup
    (map (fun s => (ss_source s, ss_signal s, ss_geo_type s, ss_geo_value s))
       (Database.get_keys_with_potentially_stale_direction db)).
Proof.
  unfold Database.get_keys_with_potentially_stale_direction, group_by.
  set (days := filter (fun r => (time_type r =? "day")%string)
                 (covidcast db)).
  assert (Hdays : forall r, In r days -> time_type r = "day").
  { intros r Hr. apply filter_In in Hr. now apply String.eqb_eq. }
  pose proof (distinct_NoDup series_eqb series_eqb_eq
                (map series_of days)) as Hnd.
  assert (Hsub : forall k, In k (distinct series_eqb (map series_of days)) ->
            In k (map series_of days))
    by (intros k; apply (distinct_In series_eqb series_eqb_eq)).
  induction (distinct series_eqb (map series_of days)) as [| k l IH].
  - constructor.
  - inversion Hnd as [| ? ? Hnot Hnd']; subst.
    cbn [map flat_map].
    destruct (stale_series_select_group days k Hdays (Hsub k (or_introl eq_refl)))
      as [s [src [sig [gty [gv [Hsel [Hk [Hsrc [Hsig [Hgty Hgv]]]]]]]]]].
    rewrite Hsel, filter_app, map_app.
    assert (Hrest : NoDup
              (map (fun s => (ss_source s, ss_signal s, ss_geo_type s,
                              ss_geo_value s))
                 (filter
                    (fun s => sql_gt (ss_max_timestamp1 s)
                                (ss_min_timestamp2 s))
                    (flat_map Database.stale_series_select
                       (map (fun k0 =>
                               filter (fun x => series_eqb (series_of x) k0)
                                 days) l)))))
      by (apply IH; [exact Hnd' | intros; apply Hsub; now right]).
    cbn [filter]. destruct (sql_gt _ _); cbn [map app]; [| exact Hrest].
    constructor; [| exact Hrest].
    intros Hin. apply in_map_iff in Hin. destruct Hin as [s' [Heq Hin]].
    apply filter_In in Hin. destruct Hin as [Hin _].
    apply in_flat_map in Hin. destruct Hin as [g [Hg Hs']].
    apply in_map_iff in Hg. destruct Hg as [k' [<- Hk']].
    destruct (stale_series_select_group days k' Hdays
                (Hsub k' (or_intror Hk')))
      as [s2 [src2 [sig2 [gty2 [gv2 [Hsel2 [Hk2 [Hs1 [Hs2 [Hs3 Hs4]]]]]]]]]].
    rewrite Hsel2 in Hs'. destruct Hs' as [<- | []].
    apply Hnot. injection Heq as E1 E2 E3 E4.
    assert (E : k' = k) by congruence. rewrite <- E. exact Hk'.
Qed.

(** ** Writes followed by the reads for the direction update *)

Lemma filter_singleton {A : Type} (p : A -> bool) (l : list A) (c : A) :
  NoDup l -> In c l -> p c = true ->
  (forall d, In d l -> p d = true -> d = c) ->
  filter p l = [c].
Proof.
  intros Hnd Hin Hpc Hone.
  induction l as [| a l IH]; [contradiction |].
  inversion Hnd as [| ? ? Hnot Hnd']; subst.
  cbn [filter]. destruct Hin as [-> | Hin].
  - rewrite Hpc. f_equal. apply filter_none.
    intros d Hd. destruct (p d) eqn:E; [| reflexivity].
    exfalso. apply Hnot. rewrite <- (Hone d); auto. now right.
  - destruct (p a) eqn:E.
    + exfalso. apply Hnot. rewrite (Hone a); auto. now left.
    + apply IH; auto. intros d Hd. apply Hone. now right.
Qed.

Lemma insert_by_map {A : Type} (leb : A -> A -> bool) (f : A -> A)
    (x : A) (l : list A) :
  (forall a b, leb (f a) (f b) = leb a b) ->
  insert_by leb (f x) (map f l) = map f (insert_by leb x l).
Proof.
  intros H. induction l as [| y l IH]; cbn [map insert_by]; [reflexivity |].
  rewrite H. destruct (leb x y); cbn [map]; [reflexivity |].
  now rewrite IH.
Qed.

Lemma order_by_map {A : Type} (leb : A -> A -> bool) (f : A -> A)
    (l : list A) :
  (forall a b, leb (f a) (f b) = leb a b) ->
  order_by leb (map f l) = map f (order_by leb l).
Proof.
  intros H. induction l as [| x l IH]; cbn [map order_by]; [reflexivity |].
  now rewrite IH, insert_by_map.
Qed.

Section WritesAndReads.

Variable to_days : Z -> option Z.

(** X13.  What is written is read back: after [insert_or_update] of a day
    whose [time_value] is a date, with a value that the DOUBLE column holds
    as it is, in a table that satisfies the unique index,
    [get_daily_timeseries_for_direction_update] over that one day returns
    one row, with offset 0, the value written and [timestamp1] the time of
    the write, and [get_rows_to_compute_direction] for that day holds the
    value at offset 0. *)
Theorem insert_or_update_read_back
    (now : Z) (src sig gty : string) (tv : Z) (gv : string)
    (v : Q) (se ss : option Q) (db : database) :
  unique_key (covidcast db) ->
  to_days tv <> None ->
  is_double v ->
  exists db' t2,
    Database.insert_or_update now src sig "day" gty tv gv v se ss db =
      inr db' /\
    Database.get_daily_timeseries_for_direction_update to_days
      src sig gty gv tv tv db' =
      [ {| ts_offset := Some 0; ts_day := tv; ts_value := v;
           ts_timestamp1 := now; ts_timestamp2 := t2 |} ] /\
    In (Some 0, v)
       (Database.get_rows_to_compute_direction to_days src sig gty tv gv db').
Proof.
  intros Hu Hdate _.
  destruct (insert_or_update_stores now src sig "day" gty tv gv v se ss db)
    as [db' [r' [E [Hin [Hk [Hv [_ [_ [Ht1 _]]]]]]]]].
  assert (Hu' : unique_key (covidcast db'))
    by (eapply insert_or_update_keeps_unique_key; eauto).
  assert (Hdiff : datediff to_days tv tv = Some 0).
  { unfold datediff. destruct (to_days tv); [| congruence].
    f_equal. lia. }
  unfold key_of in Hk. injection Hk as Ksrc Ksig Ktty Kgty Ktv Kgv.
  exists db', (timestamp2 r'). split; [exact E |]. split.
  - unfold Database.get_daily_timeseries_for_direction_update.
    rewrite (filter_singleton _ (covidcast db') r').
    + cbn [order_by insert_by map]. unfold select_daily_timeseries.
      now rewrite Ktv, Hv, Ht1, Hdiff.
    + now apply unique_key_NoDup.
    + exact Hin.
    + apply where_daily_timeseries_true. repeat split; auto; lia.
    + intros d Hd Hp. apply where_daily_timeseries_true in Hp.
      destruct Hp as [P1 [P2 [P3 [P4 [P5 P6]]]]].
      apply (unique_key_inj (covidcast db')); auto.
      unfold key_of. f_equal; try congruence.
      f_equal; try congruence. lia.
  - unfold Database.get_rows_to_compute_direction.
    apply in_map_iff. exists r'. split.
    + unfold select_time_offset. now rewrite Ktv, Hv, Hdiff.
    + apply order_by_In, filter_In. split; [exact Hin |].
      apply where_direction_window_true. repeat split; auto.
      exists 0. rewrite Ktv. split; [exact Hdiff | lia].
Qed.

(** X14.  Confirming does not change what the direction is computed from:
    the result of [get_rows_to_compute_direction], for every series and
    day, is the same after [update_direction] and after
    [update_timeseries_timestamp2] as before. *)
Theorem direction_updates_keep_windows
    (src sig gty : string) (day : Z) (gval : string)
    (now : Z) (src' sig' tty' gty' : string) (tv' : Z) (gv' : string)
    (d : option Z) (db : database) :
  Database.get_rows_to_compute_direction to_days src sig gty day gval
    (Database.update_direction now src' sig' tty' gty' tv' gv' d db) =
  Database.get_rows_to_compute_direction to_days src sig gty day gval db /\
  Database.get_rows_to_compute_direction to_days src sig gty day gval
    (Database.update_timeseries_timestamp2 now src' sig' tty' gty' gv' db) =
  Database.get_rows_to_compute_direction to_days src sig gty day gval db.
Proof.
  assert (Hmap : forall f : row -> row,
            (forall r, source (f r) = source r /\ signal (f r) = signal r /\
                       time_type (f r) = time_type r /\
                       geo_type (f r) = geo_type r /\
                       geo_value (f r) = geo_value r /\
                       time_value (f r) = time_value r /\
                       value (f r) = value r) ->
            map (select_time_offset to_days day)
              (order_by time_value_asc
                 (filter (where_direction_window to_days src sig gty day gval)
                    (map f (covidcast db)))) =
            map (select_time_offset to_days day)
              (order_by time_value_asc
                 (filter (where_direction_window to_days src sig gty day gval)
                    (covidcast db)))).
  { intros f Hf. rewrite filter_map_swap.
    rewrite (filter_ext
               (fun x => where_direction_window to_days src sig gty day gval
                           (f x))
               (where_direction_window to_days src sig gty day gval)).
    - rewrite order_by_map.
      + rewrite map_map. apply map_ext. intros r.
        unfold select_time_offset.
        destruct (Hf r) as [_ [_ [_ [_ [_ [Htv Hv]]]]]].
        now rewrite Htv, Hv.
      + intros a b. unfold time_value_asc.
        destruct (Hf a) as [_ [_ [_ [_ [_ [Ha _]]]]]].
        destruct (Hf b) as [_ [_ [_ [_ [_ [Hb _]]]]]].
        now rewrite Ha, Hb.
    - intros r. unfold where_direction_window.
      destruct (Hf r) as [H1 [H2 [H3 [H4 [H5 [H6 _]]]]]].
      now rewrite H1, H2, H3, H4, H5, H6. }
  split.
  - unfold Database.get_rows_to_compute_direction, Database.update_direction.
    cbn [covidcast]. apply Hmap.
    intros r. destruct (key_eqb _ _); repeat split.
  - unfold Database.get_rows_to_compute_direction,
      Database.update_timeseries_timestamp2.
    cbn [covidcast]. apply Hmap.
    intros r. destruct (series_eqb _ _); repeat split.
Qed.

End WritesAndReads.

Lemma insert_or_update_read_back_witness :
  exists db' t2,
    Database.insert_or_update 1587400000 "src_a" "sig_a" "day" "hrr" 20200419
      "a1" (7 # 2) None None db_confirmed = inr db' /\
    Database.get_daily_timeseries_for_direction_update ymd_to_days
      "src_a" "sig_a" "hrr" "a1" 20200419 20200419 db' =
      [ {| ts_offset := Some 0; ts_day := 20200419; ts_value := (7 # 2);
           ts_timestamp1 := 1587400000; ts_timestamp2 := t2 |} ] /\
    In (Some 0, (7 # 2))
       (Database.get_rows_to_compute_direction ymd_to_days
          "src_a" "sig_a" "hrr" 20200419 "a1" db').
Proof.
  apply (insert_or_update_read_back ymd_to_days 1587400000
           "src_a" "sig_a" "hrr" 20200419 "a1" (7 # 2) None None
           db_confirmed).
  - unfold unique_key. simpl. constructor; [simpl; tauto | constructor].
  - vm_compute. discriminate.
  - exists 7, (-1). split; [reflexivity |]. split; [lia | reflexivity].
Defined.

(** ** A connection from [connect] to [disconnect] *)

Section Session.

Variable clock : nat -> Z.

Lemma upsert_run (o : observation) (w : world) (db : database) :
  transaction w = Some db ->
  exists c,
    upsert clock o w =
    (inr tt,
     {| committed := committed w;
        transaction := Some (apply_upsert (clock (executed w)) o db);
        executed := S (executed w);
        journal := journal w ++ [c] |}).
Proof.
  intros Hw. destruct o as [[[[[[s g] t] y] tv] gv] [[v se] ss]].
  unfold upsert, apply_upsert, Connection.insert_or_update. rewrite Hw.
  destruct (insert_or_update_no_error (clock (executed w)) s g t y tv gv
              v se ss db) as [db' E].
  rewrite E. cbn [committed transaction executed journal]. eauto.
Qed.

Lemma upserts_run (os : list observation) (w : world) (db : database) :
  transaction w = Some db ->
  fst (for_each os (upsert clock) w) = inr tt /\
  committed (snd (for_each os (upsert clock) w)) = committed w /\
  transaction (snd (for_each os (upsert clock) w)) =
    Some (apply_upserts clock (executed w) os db).
Proof.
  revert w db. induction os as [| o os IH]; intros w db Hw.
  - cbn [for_each apply_upserts]. unfold ret. cbn [fst snd]. auto.
  - cbn [for_each apply_upserts]. unfold bind.
    destruct (upsert_run o w db Hw) as [c E]. rewrite E.
    match goal with
    | |- context [for_each os (upsert clock) ?w1] =>
        destruct (IH w1 (apply_upsert (clock (executed w)) o db) eq_refl)
          as [H1 [H2 H3]]
    end.
    cbn [committed executed] in H2, H3. auto.
Qed.

Lemma apply_upserts_unique_key (n : nat) (os : list observation)
    (db : database) :
  unique_key (covidcast db) ->
  unique_key (covidcast (apply_upserts clock n os db)).
Proof.
  revert n db. induction os as [| o os IH]; intros n db Hu; [exact Hu |].
  cbn [apply_upserts]. apply IH.
  destruct o as [[[[[[s g] t] y] tv] gv] [[v se] ss]]. unfold apply_upsert.
  destruct (Database.insert_or_update (clock n) s g t y tv gv v se ss db)
    as [e | db'] eqn:E; [exact Hu |].
  eapply insert_or_update_keeps_unique_key; eauto.
Qed.

(** X15.  Between [connect] and [disconnect], calls of [insert_or_update]
    raise nothing and leave the server's table as it was; a [disconnect]
    without commit keeps it so, and a [disconnect] with commit makes it the
    table that the calls, applied in order to the table found at
    [connect], produce, in which the unique index holds if it held
    before. *)
Theorem session_commit_or_rollback (os : list observation) (w : world) :
  let w1 := snd (Connection.connect w) in
  let w2 := snd (for_each os (upsert clock) w1) in
  fst (for_each os (upsert clock) w1) = inr tt /\
  committed w2 = committed w /\
  committed (snd (Connection.disconnect false w2)) = committed w /\
  committed (snd (Connection.disconnect true w2)) =
    apply_upserts clock (executed w) os (committed w) /\
  (unique_key (covidcast (committed w)) ->
   unique_key (covidcast (committed (snd (Connection.disconnect true w2))))).
Proof.
  cbv zeta.
  destruct (upserts_run os (snd (Connection.connect w)) (committed w)
              eq_refl) as [H1 [H2 H3]].
  cbn [Connection.connect snd committed executed] in H2, H3.
  split; [exact H1 |]. split; [exact H2 |].
  split; [now rewrite (proj1 (disconnect_rollback _)) |].
  assert (Hc : committed
                 (snd (Connection.disconnect true
                         (snd (for_each os (upsert clock)
                                 (snd (Connection.connect w)))))) =
               apply_upserts clock (executed w) os (committed w))
    by (apply disconnect_commit; exact H3).
  split; [exact Hc |].
  intros Hu. rewrite Hc. now apply apply_upserts_unique_key.
Qed.

End Session.

(** ** The two staleness queries together *)

(** X16.  A stale row lies in a potentially stale series: in a table that
    satisfies the unique index, every row that
    [get_rows_with_stale_direction] reports is for a row of the table
    whose series [get_keys_with_potentially_stale_direction] returns. *)
Theorem stale_row_in_potentially_stale_series
    (to_days : Z -> option Z) (rand : nat -> Q) (db : database)
    (s : stale_row) :
  unique_key (covidcast db) ->
  In s (Database.get_rows_with_stale_direction to_days rand db) ->
  exists c q,
    In c (covidcast db) /\ stale_key s = key_of c /\
    In q (Database.get_keys_with_potentially_stale_direction db) /\
    ss_source q = source c /\ ss_signal q = signal c /\
    ss_geo_type q = geo_type c /\ ss_geo_value q = geo_value c.
Proof.
  intros Hu Hs.
  destruct (proj1 (get_rows_with_stale_direction_In to_days rand db s Hu) Hs)
    as [c [Hc [Hst ->]]].
  apply is_stale_true in Hst.
  destruct Hst as [Hday [d [Hd [Hser [_ Hlt]]]]].
  assert (Hk : series_of c =
               (source c, signal c, "day", geo_type c, geo_value c))
    by (unfold series_of; now rewrite Hday).
  destruct (potentially_stale_series_returned db (source c) (signal c)
              (geo_type c) (geo_value c) d c Hd Hc)
    as [q [Hq [Q1 [Q2 [Q3 Q4]]]]]; [congruence | exact Hk | exact Hlt |].
  exists c, q. repeat split; auto.
Qed.

Lemma stale_row_in_potentially_stale_series_witness :
  exists c q,
    In c (covidcast db_rewritten) /\
    ("src_a", "sig_a", "day", "hrr", 20200419, "a1") = key_of c /\
    In q (Database.get_keys_with_potentially_stale_direction db_rewritten) /\
    ss_source q = source c /\ ss_signal q = signal c /\
    ss_geo_type q = geo_type c /\ ss_geo_value q = geo_value c.
Proof.
  apply (stale_row_in_potentially_stale_series ymd_to_days no_shuffle
           db_rewritten
           (mk_stale_row ("src_a", "sig_a", "day", "hrr", 20200419, "a1")
              40 (Some 50) 2)).
  - unfold unique_key. simpl.
    constructor; [simpl; intros [H | []]; discriminate |].
    constructor; [simpl; tauto | constructor].
  - vm_compute. left. reflexivity.
Defined.
